(** * FinStock-AI dashboard: the return histogram of [frontend/js/charts.js]

    [createOrUpdateReturnHistogram] (charts.js, and the older copy kept in
    ui.js) turns the series of daily returns sent by the backend into the
    bars of a Chart.js bar chart.  The function is embedded here as it is
    written: JavaScript numbers are IEEE 754 binary64 values, so they are
    Rocq's primitive [float]s, whose operations are specified bit for bit
    by [SpecFloat] through the axioms of [FloatAxioms]; the [Math]
    functions follow ECMA-262; the DOM, the console and the Chart.js
    constructor are an explicit page state and a trace of effects.

    The code around the histogram is embedded in the same way: the two
    chart handles of charts.js with [destroyAllCharts], and the older
    copies of these functions kept in ui.js; the tooltip of a bar; the
    helpers of ui.js that write texts and colour classes into the
    document; and the [input] listener of the search box in main.js with
    its timer. *)

From Stdlib Require Import ZArith List Lia Bool String Ascii Permutation.
From Stdlib Require Import DecimalString.
From Stdlib Require Import Floats.
Import ListNotations.

Local Open Scope Z_scope.

(** ** JavaScript numbers *)

Definition number := float.

Module Num.

(** The double nearest to an integer (exact below [2^53]); [szero] is the
    sign given to a zero result. *)
Definition of_Z (z : Z) (szero : bool) : number :=
  SF2Prim (binary_normalize prec emax z 0 szero).

Definition of_nat (n : nat) : number := of_Z (Z.of_nat n) false.

(** The mathematical value of a number that holds an integer. *)
Definition to_integer (x : number) : option Z :=
  match Prim2SF x with
  | S754_zero _ => Some 0
  | S754_finite s m e =>
      if 0 <=? e then Some (cond_Zopp s (Zpos m * 2 ^ e))
      else if (Zpos m) mod 2 ^ (- e) =? 0
           then Some (cond_Zopp s (Zpos m / 2 ^ (- e)))
           else None
  | _ => None
  end.

Definition is_neg_zero (x : number) : bool := is_zero x && get_sign x.
Definition is_pos_zero (x : number) : bool := is_zero x && negb (get_sign x).

End Num.

(** ** The [Math] object (ECMA-262, 21.3.2) *)

Module Math.

(** [Math.max(...args)]: [NaN] if any argument is, else the largest one,
    [+0] counting as larger than [-0]. *)
Definition max_step (highest x : number) : number :=
  if Num.is_pos_zero x && Num.is_neg_zero highest then x
  else if (highest <? x)%float then x else highest.

Definition max (args : list number) : number :=
  if existsb is_nan args then nan else fold_left max_step args neg_infinity.

(** [Math.min(...args)], with [-0] smaller than [+0]. *)
Definition min_step (lowest x : number) : number :=
  if Num.is_neg_zero x && Num.is_pos_zero lowest then x
  else if (x <? lowest)%float then x else lowest.

Definition min (args : list number) : number :=
  if existsb is_nan args then nan else fold_left min_step args infinity.

Definition sqrt (x : number) : number := PrimFloat.sqrt x.

(** [Math.floor]: a number with a non-negative binary exponent is an
    integer already; otherwise the mantissa is shifted, which rounds
    towards minus infinity. *)
Definition floor (x : number) : number :=
  match Prim2SF x with
  | S754_finite s m e =>
      if 0 <=? e then x
      else Num.of_Z (Z.shiftr (cond_Zopp s (Zpos m)) (- e)) false
  | _ => x
  end.

(** [Math.ceil x] is [-Math.floor(-x)]; a result in [(-1, 0)] is [-0]. *)
Definition ceil (x : number) : number :=
  match Prim2SF x with
  | S754_finite s m e =>
      if 0 <=? e then x
      else Num.of_Z (- Z.shiftr (cond_Zopp (negb s) (Zpos m)) (- e)) true
  | _ => x
  end.

End Math.

(** ** [Number.prototype.toFixed(2)] and [Number::toString] *)

Module NumberFormat.

Definition string_of_Z (z : Z) : string :=
  NilZero.string_of_uint (N.to_uint (Z.to_N z)).

(** The number of decimal digits of a positive integer. *)
Definition decimal_digits (z : Z) : Z :=
  Z.of_nat (String.length (string_of_Z z)).

Definition Z_of_finite (m : positive) (e : Z) : Z := Zpos m * 2 ^ e.

Definition round_trips (x : spec_float) (v : Z) : bool :=
  match x, binary_normalize prec emax v 0 false with
  | S754_finite _ m e, S754_finite _ m' e' => Pos.eqb m m' && (e =? e')
  | _, _ => false
  end.

(** The shortest decimal that reads back as [x] (at least [10^21], so an
    integer [v]), searched from one significant digit upwards: the result
    is the digit string [s] and the decimal exponent [n - 1]. *)
Fixpoint shortest (x : spec_float) (v n : Z) (k : Z) (fuel : nat)
  : Z * Z :=
  match fuel with
  | O => (v, n)
  | S fuel' =>
      let d := 10 ^ (n - k) in
      let lo := v / d in
      let hi := lo + 1 in
      let lo_ok := round_trips x (lo * d) in
      let hi_ok := round_trips x (hi * d) in
      let pick s := if s =? 10 ^ k then (10 ^ (k - 1), n + 1) else (s, n) in
      if lo_ok && hi_ok then
        match (v - lo * d) ?= (hi * d - v) with
        | Lt => pick lo
        | Gt => pick hi
        | Eq => if Z.even lo then pick lo else pick hi
        end
      else if lo_ok then pick lo
      else if hi_ok then pick hi
      else shortest x v n (k + 1) fuel'
  end.

Definition exponential (s n : Z) : string :=
  let ds := string_of_Z s in
  let body :=
    match ds with
    | String c EmptyString => ds
    | String c rest => String c ("." ++ rest)%string
    | EmptyString => ds
    end in
  (body ++ "e+" ++ string_of_Z (n - 1))%string.

(** [Number::toString] on the values [toFixed] hands over to it. *)
Definition toString_large (x : spec_float) : string :=
  match x with
  | S754_nan => "NaN"%string
  | S754_infinity false => "Infinity"%string
  | S754_infinity true => "-Infinity"%string
  | S754_zero _ => "0"%string
  | S754_finite _ m e =>
      let v := Z_of_finite m e in
      let '(s, n) := shortest x v (decimal_digits v) 1 17 in
      exponential s n
  end.

(** Two fraction digits: [n] is the integer nearest to [100 * |x|], the
    larger one on a tie. *)
Definition fixed2 (n : Z) : string :=
  let ds := string_of_Z n in
  let ds := match String.length ds with
            | 1%nat => ("00" ++ ds)%string
            | 2%nat => ("0" ++ ds)%string
            | _ => ds
            end in
  let k := String.length ds in
  (substring 0 (k - 2) ds ++ "." ++ substring (k - 2) 2 ds)%string.

Definition toFixed2 (x : number) : string :=
  match Prim2SF x with
  | S754_zero _ => "0.00"%string
  | S754_finite s m e =>
      let sign := (if s then "-" else "")%string in
      if 10 ^ 21 <=? (if 0 <=? e then Zpos m * 2 ^ e else 0) then
        (sign ++ toString_large (S754_finite false m e))%string
      else
        let n := if 0 <=? e then 100 * Zpos m * 2 ^ e
                 else (200 * Zpos m + 2 ^ (- e)) / 2 ^ (- e + 1) in
        (sign ++ fixed2 n)%string
  | sf => toString_large sf
  end.

End NumberFormat.

(** ** The bins array

    [bins] is a JavaScript array: [bins[key]++] on an index below the
    length adds one to that element, on an index past the end it extends
    the array with holes and stores [NaN] ([undefined + 1]), and on a key
    that is no array index ([NaN], a negative or fractional number) it only
    sets a named property and leaves the elements alone.  The counts are
    integers far below [2^53], where the doubles [++] works on are exact, so
    a count is an integer here. *)

Inductive cell : Type :=
| Count (c : Z)
| NotANumber
| Hole.

Inductive property_key : Type :=
| Index (i : nat)
| Named (x : number).

Record js_array : Type := mk_array {
  elements : list cell;
  named : list number
}.

Module Arr.

Definition max_length : Z := 2 ^ 32 - 1.

(** [Array(len)]: a [RangeError] unless [len] is an integer in
    [0, 2^32 - 1]. *)
Definition length_of (len : number) : option nat :=
  match Num.to_integer len with
  | Some z => if (0 <=? z) && (z <=? max_length) then Some (Z.to_nat z) else None
  | None => None
  end.

Definition key_of (x : number) : property_key :=
  match Num.to_integer x with
  | Some z => if (0 <=? z) && (z <? max_length) then Index (Z.to_nat z) else Named x
  | None => Named x
  end.

Definition fill0 (n : nat) : js_array := mk_array (repeat (Count 0) n) [].

Definition incr_cell (c : cell) : cell :=
  match c with
  | Count z => Count (z + 1)
  | NotANumber => NotANumber
  | Hole => NotANumber
  end.

Fixpoint incr_at (i : nat) (l : list cell) : list cell :=
  match i, l with
  | O, c :: l' => incr_cell c :: l'
  | O, [] => [NotANumber]
  | S i', c :: l' => c :: incr_at i' l'
  | S i', [] => Hole :: incr_at i' []
  end.

(** [a[key]++] *)
Definition increment (a : js_array) (key : number) : js_array :=
  match key_of key with
  | Index i => mk_array (incr_at i (elements a)) (named a)
  | Named x => mk_array (elements a) (x :: named a)
  end.

Definition count_of (c : cell) : Z :=
  match c with Count z => z | _ => 0 end.

Definition is_count (c : cell) : bool :=
  match c with Count _ => true | _ => false end.

(** The total the chart's bars add up to. *)
Definition total (a : js_array) : Z :=
  fold_right (fun c acc => count_of c + acc) 0 (elements a).

End Arr.

(** ** The binning of [createOrUpdateReturnHistogram] (charts.js 149-177) *)

Record bin_edge : Type := mk_edge { start : number; end_ : number }.

Record histogram : Type := mk_histogram {
  minReturn : number;
  maxReturn : number;
  numBins : number;
  range : number;
  binWidth : number;
  bins : js_array;
  labels : list string;
  binEdges : list bin_edge
}.

Section Binning.

Variable dailyReturns : list number.

Definition minReturn_of : number := Math.min dailyReturns.
Definition maxReturn_of : number := Math.max dailyReturns.

(** [Math.min(20, Math.max(10, Math.ceil(Math.sqrt(length) / 2)))] *)
Definition numBins_of : number :=
  Math.min [20; Math.max [10;
    Math.ceil (Math.sqrt (Num.of_nat (List.length dailyReturns)) / 2)]]%float.

Definition range_of : number := (maxReturn_of - minReturn_of)%float.

Definition binWidth_of : number :=
  if (0 <? range_of)%float then (range_of / numBins_of)%float else 1%float.

Definition binStart (i : nat) : number :=
  (minReturn_of + Num.of_nat i * binWidth_of)%float.

Definition binEnd (i : nat) : number :=
  if (Num.of_nat i =? numBins_of - 1)%float then maxReturn_of
  else (binStart i + binWidth_of)%float.

Definition edge (i : nat) : bin_edge := mk_edge (binStart i) (binEnd i).

Definition label (i : nat) : string :=
  (NumberFormat.toFixed2 (binStart i) ++ "%")%string.

(** The index a return is counted at when the width is not zero. *)
Definition binIndex (ret : number) : number :=
  let binIndex := Math.floor ((ret - minReturn_of) / binWidth_of)%float in
  let binIndex := Math.max [0; Math.min [numBins_of - 1; binIndex]]%float in
  if (ret =? maxReturn_of)%float && (binIndex <? numBins_of - 1)%float
  then (numBins_of - 1)%float
  else binIndex.

(** One call of the [forEach] callback. *)
Definition countReturn (bins : js_array) (ret : number) : js_array :=
  if (binWidth_of =? 0)%float then
    if (ret =? minReturn_of)%float then Arr.increment bins 0%float else bins
  else Arr.increment bins (binIndex ret).

(** The whole computation; [None] is the [RangeError] of [Array(numBins)].
    The [for] loop runs while [i < numBins], that is over
    [0 .. numBins - 1] once [Array(numBins)] has accepted [numBins]. *)
Definition computeHistogram : option histogram :=
  match Arr.length_of numBins_of with
  | None => None
  | Some n =>
      let idx := seq 0 n in
      Some (mk_histogram minReturn_of maxReturn_of numBins_of range_of
              binWidth_of
              (fold_left countReturn dailyReturns (Arr.fill0 n))
              (map label idx)
              (map edge idx))
  end.

End Binning.

(** ** The page: canvas, chart handle, console *)

Inductive js_value : Type :=
| Undefined
| Null
| ArrayOf (xs : list number).

(** What [createOrUpdateReturnHistogram] does to the outside world. *)
Inductive effect : Type :=
| ConsoleError (msg : string)
| ConsoleWarn (msg : string)
| ConsoleLog (msg : string)
| ChartDestroy
| ClearRect
| FillText (font style text : string)
| NewChart (h : histogram).

Record page : Type := mk_page {
  canvas : bool;              (* #returnHistogramChart is in the document *)
  histogramChart : bool;      (* the module variable holds a chart *)
  destroy_throws : bool;      (* Chart.js: chart.destroy() throws *)
  chart_throws : bool         (* Chart.js: new Chart(ctx, config) throws *)
}.

Definition set_chart (p : page) (b : bool) : page :=
  mk_page (canvas p) b (destroy_throws p) (chart_throws p).

Local Open Scope string_scope.

(** [destroyHistogramChart] (charts.js 24-35) *)
Definition destroyHistogramChart (p : page) : page * list effect :=
  if histogramChart p then
    if destroy_throws p then
      (set_chart p false,
       [ChartDestroy; ConsoleError "Error destroying histogram chart:"])
    else
      (set_chart p false,
       [ChartDestroy; ConsoleLog "Histogram chart destroyed."])
  else (p, []).

Inductive outcome : Type :=
| NoCanvas
| NoData
| Rendered (h : histogram)
| ChartFailed
| Thrown.

(** [!dailyReturns || dailyReturns.length === 0] *)
Definition no_returns (v : js_value) : bool :=
  match v with
  | Undefined | Null => true
  | ArrayOf xs => Nat.eqb (List.length xs) 0
  end.

Definition returns_of (v : js_value) : list number :=
  match v with ArrayOf xs => xs | _ => [] end.

(** [createOrUpdateReturnHistogram] (charts.js 132-240) *)
Definition createOrUpdateReturnHistogram (p : page) (dailyReturns : js_value)
  : page * list effect * outcome :=
  if negb (canvas p) then
    (p, [ConsoleError "Canvas element #returnHistogramChart not found!"],
     NoCanvas)
  else
    let '(p1, destroyed) := destroyHistogramChart p in
    if no_returns dailyReturns then
      (p1,
       (destroyed ++
        [ConsoleWarn "No daily returns data available for histogram.";
         ClearRect;
         FillText "14px sans-serif" "var(--text-secondary)"
           "No return data available."])%list,
       NoData)
    else
      match computeHistogram (returns_of dailyReturns) with
      | None => (p1, destroyed, Thrown)
      | Some h =>
          if chart_throws p1 then
            (p1,
             (destroyed ++
              [NewChart h;
               ConsoleError "Error creating histogram:";
               ClearRect;
               FillText "14px sans-serif" "var(--accent-red)"
                 "Error creating histogram."])%list,
             ChartFailed)
          else
            (set_chart p1 true,
             (destroyed ++
              [NewChart h; ConsoleLog "Return histogram created/updated."])%list,
             Rendered h)
      end.

Local Close Scope string_scope.


(** ** The bin-count policy as the specification words it

    [numBins = clamp(ceil(sqrt(n) / 2), 10, 20)] over the integers:
    [ceil(sqrt(n) / 2)] is the least [k] with [n <= 4 k^2]. *)

Definition ceil_half_sqrt (n : Z) : Z := (Z.sqrt_up n + 1) / 2.

Definition clamp (x lo hi : Z) : Z := Z.min hi (Z.max lo x).

Definition numBins_spec (n : nat) : Z :=
  clamp (ceil_half_sqrt (Z.of_nat n)) 10 20.

(** ** Vocabulary of the proofs *)

Abbreviation fexp := (SpecFloat.fexp prec emax).
Abbreviation round_aux := (binary_round_aux prec emax).

(** [numBins] as a function of the length alone. *)
Definition numBins_at (n : nat) : number :=
  Math.min [20; Math.max [10; Math.ceil (Math.sqrt (Num.of_nat n) / 2)]]%float.

Definition agrees (n : nat) : bool :=
  PrimFloat.Leibniz.eqb (numBins_at n) (Num.of_Z (numBins_spec n) false).

(** The number of bins as a natural number. *)
Definition binCount (l : list number) : nat :=
  Z.to_nat (numBins_spec (List.length l)).

(** A return the code can bin: neither [NaN] nor an infinity. *)
Definition finite (x : number) : Prop := is_finite x = true.

(** A positive value whose binary exponent is at least [E], or
    [+Infinity]. *)
Definition pos_above (E : Z) (x : spec_float) : Prop :=
  x = S754_infinity false \/
  exists m e, x = S754_finite false m e /\ E <= e.

(** A number that is not negative: [+0], positive, or [+Infinity]. *)
Definition nonneg (x : spec_float) : Prop :=
  x = S754_zero false \/ x = S754_infinity false \/
  exists m e, x = S754_finite false m e.

(** [numBins - 1] for [N] bins. *)
Definition last_index (N : Z) : number := (Num.of_Z N false - 1)%float.

(** [Math.max(0, Math.min(numBins - 1, Math.floor(q)))] *)
Definition clamped (K q : number) : number :=
  Math.max [0; Math.min [K; Math.floor q]]%float.

(** The index the callback uses, after the check for the maximum. *)
Definition chosen (K : number) (is_max : bool) (q : number) : number :=
  if is_max && (clamped K q <? K)%float then K else clamped K q.

(** The quotient [(ret - minReturn) / binWidth] of the callback. *)
Definition quotient (l : list number) (ret : number) : number :=
  ((ret - minReturn_of l) / binWidth_of l)%float.

Definition key_is (x : number) (z : Z) : bool :=
  match Arr.key_of x with
  | Index i => Z.of_nat i =? z
  | Named _ => false
  end.

(** What the clamp needs of an integer [z] below 32 against [N] bins;
    checked by evaluation for the eleven possible bin counts. *)
Definition small_ok (N z : nat) : bool :=
  let K := last_index (Z.of_nat N) in
  let f := Num.of_Z (Z.of_nat z) false in
  key_is f (Z.of_nat z) && Bool.eqb (f <? K)%float (z <? N - 1)%nat.

(** What the callback needs of a bin count [N]. *)
Definition bins_ok (N : nat) : bool :=
  let K := last_index (Z.of_nat N) in
  (0 <? K)%float && negb (K <? K)%float && negb (is_nan K) &&
  negb (Num.is_pos_zero K) &&
  PrimFloat.Leibniz.eqb (Math.min_step infinity K) K &&
  match Prim2SF K with S754_finite false _ e => e <=? -48 | _ => false end &&
  key_is K (Z.of_nat N - 1) &&
  forallb (small_ok N) (seq 1 31) &&
  match Arr.length_of (Num.of_Z (Z.of_nat N) false) with
  | Some n => Nat.eqb n N
  | None => false
  end &&
  forallb (fun i => Bool.eqb (Num.of_nat i =? K)%float (Nat.eqb i (N - 1))) (seq 0 N).

(** What the edge loop needs of a bin count [N]: [numBins] is a positive
    number, the indices are finite, and [i < numBins] holds exactly for
    [0 .. N - 1]. *)
Definition edges_ok (N : nat) : bool :=
  match Prim2SF (Num.of_Z (Z.of_nat N) false) with
  | S754_finite false _ _ => true
  | _ => false
  end &&
  forallb (fun i => is_finite (Num.of_nat i)) (seq 0 N) &&
  forallb (fun i => Bool.eqb (Num.of_nat i <? Num.of_Z (Z.of_nat N) false)%float
                             (i <? N)%nat) (seq 0 (S N)).

Definition nonneg_count (c : cell) : Prop := exists z, c = Count z /\ 0 <= z.

(** An array of [n] counts, none negative. *)
Definition counts (n : nat) (a : js_array) : Prop :=
  List.length (elements a) = n /\ Forall nonneg_count (elements a).

Definition cell_value (j : nat) (a : js_array) : Z :=
  Arr.count_of (nth j (elements a) Hole).

(** The effects of a call. *)
Definition effects (p : page) (v : js_value) : list effect :=
  snd (fst (createOrUpdateReturnHistogram p v)).

(** ** Inputs used below *)

(** All returns alike. *)
Definition identical_returns : list number := [2; 2; 2]%float.

(** The example series of the specification. *)
Definition example_returns : list number := [-1; 0; 1; 2; 3]%float.

(** [-2^1023] and [2^1023] (about [8.99e307]): both finite, while their
    difference [2^1024] is no double. *)
Definition overflow_returns : list number := [-0x1p+1023; 0x1p+1023]%float.

(** [0] and the smallest positive double [2^-1074] (about [4.94e-324]):
    a tenth of their difference rounds to [0]. *)
Definition underflow_returns : list number := [0; 0x1p-1074]%float.

Definition page_with_canvas : page := mk_page true false false false.

(** The element of [bins] the callback adds one to for the return [ret],
    if any: bin 0 for a return equal to the minimum when the width is
    zero, the clamped index otherwise, and none when the key is no index. *)
Definition landing (l : list number) (ret : number) : option nat :=
  if (binWidth_of l =? 0)%float then
    if (ret =? minReturn_of l)%float then Some 0%nat else None
  else
    match Arr.key_of (binIndex l ret) with
    | Index i => Some i
    | Named _ => None
    end.

Definition lands (l : list number) (j : nat) (ret : number) : bool :=
  match landing l ret with
  | Some i => Nat.eqb i j
  | None => false
  end.

(** How many of the returns [rs] land on element [j]. *)
Definition tally (l rs : list number) (j : nat) : Z :=
  Z.of_nat (List.length (filter (lands l j) rs)).

(** The order [Math.min] and [Math.max] sort by: the order of the values,
    with [-0] before [+0]. *)
Definition before (x y : number) : bool :=
  (x <? y)%float || (Num.is_neg_zero x && Num.is_pos_zero y).

(** The position of a value in that order. *)
Definition rank (x : spec_float) : Z * (Z * Z) :=
  match x with
  | S754_infinity true => (-3, (0, 0))
  | S754_finite true m e => (-2, (- e, - Zpos m))
  | S754_zero true => (-1, (0, 0))
  | S754_zero false => (0, (0, 0))
  | S754_finite false m e => (1, (e, Zpos m))
  | S754_infinity false => (2, (0, 0))
  | S754_nan => (3, (0, 0))
  end.

Definition lex (a b : Z * (Z * Z)) : Prop :=
  fst a < fst b \/
  (fst a = fst b /\
   (fst (snd a) < fst (snd b) \/
    (fst (snd a) = fst (snd b) /\ snd (snd a) < snd (snd b)))).

(** The bin counts are ordered like the lengths: checked by evaluation
    over the eleven possible counts. *)
Definition ordered_ok (N : nat) : bool :=
  forallb (fun M => Bool.eqb (Num.of_Z (Z.of_nat N) false <=? Num.of_Z (Z.of_nat M) false)%float
                             (N <=? M)%nat) (seq 10 11).

(** ** The tooltip of a bar (charts.js 216-222)

    The [title] callback closes over [binEdges]; [index] is
    [tooltipItems[0].dataIndex] and [item_label] is
    [tooltipItems[0].label].  A bin edge is an object, hence truthy:
    [binEdges[index]] fails only past the end of the array. *)
Definition tooltip_title (h : histogram) (index : nat) (item_label : string)
  : string :=
  match nth_error (binEdges h) index with
  | Some e =>
      (NumberFormat.toFixed2 (start e) ++ "% to " ++
       NumberFormat.toFixed2 (end_ e) ++ "%")%string
  | None => item_label
  end.

(** ** One rendering after another

    [fetchFullAnalysis] (main.js) calls [createOrUpdateReturnHistogram]
    for every answer of the backend; the page one call leaves is the page
    the next call finds. *)
Fixpoint renderings (p : page) (vs : list js_value) : page * list effect :=
  match vs with
  | [] => (p, [])
  | v :: vs =>
      let '(p1, t1, _) := createOrUpdateReturnHistogram p v in
      let '(p2, t2) := renderings p1 vs in
      (p2, (t1 ++ t2)%list)
  end.

(** What Chart.js asks of its caller: [new Chart] on a canvas that still
    has a chart is refused, and only a chart that exists can be destroyed.
    [canvas_use live t] follows a trace from a canvas that has a chart
    ([live]) or not, and is [None] as soon as the rule is broken. *)
Fixpoint canvas_use (live : bool) (t : list effect) : option bool :=
  match t with
  | [] => Some live
  | NewChart _ :: t => if live then None else canvas_use true t
  | ChartDestroy :: t => if live then canvas_use false t else None
  | _ :: t => canvas_use live t
  end.

(** ** The two charts of the page (charts.js 3-35) *)

Record charts : Type := mk_charts {
  priceChart : bool;             (* the module variable holds a chart *)
  price_destroy_throws : bool;   (* Chart.js: priceChart.destroy() throws *)
  histogram_page : page          (* the histogram's canvas and handle *)
}.

Definition set_priceChart (c : charts) (b : bool) : charts :=
  mk_charts b (price_destroy_throws c) (histogram_page c).

Definition set_histogram_page (c : charts) (p : page) : charts :=
  mk_charts (priceChart c) (price_destroy_throws c) p.

Local Open Scope string_scope.

(** [destroyPriceChart] (charts.js 11-22) *)
Definition destroyPriceChart (c : charts) : charts * list effect :=
  if priceChart c then
    if price_destroy_throws c then
      (set_priceChart c false,
       [ChartDestroy; ConsoleError "Error destroying price chart:"])
    else
      (set_priceChart c false,
       [ChartDestroy; ConsoleLog "Price chart destroyed."])
  else (c, []).

(** [destroyAllCharts] (charts.js 6-9) *)
Definition destroyAllCharts (c : charts) : charts * list effect :=
  let '(c1, t1) := destroyPriceChart c in
  let '(p2, t2) := destroyHistogramChart (histogram_page c1) in
  (set_histogram_page c1 p2, (t1 ++ t2)%list).

(** How a call ends. *)
Inductive completion : Type :=
| Normal
| Throws.

(** The older copy of the functions kept in ui.js (169-198): the same
    statements without [try]/[catch], so that an exception of [destroy()]
    leaves the function at once. *)
Module Legacy.

Definition destroyPriceChart (c : charts) : charts * list effect * completion :=
  if priceChart c then
    if price_destroy_throws c then (c, [ChartDestroy], Throws)
    else
      (set_priceChart c false,
       [ChartDestroy; ConsoleLog "Price chart destroyed."], Normal)
  else (c, [], Normal).

Definition destroyHistogramChart (p : page) : page * list effect * completion :=
  if histogramChart p then
    if destroy_throws p then (p, [ChartDestroy], Throws)
    else
      (set_chart p false,
       [ChartDestroy; ConsoleLog "Histogram chart destroyed."], Normal)
  else (p, [], Normal).

(** [destroyAllCharts] of ui.js repeats the two bodies one after the
    other. *)
Definition destroyAllCharts (c : charts) : charts * list effect * completion :=
  match destroyPriceChart c with
  | (c1, t1, Throws) => (c1, t1, Throws)
  | (c1, t1, Normal) =>
      let '(p2, t2, r) := destroyHistogramChart (histogram_page c1) in
      (set_histogram_page c1 p2, (t1 ++ t2)%list, r)
  end.

End Legacy.

Local Close Scope string_scope.

(** The calls of [destroy()] in a trace. *)
Definition destroy_calls (t : list effect) : nat :=
  List.length (filter (fun e => match e with ChartDestroy => true | _ => false end) t).

(** Both charts on screen; [throws]: the [destroy()] of the price chart
    throws. *)
Definition both_charts (throws : bool) : charts :=
  mk_charts true throws (mk_page true true false false).

(** ** Elements of the document (ui.js)

    An element is what the functions of ui.js read and write of it: its
    text and its class list.  The document lists the elements that have an
    id, in tree order; [getElementById] returns the first match. *)

Record element : Type := mk_element {
  textContent : string;
  classList : list string
}.

Definition document : Type := list (string * element).

Module Dom.

Fixpoint getElementById (doc : document) (id : string) : option element :=
  match doc with
  | [] => None
  | (k, el) :: doc => if String.eqb k id then Some el else getElementById doc id
  end.

(** The document after the element [getElementById] finds has been
    changed by [f]. *)
Fixpoint update (doc : document) (id : string) (f : element -> element) : document :=
  match doc with
  | [] => []
  | (k, el) :: doc =>
      if String.eqb k id then (k, f el) :: doc else (k, el) :: update doc id f
  end.

(** [classList.remove(...tokens)] *)
Definition remove (tokens : list string) (cl : list string) : list string :=
  filter (fun c => negb (existsb (String.eqb c) tokens)) cl.

(** [classList.add(token)]: a token already present stays where it is. *)
Definition add (token : string) (cl : list string) : list string :=
  if existsb (String.eqb token) cl then cl else (cl ++ [token])%list.

End Dom.

Local Open Scope string_scope.

Definition colour_classes : list string := ["text-green"; "text-red"; "text-neutral"].

(** A value of the backend's JSON read as text: absent, [null], or a
    string. *)
Inductive js_text : Type :=
| NoText
| NullText
| Text (s : string).

(** [sentiment ?? 'Neutral'] *)
Definition effectiveSentiment (sentiment : js_text) : string :=
  match sentiment with
  | NoText | NullText => "Neutral"
  | Text s => s
  end.

(** The body of [updateSentiment] (ui.js 49-60) on the element found. *)
Definition updateSentiment_element (sentiment : js_text) (el : element) : element :=
  let s := effectiveSentiment sentiment in
  let cl := Dom.remove colour_classes (classList el) in
  mk_element s
    (if String.eqb s "Positive" then Dom.add "text-green" cl
     else if String.eqb s "Negative" then Dom.add "text-red" cl
     else Dom.add "text-neutral" cl).

(** [updateSentiment] (ui.js 49-60): nothing happens when no element has
    the id. *)
Definition updateSentiment (doc : document) (elementId : string) (sentiment : js_text)
  : document :=
  Dom.update doc elementId (updateSentiment_element sentiment).

(** A number of the backend's JSON, or nothing ([undefined], [null]). *)
Definition js_number : Type := option number.

(** Truthiness, as [&&] tests it: a number other than [0], [-0], [NaN]. *)
Definition truthy (v : js_number) : bool :=
  match v with
  | None => false
  | Some x => negb ((x =? 0)%float || is_nan x)
  end.

Definition number_of (v : js_number) : number :=
  match v with Some x => x | None => nan end.

(** The part of [updateStockInfo] for [#stock-change-header]
    (ui.js 70-81); [changeEl] is the element, when the document has it. *)
Definition updateStockInfo_change (currentPrice previousClose : js_number)
    (changeEl : option element) : option element :=
  match changeEl with
  | None => None
  | Some el =>
      if truthy currentPrice && truthy previousClose then
        let change := (number_of currentPrice - number_of previousClose)%float in
        let changePercent := (change / number_of previousClose * 100)%float in
        let sign := if (0 <? change)%float then "+" else "" in
        let cl := Dom.remove colour_classes (classList el) in
        Some (mk_element
          (sign ++ NumberFormat.toFixed2 change ++ " (" ++
           sign ++ NumberFormat.toFixed2 changePercent ++ "%)")
          (if (0 <? change)%float then Dom.add "text-green" cl
           else if (change <? 0)%float then Dom.add "text-red" cl
           else Dom.add "text-neutral" cl))
      else Some (mk_element "" (classList el))
  end.

Local Close Scope string_scope.

(** The colour classes of a class list, in order. *)
Definition colours (cl : list string) : list string :=
  filter (fun c => existsb (String.eqb c) colour_classes) cl.

(** The classes of a class list that are no colour. *)
Definition other_classes (cl : list string) : list string :=
  Dom.remove colour_classes cl.

(** The first character of a text. *)
Definition first_char (s : string) : option ascii :=
  match s with
  | EmptyString => None
  | String c _ => Some c
  end.

Definition has_space (s : string) : bool :=
  existsb (Ascii.eqb " "%char) (list_ascii_of_string s).

(** ** The search box (main.js 19-31)

    A JavaScript string is a sequence of UTF-16 code units. *)

Definition jstring : Type := list N.

Module Str.

(** White space and line terminators of ECMA-262, all of them single code
    units: what [trim] removes. *)
Definition is_white_space (c : N) : bool :=
  existsb (N.eqb c)
    [0x9; 0xA; 0xB; 0xC; 0xD; 0x20; 0xA0; 0x1680; 0x2028; 0x2029; 0x202F;
     0x205F; 0x3000; 0xFEFF]%N ||
  ((0x2000 <=? c)%N && (c <=? 0x200A)%N).

Fixpoint trimStart (s : jstring) : jstring :=
  match s with
  | [] => []
  | c :: s' => if is_white_space c then trimStart s' else s
  end.

Definition trimEnd (s : jstring) : jstring := rev (trimStart (rev s)).

Definition trim (s : jstring) : jstring := trimEnd (trimStart s).

End Str.

(** The state the [input] handler works on: the variable [searchTimer]
    (undefined at first), the timeouts of the page that have not fired
    yet, each with the query its callback holds, the id the next
    [setTimeout] returns, and [searchResults.style.display]. *)
Record search : Type := mk_search {
  searchTimer : option nat;
  timers : list (nat * jstring);
  next_timer : nat;
  display : string
}.

(** [clearTimeout(id)]: nothing happens for [undefined] or for a timeout
    that has fired. *)
Definition clearTimeout (id : option nat) (ts : list (nat * jstring))
  : list (nat * jstring) :=
  match id with
  | None => ts
  | Some i => filter (fun t => negb (Nat.eqb (fst t) i)) ts
  end.

(** The [input] listener of [#stock-search]; [value] is
    [searchInput.value].  (The later copy of main.js also resets
    [currentSelectedSymbol], which the timer does not read.) *)
Definition on_input (value : jstring) (s : search) : search :=
  let query := Str.trim value in
  let ts := clearTimeout (searchTimer s) (timers s) in
  if (List.length query <? 2)%nat then
    mk_search (searchTimer s) ts (next_timer s) "none"
  else
    mk_search (Some (next_timer s)) (ts ++ [(next_timer s, query)])%list
      (S (next_timer s)) (display s).

(** The oldest pending timeout fires: its callback calls
    [fetchSearchQuery(query)]. *)
Definition on_timeout (s : search) : search * list jstring :=
  match timers s with
  | [] => (s, [])
  | (_, query) :: ts =>
      (mk_search (searchTimer s) ts (next_timer s) (display s), [query])
  end.

Inductive event : Type :=
| Input (value : jstring)
| Timeout.

(** The calls of [fetchSearchQuery] a sequence of events leads to. *)
Fixpoint run (s : search) (evs : list event) : search * list jstring :=
  match evs with
  | [] => (s, [])
  | Input value :: evs => run (on_input value s) evs
  | Timeout :: evs =>
      let '(s1, r1) := on_timeout s in
      let '(s2, r2) := run s1 evs in
      (s2, (r1 ++ r2)%list)
  end.

(** The page after [DOMContentLoaded]. *)
Definition search_loaded : search := mk_search None [] 0 "".

(** What holds of a query that is searched for. *)
Definition searchable (evs : list event) (query : jstring) : Prop :=
  (2 <= List.length query)%nat /\
  (exists value, In (Input value) evs /\ query = Str.trim value) /\
  Str.is_white_space (hd 0%N query) = false /\
  Str.is_white_space (last query 0%N) = false.

(** At most one timeout is pending, the one [searchTimer] names. *)
Definition one_timer (s : search) : Prop :=
  timers s = [] \/
  exists i query, timers s = [(i, query)] /\ searchTimer s = Some i.

(** ** Showing a value (ui.js 27-47, 84-104)

    A field of the backend's JSON as [updateText] tells its values apart:
    missing, [null], a number or a string. *)
Inductive scalar : Type :=
| Absent
| IsNull
| Num (x : number)
| Str (s : string).

(** [s.includes(sub)] *)
Fixpoint includes (s sub : string) : bool :=
  String.prefix sub s ||
  match s with
  | EmptyString => false
  | String _ s' => includes s' sub
  end.

(** The three ways [updateText] writes a number. *)
Inductive format : Type :=
| Currency
| Percent
| Localized.

Section Locale.

(** The two texts that depend on the locale data of the browser: the
    rupee sign followed by [text.toLocaleString('en-IN', ...)] with two
    fraction digits, and [text.toLocaleString(undefined, ...)] with two to
    four. *)
Variable currency : number -> string.
Variable localized : number -> string.

Local Open Scope string_scope.

Definition render (f : format) (x : number) : string :=
  match f with
  | Currency => currency x
  | Percent => NumberFormat.toFixed2 x ++ "%"
  | Localized => localized x
  end.

(** The format chosen from the id of the element. *)
Definition format_of (elementId : string) : format :=
  if includes elementId "price" || includes elementId "value" ||
     includes elementId "mean" || includes elementId "median" then Currency
  else if includes elementId "percent" || includes elementId "probability" ||
          includes elementId "prob_" || includes elementId "return" ||
          includes elementId "streak" then Percent
  else Localized.

(** What [updateText] assigns to [el.textContent]. *)
Definition text_of (elementId : string) (text : scalar) (defaultValue : string)
  : string :=
  match text with
  | Absent | IsNull => defaultValue
  | Num x =>
      if negb (is_finite x) then defaultValue
      else render (format_of elementId) x
  | Str s => s
  end.

(** [updateText] (ui.js 27-47) *)
Definition updateText (doc : document) (elementId : string) (text : scalar)
    (defaultValue : string) : document * list effect :=
  match Dom.getElementById doc elementId with
  | Some _ =>
      (Dom.update doc elementId
         (fun el => mk_element (text_of elementId text defaultValue) (classList el)),
       [])
  | None => (doc, [ConsoleWarn ("UI Element not found: " ++ elementId)])
  end.

(** The calls of [updateStatistics] (ui.js 84-104), in order: the id of
    the element and the field of [statistics] it shows. *)
Definition statistics_fields : list (string * string) :=
  [("stat-start-date", "start_date");
   ("stat-end-date", "end_date");
   ("stat-mean", "mean");
   ("stat-median", "median");
   ("stat-std_deviation", "std_deviation");
   ("stat-variance", "variance");
   ("stat-skewness", "skewness");
   ("stat-kurtosis", "kurtosis");
   ("stat-probability_next_day_up", "probability_next_day_up");
   ("stat-probability_next_day_down", "probability_next_day_down");
   ("stat-mean_daily_return_percent", "mean_daily_return_percent");
   ("stat-std_dev_daily_return_percent", "std_dev_daily_return_percent");
   ("stat-cond_prob_up_given_up", "cond_prob_up_given_up");
   ("stat-cond_prob_down_given_down", "cond_prob_down_given_down");
   ("stat-prob_2_days_up_streak", "prob_2_days_up_streak");
   ("stat-prob_2_days_down_streak", "prob_2_days_down_streak")].

(** One call after another; [statistics] maps the name of a field to its
    value, [Absent] for a field the object does not have. *)
Definition updateTexts (statistics : string -> scalar)
    (calls : list (string * string)) (doc : document) : document * list effect :=
  fold_left
    (fun st call =>
       let '(d, t) := updateText (fst st) (fst call) (statistics (snd call)) "-" in
       (d, (snd st ++ t)%list))
    calls (doc, []).

Definition updateStatistics (doc : document) (statistics : string -> scalar)
  : document * list effect :=
  updateTexts statistics statistics_fields doc.

End Locale.

(** The format each statistic that is a finite number ends up in. *)
Definition statistics_formats : list (string * format) :=
  [("stat-start-date", Localized);
   ("stat-end-date", Localized);
   ("stat-mean", Currency);
   ("stat-median", Currency);
   ("stat-std_deviation", Localized);
   ("stat-variance", Localized);
   ("stat-skewness", Localized);
   ("stat-kurtosis", Localized);
   ("stat-probability_next_day_up", Percent);
   ("stat-probability_next_day_down", Percent);
   ("stat-mean_daily_return_percent", Currency);
   ("stat-std_dev_daily_return_percent", Percent);
   ("stat-cond_prob_up_given_up", Percent);
   ("stat-cond_prob_down_given_down", Percent);
   ("stat-prob_2_days_up_streak", Percent);
   ("stat-prob_2_days_down_streak", Percent)]%string.

(** * Binary64 rounding *)

Module SF.


Lemma fexp_eq e : fexp e = Z.max (e - 53) (-1074).
Proof. reflexivity. Qed.

Lemma digits2_bounds p :
  2 ^ (Zpos (digits2_pos p) - 1) <= Zpos p < 2 ^ Zpos (digits2_pos p).
Proof.
  induction p as [p IH | p IH |]; cbn [digits2_pos].
  - rewrite Pos2Z.inj_succ.
    replace (Z.succ (Zpos (digits2_pos p)) - 1) with (Z.succ (Zpos (digits2_pos p) - 1)) by lia.
    rewrite !Z.pow_succ_r by lia. lia.
  - rewrite Pos2Z.inj_succ.
    replace (Z.succ (Zpos (digits2_pos p)) - 1) with (Z.succ (Zpos (digits2_pos p) - 1)) by lia.
    rewrite !Z.pow_succ_r by lia. lia.
  - cbn. lia.
Qed.

Lemma Zdigits2_pos m : 0 < m -> 0 < Zdigits2 m /\ 2 ^ (Zdigits2 m - 1) <= m < 2 ^ Zdigits2 m.
Proof.
  destruct m as [|p|p]; try lia. intros _. cbn [Zdigits2].
  split; [lia | apply digits2_bounds].
Qed.

Lemma shr_1_m r : 0 <= shr_m r -> shr_m (shr_1 r) = shr_m r / 2.
Proof.
  destruct r as [m r s]; cbn [shr_m]. intros Hm.
  destruct m as [|[p|p|]|p]; cbn [shr_1 shr_m]; try lia;
    Z.div_mod_to_equations; lia.
Qed.

Lemma iter_shr_m p : forall r, 0 <= shr_m r ->
  shr_m (iter_pos shr_1 p r) = shr_m r / 2 ^ Zpos p.
Proof.
  induction p as [p IH | p IH |]; intros r Hr; cbn [iter_pos].
  - assert (H1 : 0 <= shr_m (shr_1 r)) by (rewrite shr_1_m by lia; apply Z.div_pos; lia).
    assert (H2 : 0 <= shr_m (iter_pos shr_1 p (shr_1 r))) by (rewrite IH by lia; apply Z.div_pos; lia).
    rewrite IH, IH, shr_1_m by lia.
    rewrite !Z.div_div by lia. f_equal.
    rewrite Pos2Z.inj_xI.
    replace (2 * Z.pos p + 1) with (1 + Z.pos p + Z.pos p) by lia.
    rewrite !Z.pow_add_r by lia. change (2 ^ 1) with 2. ring.
  - assert (H2 : 0 <= shr_m (iter_pos shr_1 p r)) by (rewrite IH by lia; apply Z.div_pos; lia).
    rewrite IH, IH by lia.
    rewrite !Z.div_div by lia. f_equal.
    rewrite Pos2Z.inj_xO. rewrite <- Z.pow_add_r by lia. f_equal. lia.
  - rewrite shr_1_m by lia. reflexivity.
Qed.

Lemma shr_record_of_loc_m m l : shr_m (shr_record_of_loc m l) = m.
Proof. destruct l as [|[]]; reflexivity. Qed.

(** Shifting to the canonical exponent: the mantissa is divided by a power
    of two and the exponent is the larger of the two. *)
Lemma shr_fexp_spec m e l : 0 <= m ->
  let '(r, e') := shr_fexp prec emax m e l in
  e' = Z.max e (fexp (Zdigits2 m + e)) /\ shr_m r = m / 2 ^ (e' - e).
Proof.
  intros Hm. unfold shr_fexp, shr.
  destruct (fexp (Zdigits2 m + e) - e) as [|p|p] eqn:E.
  - split; [lia|]. rewrite shr_record_of_loc_m, Z.sub_diag, Z.pow_0_r.
    now rewrite Z.div_1_r.
  - split; [lia|]. rewrite iter_shr_m by (rewrite shr_record_of_loc_m; lia).
    rewrite shr_record_of_loc_m. f_equal. f_equal. lia.
  - split; [lia|]. rewrite shr_record_of_loc_m, Z.sub_diag, Z.pow_0_r.
    now rewrite Z.div_1_r.
Qed.

Lemma round_nearest_even_bounds m l : m <= round_nearest_even m l <= m + 1.
Proof. destruct l as [|[]]; cbn; try lia. destruct (Z.even m); lia. Qed.

Lemma shr_fexp_pos m e l : 0 < m -> -1074 <= e ->
  let '(r, e') := shr_fexp prec emax m e l in
  e' = Z.max e (fexp (Zdigits2 m + e)) /\ shr_m r = m / 2 ^ (e' - e) /\ 0 < shr_m r.
Proof.
  intros Hm He. pose proof (shr_fexp_spec m e l ltac:(lia)) as H.
  destruct (shr_fexp prec emax m e l) as [r e']. destruct H as [H1 H2].
  split; [exact H1|]. split; [exact H2|]. rewrite H2.
  destruct (Zdigits2_pos m Hm) as [Hd [Hlo Hhi]].
  apply Z.div_str_pos. split; [apply Z.pow_pos_nonneg; lia|].
  etransitivity; [|exact Hlo]. apply Z.pow_le_mono_r; [lia|].
  rewrite H1, fexp_eq. lia.
Qed.

(** The shape of a rounded result: the sign is kept, and a positive
    mantissa at an exponent not below [emin] never rounds to zero. *)
Lemma round_aux_pos sx m e l : 0 < m -> -1074 <= e ->
  round_aux sx m e l = S754_infinity sx \/
  exists m' e', round_aux sx m e l = S754_finite sx m' e' /\
                Z.max e (fexp (Zdigits2 m + e)) <= e' <= 971.
Proof.
  intros Hm He. unfold binary_round_aux.
  pose proof (shr_fexp_pos m e l Hm He) as H1.
  destruct (shr_fexp prec emax m e l) as [r1 e1]. destruct H1 as (He1 & Hm1 & Hp1).
  pose proof (round_nearest_even_bounds (shr_m r1) (loc_of_shr_record r1)) as Hr.
  set (m2 := round_nearest_even (shr_m r1) (loc_of_shr_record r1)) in *.
  pose proof (shr_fexp_pos m2 e1 loc_Exact ltac:(lia) ltac:(lia)) as H2.
  destruct (shr_fexp prec emax m2 e1 loc_Exact) as [r2 e2]. destruct H2 as (He2 & Hm2 & Hp2).
  destruct (shr_m r2) as [|p|p]; try lia.
  destruct (Z.leb_spec e2 (emax - prec)) as [Hle|Hgt]; [right|left; reflexivity].
  exists p, e2. split; [reflexivity|]. change (emax - prec) with 971 in Hle. lia.
Qed.

Lemma round_aux_sign sx m e l : 0 <= m ->
  round_aux sx m e l = S754_zero sx \/ round_aux sx m e l = S754_infinity sx \/
  exists m' e', round_aux sx m e l = S754_finite sx m' e'.
Proof.
  intros Hm. unfold binary_round_aux.
  pose proof (shr_fexp_spec m e l Hm) as H1.
  destruct (shr_fexp prec emax m e l) as [r1 e1]. destruct H1 as (He1 & Hm1).
  assert (Hp1 : 0 <= shr_m r1) by (rewrite Hm1; apply Z.div_pos; [lia | apply Z.pow_pos_nonneg; lia]).
  pose proof (round_nearest_even_bounds (shr_m r1) (loc_of_shr_record r1)) as Hr.
  set (m2 := round_nearest_even (shr_m r1) (loc_of_shr_record r1)) in *.
  pose proof (shr_fexp_spec m2 e1 loc_Exact ltac:(lia)) as H2.
  destruct (shr_fexp prec emax m2 e1 loc_Exact) as [r2 e2]. destruct H2 as (He2 & Hm2).
  assert (Hp2 : 0 <= shr_m r2) by (rewrite Hm2; apply Z.div_pos; [lia | apply Z.pow_pos_nonneg; lia]).
  destruct (shr_m r2) as [|p|p]; try lia; [left; reflexivity|right].
  destruct (Z.leb e2 (emax - prec)); [right; eauto | left; reflexivity].
Qed.


Lemma Zdigits2_unique m d : 0 < d -> 2 ^ (d - 1) <= m < 2 ^ d -> Zdigits2 m = d.
Proof.
  intros Hd [Hlo Hhi].
  assert (Hm : 0 < m) by (pose proof (Z.pow_pos_nonneg 2 (d - 1)); lia).
  destruct (Zdigits2_pos m Hm) as [Hd' [Hlo' Hhi']].
  destruct (Z.lt_trichotomy (Zdigits2 m) d) as [H|[H|H]]; [exfalso|exact H|exfalso].
  - assert (2 ^ Zdigits2 m <= 2 ^ (d - 1)) by (apply Z.pow_le_mono_r; lia). lia.
  - assert (2 ^ d <= 2 ^ (Zdigits2 m - 1)) by (apply Z.pow_le_mono_r; lia). lia.
Qed.

Lemma Zdigits2_div m k : 0 < m -> 0 <= k < Zdigits2 m ->
  Zdigits2 (m / 2 ^ k) = Zdigits2 m - k.
Proof.
  intros Hm Hk. destruct (Zdigits2_pos m Hm) as [Hd [Hlo Hhi]].
  assert (Hp : 0 < 2 ^ k) by (apply Z.pow_pos_nonneg; lia).
  apply Zdigits2_unique; [lia|]. split.
  - apply Z.div_le_lower_bound; [lia|].
    rewrite <- Z.pow_add_r by lia. replace (k + (Zdigits2 m - k - 1)) with (Zdigits2 m - 1) by lia. exact Hlo.
  - apply Z.div_lt_upper_bound; [lia|].
    rewrite <- Z.pow_add_r by lia. replace (k + (Zdigits2 m - k)) with (Zdigits2 m) by lia. exact Hhi.
Qed.

Lemma iter_xO m d : Zpos (Pos.iter xO m d) = Zpos m * 2 ^ Zpos d.
Proof.
  revert m. induction d as [d IH | d IH |]; intros m; cbn [Pos.iter].
  - rewrite Pos2Z.inj_xO, IH, IH, (Pos2Z.inj_xI d).
    replace (2 * Z.pos d + 1) with (1 + Z.pos d + Z.pos d) by lia.
    rewrite !Z.pow_add_r by lia. change (2 ^ 1) with 2. ring.
  - rewrite IH, IH. rewrite (Pos2Z.inj_xO d).
    replace (2 * Z.pos d) with (Z.pos d + Z.pos d) by lia.
    rewrite Z.pow_add_r by lia. ring.
  - rewrite Pos2Z.inj_xO. change (2 ^ 1) with 2. ring.
Qed.

Lemma Zdigits2_mul_pow m k : 0 < m -> 0 <= k -> Zdigits2 (m * 2 ^ k) = Zdigits2 m + k.
Proof.
  intros Hm Hk. destruct (Zdigits2_pos m Hm) as [Hd [Hlo Hhi]].
  assert (Hp : 0 < 2 ^ k) by (apply Z.pow_pos_nonneg; lia).
  apply Zdigits2_unique; [lia|].
  replace (Zdigits2 m + k - 1) with (Zdigits2 m - 1 + k) by lia.
  rewrite !Z.pow_add_r by lia. nia.
Qed.

(** [shl_align] towards the canonical exponent keeps the value and the
    magnitude. *)
Lemma shl_align_spec mx ex ex' :
  let '(mz, ez) := shl_align mx ex ex' in
  ez = Z.min ex ex' /\ Zpos mz = Zpos mx * 2 ^ (ex - ez).
Proof.
  unfold shl_align. destruct (ex' - ex) as [|d|d] eqn:E.
  - split; [lia|]. rewrite Z.sub_diag. cbn. lia.
  - split; [lia|]. rewrite Z.sub_diag. cbn. lia.
  - split; [lia|]. rewrite iter_xO. f_equal. f_equal. lia.
Qed.

(** The output of [binary_round] is a canonical binary64 value. *)
Lemma round_aux_valid sx m e l : 0 < m -> e <= fexp (Zdigits2 m + e) ->
  valid_binary (round_aux sx m e l) = true.
Proof.
  intros Hm He. unfold binary_round_aux.
  pose proof (shr_fexp_spec m e l ltac:(lia)) as H1.
  destruct (shr_fexp prec emax m e l) as [r1 e1]. destruct H1 as (He1 & Hm1).
  set (E := Zdigits2 m + e) in *.
  assert (He1' : e1 = fexp E) by lia. clear He1.
  destruct (Zdigits2_pos m Hm) as [Hd [Hlo Hhi]].
  assert (Hp : 0 < 2 ^ (e1 - e)) by (apply Z.pow_pos_nonneg; lia).
  assert (Hm1n : 0 <= shr_m r1) by (rewrite Hm1; apply Z.div_pos; lia).
  pose proof (round_nearest_even_bounds (shr_m r1) (loc_of_shr_record r1)) as Hr.
  set (m2 := round_nearest_even (shr_m r1) (loc_of_shr_record r1)) in *.
  assert (Hemin : -1074 <= e1) by (rewrite He1', fexp_eq; lia).
  (* the magnitude of the rounded mantissa *)
  assert (Hm2 : m2 = 0 \/
                (0 < m2 /\ fexp (Zdigits2 m2 + e1) = e1) \/
                m2 = 2 ^ 53).
  { destruct (Z.eq_dec m2 0) as [Hz|Hnz]; [left; exact Hz|right].
    destruct (Z.le_gt_cases (Zdigits2 m) (e1 - e)) as [Hsmall|Hbig].
    - (* everything was shifted out: the mantissa is 1 at emin *)
      left. assert (shr_m r1 = 0).
      { rewrite Hm1. apply Z.div_small. split; [lia|].
        eapply Z.lt_le_trans; [exact Hhi|]. apply Z.pow_le_mono_r; lia. }
      assert (Hone : m2 = 1) by lia. rewrite Hone. cbn [Zdigits2 digits2_pos].
      assert (E <= e1) by (unfold E; lia).
      assert (e1 = -1074) by (rewrite He1', fexp_eq in *; lia).
      split; [lia|]. rewrite fexp_eq. lia.
    - assert (Hd1 : Zdigits2 (shr_m r1) = Zdigits2 m - (e1 - e))
        by (rewrite Hm1; apply Zdigits2_div; lia).
      assert (Hm1p : 0 < shr_m r1).
      { rewrite Hm1. apply Z.div_str_pos. split; [lia|].
        etransitivity; [|exact Hlo]. apply Z.pow_le_mono_r; lia. }
      destruct (Zdigits2_pos _ Hm1p) as [_ [Hlo1 Hhi1]].
      assert (Hm2p : 0 < m2) by lia.
      assert (HD : Zdigits2 (shr_m r1) = E - e1) by (unfold E; lia).
      destruct (Z.eq_dec m2 (2 ^ Zdigits2 (shr_m r1))) as [Hcarry|Hnc].
      + destruct (Z.eq_dec (E - e1) 53) as [H53|Hn53].
        * right. rewrite Hcarry, HD, H53. reflexivity.
        * left. split; [lia|].
          assert (Zdigits2 m2 = Zdigits2 (shr_m r1) + 1).
          { apply Zdigits2_unique; [lia|]. rewrite Hcarry.
            replace (Zdigits2 (shr_m r1) + 1 - 1) with (Zdigits2 (shr_m r1)) by lia.
            split; [lia|]. apply Z.pow_lt_mono_r; lia. }
          rewrite H, HD. rewrite fexp_eq. rewrite He1', fexp_eq in *. lia.
      + left. split; [lia|].
        assert (Zdigits2 m2 = Zdigits2 (shr_m r1)).
        { apply Zdigits2_unique; [lia|]. split; lia. }
        rewrite H, HD. replace (E - e1 + e1) with E by lia. lia. }
  pose proof (shr_fexp_spec m2 e1 loc_Exact ltac:(lia)) as H2.
  destruct (shr_fexp prec emax m2 e1 loc_Exact) as [r2 e2]. destruct H2 as (He2 & Hm2').
  destruct Hm2 as [Hz | [(Hm2p & Hc) | H53]].
  - rewrite Hz in Hm2'. rewrite Z.div_0_l in Hm2' by (apply Z.pow_nonzero; lia).
    rewrite Hm2'. reflexivity.
  - assert (He2' : e2 = e1) by lia. rewrite He2' in *.
    rewrite Z.sub_diag, Z.pow_0_r, Z.div_1_r in Hm2'. rewrite Hm2'.
    destruct m2 as [|p|p]; try lia.
    destruct (Z.leb_spec e1 (emax - prec)) as [Hb|Hb]; [|reflexivity].
    cbn [valid_binary]. unfold bounded, canonical_mantissa.
    cbn [Zdigits2] in Hc. rewrite Hc, Z.eqb_refl. cbn [andb]. apply Z.leb_le. exact Hb.
  - assert (He2' : e2 = e1 + 1).
    { rewrite He2, H53. change (Zdigits2 (2 ^ 53)) with 54. rewrite fexp_eq. lia. }
    rewrite Hm2', He2', H53. replace (e1 + 1 - e1) with 1 by lia.
    change (2 ^ 53 / 2 ^ 1) with (Zpos (2 ^ 52)%positive).
    destruct (Z.leb_spec (e1 + 1) (emax - prec)) as [Hb|Hb]; [|reflexivity].
    cbn [valid_binary]. unfold bounded, canonical_mantissa.
    apply andb_true_intro. split; [|apply Z.leb_le; exact Hb].
    apply Z.eqb_eq. change (Zpos (digits2_pos (2 ^ 52))) with 53.
    rewrite fexp_eq. lia.
Qed.

Lemma binary_round_valid sx mx ex :
  valid_binary (binary_round prec emax sx mx ex) = true.
Proof.
  unfold binary_round.
  pose proof (shl_align_spec mx ex (fexp (Zpos (digits2_pos mx) + ex))) as H.
  destruct (shl_align _ _ _) as [mz ez]. destruct H as [He Hm].
  apply round_aux_valid; [lia|].
  rewrite Hm. change (Zpos (digits2_pos mx)) with (Zdigits2 (Zpos mx)) in *.
  rewrite Zdigits2_mul_pow by lia.
  replace (Zdigits2 (Z.pos mx) + (ex - ez) + ez) with (Zdigits2 (Z.pos mx) + ex) by lia. lia.
Qed.

Lemma binary_normalize_valid z e sz :
  valid_binary (binary_normalize prec emax z e sz) = true.
Proof. destruct z; cbn [binary_normalize]; [reflexivity | apply binary_round_valid ..]. Qed.

End SF.

Import SF.

(** * Primitive floats through their specification *)

Module Fl.

Lemma SFcompare_refl x : x <> S754_nan -> SFcompare x x = Some Eq.
Proof.
  destruct x as [s|s| |s m e]; intros H; try congruence; cbn.
  - reflexivity.
  - destruct s; reflexivity.
  - rewrite Z.compare_refl, Pos.compare_cont_refl. destruct s; reflexivity.
Qed.

Lemma is_nan_spec x : is_nan x = true <-> Prim2SF x = S754_nan.
Proof.
  unfold is_nan. rewrite eqb_spec. unfold SFeqb. split.
  - intros H. destruct (Prim2SF x) eqn:E; try reflexivity;
      rewrite SFcompare_refl in H by discriminate; discriminate.
  - intros ->. reflexivity.
Qed.

Lemma is_nan_false x : is_nan x = false <-> Prim2SF x <> S754_nan.
Proof.
  rewrite <- is_nan_spec. destruct (is_nan x); split; congruence.
Qed.

Lemma Prim2SF_of_Z z sz :
  Prim2SF (Num.of_Z z sz) = binary_normalize prec emax z 0 sz.
Proof. apply Prim2SF_SF2Prim, binary_normalize_valid. Qed.


Lemma binary_round_pos m e : -1074 <= e ->
  pos_above (fexp (Zpos (digits2_pos m) + e)) (binary_round prec emax false m e).
Proof.
  intros He. unfold binary_round.
  pose proof (shl_align_spec m e (fexp (Zpos (digits2_pos m) + e))) as H.
  destruct (shl_align _ _ _) as [mz ez]. destruct H as [Hez Hm].
  assert (Hf : -1074 <= fexp (Z.pos (digits2_pos m) + e)) by (rewrite fexp_eq; lia).
  destruct (round_aux_pos false (Zpos mz) ez loc_Exact) as [H|(m' & e' & H & Hb)]; try lia.
  - left. exact H.
  - right. exists m', e'. split; [exact H|].
    rewrite Hm in Hb. change (Zpos (digits2_pos m)) with (Zdigits2 (Zpos m)) in *.
    rewrite Zdigits2_mul_pow in Hb by lia.
    replace (Zdigits2 (Z.pos m) + (e - ez) + ez) with (Zdigits2 (Z.pos m) + e) in Hb by lia.
    lia.
Qed.

Lemma of_Z_above k z sz : 0 <= k -> 2 ^ k <= z ->
  pos_above (k - 52) (Prim2SF (Num.of_Z z sz)).
Proof.
  intros Hk Hz. rewrite Prim2SF_of_Z.
  assert (Hp : 0 < 2 ^ k) by (apply Z.pow_pos_nonneg; lia).
  destruct z as [|p|p]; try lia. cbn [binary_normalize].
  destruct (binary_round_pos p 0 ltac:(lia)) as [H|(m' & e' & H & Hb)]; [left; exact H|].
  right. exists m', e'. split; [exact H|].
  destruct (Zdigits2_pos (Zpos p) ltac:(lia)) as [Hd [Hlo Hhi]]. cbn [Zdigits2] in *.
  assert (k < Zpos (digits2_pos p)).
  { destruct (Z.lt_ge_cases k (Zpos (digits2_pos p))) as [|Hge]; [assumption|exfalso].
    assert (2 ^ Zpos (digits2_pos p) <= 2 ^ k) by (apply Z.pow_le_mono_r; lia). lia. }
  rewrite fexp_eq, Z.add_0_r in Hb. lia.
Qed.

Lemma binary_round_sign sx m e :
  binary_round prec emax sx m e = S754_zero sx \/
  binary_round prec emax sx m e = S754_infinity sx \/
  exists m' e', binary_round prec emax sx m e = S754_finite sx m' e'.
Proof.
  unfold binary_round. destruct (shl_align _ _ _) as [mz ez].
  apply round_aux_sign. lia.
Qed.

(** Comparisons decided by the sign or by the exponent alone. *)
Lemma ltb_exp a b ma ea mb eb :
  Prim2SF a = S754_finite false ma ea -> Prim2SF b = S754_finite false mb eb ->
  ea < eb -> (a <? b)%float = true /\ (b <? a)%float = false.
Proof.
  intros Ha Hb Hlt. rewrite !ltb_spec, Ha, Hb. unfold SFltb. cbn [SFcompare].
  apply Z.compare_lt_iff in Hlt as H1. apply Z.compare_gt_iff in Hlt as H2.
  rewrite H1, H2. split; reflexivity.
Qed.

Lemma ltb_above a b E ma ea :
  Prim2SF a = S754_finite false ma ea -> ea < E -> pos_above E (Prim2SF b) ->
  (a <? b)%float = true /\ (b <? a)%float = false.
Proof.
  intros Ha Hlt [Hb|(mb & eb & Hb & Hle)].
  - rewrite !ltb_spec, Ha, Hb. split; reflexivity.
  - eapply ltb_exp; eauto. lia.
Qed.

Lemma pos_above_not_nan E x : pos_above E (Prim2SF x) -> is_nan x = false.
Proof.
  intros [H|(m & e & H & _)]; apply is_nan_false; rewrite H; discriminate.
Qed.

Lemma pos_above_weaken E E' x : E' <= E -> pos_above E x -> pos_above E' x.
Proof.
  intros HE [H|(m & e & H & Hle)]; [left; exact H|right].
  exists m, e. split; [exact H|lia].
Qed.

(** A valid value with an exponent above [emin] has a full mantissa. *)
Lemma valid_normal s m e : valid_binary (S754_finite s m e) = true -> -1074 < e ->
  Zpos (digits2_pos m) = 53.
Proof.
  cbn [valid_binary]. unfold bounded, canonical_mantissa. intros H He.
  apply andb_prop in H. destruct H as [H _]. apply Z.eqb_eq in H.
  rewrite fexp_eq in H. lia.
Qed.

Lemma valid_exponent s m e : valid_binary (S754_finite s m e) = true ->
  -1074 <= e <= 971 /\ Zpos (digits2_pos m) <= 53.
Proof.
  cbn [valid_binary]. unfold bounded, canonical_mantissa. intros H.
  apply andb_prop in H. destruct H as [H H']. apply Z.eqb_eq in H. apply Z.leb_le in H'.
  rewrite fexp_eq in H. change (emax - prec) with 971 in H'. lia.
Qed.

End Fl.

Import Fl.

(** * Monotonicity of rounding *)

Module Mono.







End Mono.

Import Mono.

(** * The number of bins *)

Module NB.

Lemma sqrt_above x : valid_binary x = true -> pos_above (-40) x ->
  pos_above (-46) (SF64sqrt x).
Proof.
  intros Hv [->|(m & e & -> & He)]; [left; reflexivity|].
  pose proof (valid_normal _ _ _ Hv ltac:(lia)) as Hd.
  destruct (valid_exponent _ _ _ Hv) as [Hb _].
  unfold SF64sqrt, SFsqrt, SFsqrt_core_binary. cbn [Zdigits2]. rewrite Hd.
  set (e' := Z.min (fexp (Z.div2 (53 + e + 1))) (Z.div2 e)).
  assert (He' : -46 <= e' /\ 2 * e' <= e).
  { unfold e'. rewrite fexp_eq, !Z.div2_div. Z.div_mod_to_equations. lia. }
  set (m' := match e - 2 * e' with
             | 0 => Z.pos m | Z.pos _ => Z.shiftl (Z.pos m) (e - 2 * e') | Z.neg _ => 0 end).
  assert (Hm' : 0 < m').
  { unfold m'. destruct (e - 2 * e') eqn:E; try lia.
    rewrite Z.shiftl_mul_pow2 by lia. apply Z.mul_pos_pos; [lia|apply Z.pow_pos_nonneg; lia]. }
  pose proof (Z.sqrtrem_spec m' ltac:(lia)) as Hs.
  destruct (Z.sqrtrem m') as [q r]. destruct Hs as [Hs Hr].
  assert (Hq : 0 < q) by nia.
  match goal with |- pos_above _ (binary_round_aux _ _ _ _ _ ?l) =>
    destruct (round_aux_pos false q e' l Hq ltac:(lia)) as [H|(m2 & e2 & H & Hle)] end.
  - left. exact H.
  - right. exists m2, e2. split; [exact H|lia].
Qed.

Lemma two_spec : Prim2SF 2 = S754_finite false 4503599627370496 (-51).
Proof. reflexivity. Qed.

Lemma half_above y : valid_binary y = true -> pos_above (-46) y ->
  pos_above (-47) (SF64div y (Prim2SF 2)).
Proof.
  intros Hv [->|(m & e & -> & He)]; [left; reflexivity|].
  pose proof (valid_normal _ _ _ Hv ltac:(lia)) as Hd.
  destruct (valid_exponent _ _ _ Hv) as [Hb _].
  rewrite two_spec. unfold SF64div, SFdiv, SFdiv_core_binary. cbn [Zdigits2 xorb]. rewrite Hd.
  change (Z.pos (digits2_pos 4503599627370496)) with 53.
  set (e' := Z.min (fexp (53 + e - (53 + -51))) (e - -51)).
  assert (He' : e' = e - 2) by (unfold e'; rewrite fexp_eq; lia).
  replace (e - -51 - e') with 53 by lia.
  destruct (Z.div_eucl (Z.shiftl (Z.pos m) 53) 4503599627370496) as [q r] eqn:E.
  assert (Hq : q = Z.shiftl (Z.pos m) 53 / 4503599627370496) by (unfold Z.div; now rewrite E).
  rewrite Z.shiftl_mul_pow2 in Hq by lia.
  pose proof (digits2_bounds m) as Hm. rewrite Hd in Hm. change (2 ^ (53 - 1)) with 4503599627370496 in Hm.
  assert (Hq2 : 2 ^ 53 <= q).
  { rewrite Hq. apply Z.div_le_lower_bound; [lia|]. change (2 ^ 53) with 9007199254740992. lia. }
  assert (Hq0 : 0 < q) by (change (2 ^ 53) with 9007199254740992 in Hq2; lia).
  destruct (Zdigits2_pos q Hq0) as [Hdq [_ Hhi]].
  assert (Hdig : 54 <= Zdigits2 q).
  { destruct (Z.lt_ge_cases (Zdigits2 q) 54) as [Hlt|]; [exfalso|assumption].
    assert (2 ^ Zdigits2 q <= 2 ^ 53) by (apply Z.pow_le_mono_r; lia). lia. }
  match goal with |- pos_above _ (binary_round_aux _ _ _ _ _ ?l) =>
    destruct (round_aux_pos false q e' l Hq0 ltac:(lia)) as [H|(m2 & e2 & H & Hle)] end.
  - left. exact H.
  - right. exists m2, e2. split; [exact H|]. rewrite fexp_eq in Hle. lia.
Qed.

Lemma ceil_above z : pos_above (-47) (Prim2SF z) ->
  pos_above (-47) (Prim2SF (Math.ceil z)).
Proof.
  intros Hz. pose proof (Prim2SF_valid z) as Hv. unfold Math.ceil.
  destruct Hz as [H|(m & e & H & He)]; rewrite H in *.
  - left. exact H.
  - destruct (Z.leb_spec 0 e) as [Hpos|Hneg].
    + right. exists m, e. split; [exact H|lia].
    + pose proof (valid_normal _ _ _ Hv ltac:(lia)) as Hd.
      pose proof (digits2_bounds m) as Hm. rewrite Hd in Hm.
      change (2 ^ (53 - 1)) with 4503599627370496 in Hm.
      apply (of_Z_above 5); [lia|]. cbn [negb cond_Zopp].
      rewrite Z.shiftr_div_pow2 by lia.
      assert (Hp : 0 < 2 ^ (- e)) by (apply Z.pow_pos_nonneg; lia).
      assert (Hp2 : 2 ^ (- e) <= 2 ^ 47) by (apply Z.pow_le_mono_r; lia).
      change (2 ^ 47) with 140737488355328 in Hp2. change (2 ^ 5) with 32.
      assert (- Z.pos m / 2 ^ (- e) <= -32); [|lia].
      apply Z.div_le_upper_bound; [lia|]. change (- Z.pos m) with (Z.neg m). lia.
Qed.

Lemma max_pair a c :
  Math.max [a; c] =
  if is_nan a || is_nan c then nan
  else Math.max_step (Math.max_step neg_infinity a) c.
Proof. unfold Math.max. cbn [existsb fold_left]. now rewrite orb_false_r. Qed.

Lemma min_pair a c :
  Math.min [a; c] =
  if is_nan a || is_nan c then nan
  else Math.min_step (Math.min_step infinity a) c.
Proof. unfold Math.min. cbn [existsb fold_left]. now rewrite orb_false_r. Qed.

Lemma ten_spec : Prim2SF 10 = S754_finite false 5629499534213120 (-49).
Proof. reflexivity. Qed.
Lemma twenty_spec : Prim2SF 20 = S754_finite false 5629499534213120 (-48).
Proof. reflexivity. Qed.

Lemma is_pos_zero_above E c : pos_above E (Prim2SF c) -> Num.is_pos_zero c = false /\ Num.is_neg_zero c = false.
Proof.
  intros Hc. assert (is_zero c = false).
  { unfold is_zero. rewrite eqb_spec. destruct Hc as [H|(m & e & H & _)]; rewrite H; reflexivity. }
  unfold Num.is_pos_zero, Num.is_neg_zero. rewrite H. split; reflexivity.
Qed.

Lemma clamp_large c : pos_above (-47) (Prim2SF c) ->
  Math.min [20; Math.max [10; c]]%float = 20%float.
Proof.
  intros Hc.
  destruct (ltb_above 10 c (-47) _ _ ten_spec ltac:(lia) Hc) as [H10 _].
  destruct (ltb_above 20 c (-47) _ _ twenty_spec ltac:(lia) Hc) as [_ H20].
  destruct (is_pos_zero_above _ _ Hc) as [Hz1 Hz2].
  rewrite max_pair. rewrite (pos_above_not_nan _ _ Hc).
  change (is_nan 10%float) with false. cbn [orb].
  change (Math.max_step neg_infinity 10%float) with 10%float.
  unfold Math.max_step at 1. rewrite Hz1, H10. cbn [andb].
  rewrite min_pair. rewrite (pos_above_not_nan _ _ Hc).
  change (is_nan 20%float) with false. cbn [orb].
  change (Math.min_step infinity 20%float) with 20%float.
  unfold Math.min_step. rewrite Hz2, H20. reflexivity.
Qed.

Lemma numBins_large n : (4096 <= n)%nat -> numBins_at n = 20%float.
Proof.
  intros Hn. unfold numBins_at. apply clamp_large. apply ceil_above.
  unfold Math.sqrt. rewrite div_spec, sqrt_spec.
  apply half_above; [rewrite <- sqrt_spec; apply Prim2SF_valid|].
  apply sqrt_above; [apply Prim2SF_valid|].
  unfold Num.of_nat. apply (of_Z_above 12); [lia|]. change (2 ^ 12) with 4096. lia.
Qed.

Lemma ceil_half_sqrt_spec n : 0 < n ->
  0 < ceil_half_sqrt n /\
  4 * (ceil_half_sqrt n - 1) * (ceil_half_sqrt n - 1) < n <= 4 * ceil_half_sqrt n * ceil_half_sqrt n.
Proof.
  intros Hn. unfold ceil_half_sqrt.
  pose proof (Z.sqrt_up_spec n Hn) as H. pose proof (Z.sqrt_up_pos n) as Hp.
  set (s := Z.sqrt_up n) in *. assert (0 < s) by (apply Hp; lia).
  rewrite <- !Z.pow_2_r in *. rewrite Z.pow_2_r in *.
  unfold Z.pred in H.
  assert (Hk : 2 * ((s + 1) / 2) <= s + 1 /\ s <= 2 * ((s + 1) / 2)) by (Z.div_mod_to_equations; lia).
  set (k := (s + 1) / 2) in *. split; [lia|]. split; nia.
Qed.

Lemma numBins_spec_large n : (1445 <= n)%nat -> numBins_spec n = 20.
Proof.
  intros Hn. unfold numBins_spec, clamp.
  destruct (ceil_half_sqrt_spec (Z.of_nat n) ltac:(lia)) as [Hp [_ Hhi]].
  assert (20 <= ceil_half_sqrt (Z.of_nat n)) by nia. lia.
Qed.


Lemma numBins_small_table : forallb agrees (seq 1 4095) = true.
Proof. vm_compute. reflexivity. Qed.

Lemma numBins_at_spec n : (1 <= n)%nat ->
  numBins_at n = Num.of_Z (numBins_spec n) false.
Proof.
  intros Hn. destruct (Nat.lt_ge_cases n 4096) as [Hs|Hl].
  - pose proof numBins_small_table as H. rewrite forallb_forall in H.
    apply FloatAxioms.Leibniz.eqb_spec. apply H. apply in_seq. lia.
  - rewrite numBins_large, numBins_spec_large by lia. reflexivity.
Qed.

End NB.

Import NB.

(** * The clamped index *)

Module Ix.

Lemma bins_table : forallb bins_ok (seq 10 11) = true.
Proof. vm_compute. reflexivity. Qed.

Lemma bins_ok_range N : (10 <= N <= 20)%nat -> bins_ok N = true.
Proof.
  intros HN. pose proof bins_table as H. rewrite forallb_forall in H.
  apply H, in_seq. lia.
Qed.

Lemma ltb_nan_l x : (nan <? x)%float = false.
Proof. rewrite ltb_spec. reflexivity. Qed.

Lemma ltb_zero_neg x :
  (Prim2SF x = S754_zero true \/ Prim2SF x = S754_infinity true \/
   exists m e, Prim2SF x = S754_finite true m e) ->
  (0 <? x)%float = false.
Proof.
  rewrite ltb_spec. change (Prim2SF 0) with (S754_zero false).
  intros [H|[H|(m & e & H)]]; rewrite H; reflexivity.
Qed.

(** [Math.floor] keeps [NaN] and makes no new one. *)
Lemma floor_nan q : is_nan (Math.floor q) = is_nan q.
Proof.
  unfold Math.floor. destruct (Prim2SF q) as [s|s| |s m e] eqn:E; try reflexivity.
  destruct (0 <=? e); [reflexivity|].
  assert (Hq : is_nan q = false) by (apply is_nan_false; rewrite E; discriminate).
  rewrite Hq. apply is_nan_false. rewrite Prim2SF_of_Z.
  destruct (Z.shiftr _ _) as [|p|p]; cbn [binary_normalize]; try discriminate.
  - destruct (binary_round_sign false p 0) as [H|[H|(m' & e' & H)]]; rewrite H; discriminate.
  - destruct (binary_round_sign true p 0) as [H|[H|(m' & e' & H)]]; rewrite H; discriminate.
Qed.

(** A floor strictly between 0 and a small bound is a small integer. *)
Lemma floor_small q K mK eK :
  Prim2SF K = S754_finite false mK eK -> eK <= -48 ->
  (0 <? Math.floor q)%float = true -> (Math.floor q <? K)%float = true ->
  exists z, (1 <= z <= 31)%nat /\ Math.floor q = Num.of_Z (Z.of_nat z) false.
Proof.
  intros HK HeK. unfold Math.floor.
  destruct (Prim2SF q) as [s|s| |s m e] eqn:E.
  - intros H. rewrite ltb_spec, E in H. discriminate.
  - intros H0 H1. rewrite ltb_spec, E in *. destruct s.
    + discriminate.
    + rewrite HK in H1. discriminate.
  - intros H. rewrite ltb_spec, E in H. discriminate.
  - destruct (Z.leb_spec 0 e) as [Hpos|Hneg].
    + intros H0 H1. rewrite ltb_spec, E in *. destruct s; [discriminate|].
      rewrite HK in H1. unfold SFltb in H1. cbn [SFcompare] in H1.
      assert (Hc : (e ?= eK) = Gt) by (apply Z.compare_gt_iff; lia).
      rewrite Hc in H1. discriminate.
    + set (z := Z.shiftr (cond_Zopp s (Z.pos m)) (- e)).
      intros H0 H1.
      destruct (Z.lt_trichotomy z 0) as [Hz|[Hz|Hz]].
      * exfalso. rewrite ltb_zero_neg in H0; [discriminate|].
        rewrite Prim2SF_of_Z. destruct z as [|p|p]; try lia.
        apply binary_round_sign.
      * exfalso. rewrite Hz in H0. discriminate.
      * destruct (Z.lt_ge_cases z 32) as [Hlt|Hge].
        -- exists (Z.to_nat z). split; [lia|]. rewrite Z2Nat.id by lia. reflexivity.
        -- exfalso. pose proof (of_Z_above 5 z false ltac:(lia) Hge) as Ha.
           destruct (ltb_above K _ (-47) _ _ HK ltac:(lia) Ha) as [_ Hf].
           cbn in Hf. rewrite Hf in H1. discriminate.
Qed.

Section Clamp.

Variable N : nat.
Hypothesis HN : (10 <= N <= 20)%nat.

Let K := last_index (Z.of_nat N).



Lemma facts :
  (0 <? K)%float = true /\ (K <? K)%float = false /\ is_nan K = false /\
  Num.is_pos_zero K = false /\ Math.min_step infinity K = K /\
  (exists mK eK, Prim2SF K = S754_finite false mK eK /\ eK <= -48) /\
  Arr.key_of K = Index (N - 1) /\
  (forall z, (1 <= z <= 31)%nat ->
     Arr.key_of (Num.of_Z (Z.of_nat z) false) = Index z /\
     ((Num.of_Z (Z.of_nat z) false <? K)%float = true -> (z < N - 1)%nat)).
Proof.
  pose proof (bins_ok_range N HN) as H. unfold bins_ok in H. fold K in H.
  repeat (apply andb_prop in H; destruct H as [H ?]).
  repeat split.
  - assumption.
  - now apply negb_true_iff.
  - now apply negb_true_iff.
  - now apply negb_true_iff.
  - now apply FloatAxioms.Leibniz.eqb_spec.
  - destruct (Prim2SF K) as [| | |[] mK eK]; try discriminate.
    exists mK, eK. split; [reflexivity|]. now apply Z.leb_le.
  - unfold key_is in *. destruct (Arr.key_of K); [|discriminate].
    f_equal. apply Z.eqb_eq in H3. lia.
  - rewrite forallb_forall in H2. specialize (H2 z ltac:(apply in_seq; lia)).
    unfold small_ok in H2. apply andb_prop in H2. destruct H2 as [H2 _].
    unfold key_is in H2. destruct (Arr.key_of _); [|discriminate].
    f_equal. apply Z.eqb_eq in H2. lia.
  - intros Hlt. rewrite forallb_forall in H2. specialize (H2 z ltac:(apply in_seq; lia)).
    unfold small_ok in H2. apply andb_prop in H2. destruct H2 as [_ H2].
    fold K in H2. rewrite Hlt in H2. apply eqb_prop in H2. symmetry in H2.
    apply Nat.ltb_lt in H2. exact H2.
Qed.

Lemma clamped_nan q : is_nan q = true -> clamped K q = nan.
Proof.
  intros Hq. unfold clamped. rewrite min_pair, floor_nan, Hq, orb_true_r.
  reflexivity.
Qed.

(** The clamp lands on the last index or strictly below it. *)
Lemma clamped_cases q : is_nan q = false ->
  clamped K q = K \/
  ((clamped K q <? K)%float = true /\
   exists i, Arr.key_of (clamped K q) = Index i /\ (i < N - 1)%nat).
Proof.
  intros Hq. destruct facts as (H0K & HKK & HnK & HzK & HminK & (mK & eK & HK & HeK) & HkeyK & Hsmall).
  unfold clamped. set (f := Math.floor q).
  assert (Hf : is_nan f = false) by (unfold f; now rewrite floor_nan).
  rewrite min_pair. fold K. rewrite HnK, Hf. cbn [orb]. rewrite HminK.
  unfold Math.min_step. rewrite HzK, andb_false_r.
  destruct (f <? K)%float eqn:HfK.
  - rewrite max_pair, Hf. change (is_nan 0%float) with false. cbn [orb].
    change (Math.max_step neg_infinity 0%float) with 0%float.
    unfold Math.max_step. change (Num.is_neg_zero 0%float) with false.
    rewrite andb_false_r.
    destruct (0 <? f)%float eqn:H0f.
    + right. split; [exact HfK|].
      destruct (floor_small q K mK eK HK HeK H0f HfK) as (z & Hz & Hfz).
      fold f in Hfz. rewrite Hfz in *. destruct (Hsmall z Hz) as [Hk Hlt].
      exists z. split; [exact Hk|]. apply Hlt. exact HfK.
    + right. split; [exact H0K|]. exists 0%nat. split; [reflexivity|lia].
  - left. rewrite max_pair, HnK. change (is_nan 0%float) with false. cbn [orb].
    change (Math.max_step neg_infinity 0%float) with 0%float.
    unfold Math.max_step. change (Num.is_neg_zero 0%float) with false.
    rewrite andb_false_r, H0K. reflexivity.
Qed.

Lemma chosen_nan b q : is_nan q = true -> chosen K b q = nan.
Proof.
  intros Hq. unfold chosen. rewrite clamped_nan by exact Hq.
  rewrite ltb_nan_l, andb_false_r. reflexivity.
Qed.

Lemma chosen_key b q : is_nan q = false ->
  exists i, Arr.key_of (chosen K b q) = Index i /\ (i <= N - 1)%nat /\
            (b = true -> i = (N - 1)%nat).
Proof.
  intros Hq. destruct facts as (H0K & HKK & HnK & HzK & HminK & _ & HkeyK & _).
  unfold chosen. destruct (clamped_cases q Hq) as [Hc|(Hlt & i & Hk & Hi)].
  - rewrite Hc, HKK, andb_false_r. exists (N - 1)%nat. repeat split; [exact HkeyK|lia].
  - rewrite Hlt, andb_true_r. destruct b.
    + exists (N - 1)%nat. repeat split; [exact HkeyK|lia].
    + exists i. repeat split; [exact Hk|lia|discriminate].
Qed.

End Clamp.

End Ix.

Import Ix.

(** * Finite returns *)

Module Fin.

Lemma is_finite_spec x : is_finite x = true <->
  (exists s, Prim2SF x = S754_zero s) \/ (exists s m e, Prim2SF x = S754_finite s m e).
Proof.
  unfold is_finite, is_nan, is_infinity. rewrite !eqb_spec, abs_spec.
  change (Prim2SF infinity) with (S754_infinity false).
  destruct (Prim2SF x) as [s|s| |s m e] eqn:E; cbn.
  - split; [intros _; left; eauto|intros _; reflexivity].
  - split; [destruct s; discriminate|]. intros [[s' H]|(s' & m & e & H)]; discriminate.
  - split; [discriminate|]. intros [[s' H]|(s' & m & e & H)]; discriminate.
  - unfold SFeqb. cbn [SFcompare]. rewrite Z.compare_refl, Pos.compare_cont_refl.
    destruct s; cbn; (split; [intros _; right; eauto|intros _; reflexivity]).
Qed.

Lemma finite_not_nan x : is_finite x = true -> is_nan x = false.
Proof.
  intros H. apply is_nan_false. apply is_finite_spec in H.
  destruct H as [[s H]|(s & m & e & H)]; rewrite H; discriminate.
Qed.

Lemma finite_nonzero x : is_finite x = true -> (x =? 0)%float = false ->
  exists s m e, Prim2SF x = S754_finite s m e.
Proof.
  intros H Hz. apply is_finite_spec in H. destruct H as [[s H]|H]; [|exact H].
  rewrite eqb_spec, H in Hz. discriminate.
Qed.

Lemma eqb_refl x : is_nan x = false -> (x =? x)%float = true.
Proof. unfold is_nan. now intros ->%negb_false_iff. Qed.

(** Subtracting finite numbers never gives [NaN]. *)
Lemma sub_not_nan a b : is_finite a = true -> is_finite b = true ->
  is_nan (a - b)%float = false.
Proof.
  intros Ha Hb. apply is_nan_false. rewrite sub_spec.
  apply is_finite_spec in Ha, Hb.
  destruct Ha as [[sa Ha]|(sa & ma & ea & Ha)], Hb as [[sb Hb]|(sb & mb & eb & Hb)];
    rewrite Ha, Hb; unfold SF64sub, SFsub.
  - destruct sa, sb; discriminate.
  - discriminate.
  - discriminate.
  - destruct (Z.sub _ _) as [|p|p]; cbn [binary_normalize]; try discriminate.
    + destruct (binary_round_sign false p (Z.min ea eb)) as [H|[H|(m' & e' & H)]]; rewrite H; discriminate.
    + destruct (binary_round_sign true p (Z.min ea eb)) as [H|[H|(m' & e' & H)]]; rewrite H; discriminate.
Qed.

Lemma div_core_nonneg m1 e1 m2 e2 :
  let '(q, _, _) := SFdiv_core_binary prec emax (Zpos m1) e1 (Zpos m2) e2 in 0 <= q.
Proof.
  unfold SFdiv_core_binary.
  match goal with |- context [Z.div_eucl ?a ?b] =>
    assert (Ha : 0 <= a); [|destruct (Z.div_eucl a b) as [q r] eqn:E;
      assert (Hq : q = a / b) by (unfold Z.div; now rewrite E);
      rewrite Hq; apply Z.div_pos; lia] end.
  destruct (_ - _ - _) as [|p|p]; try lia. rewrite Z.shiftl_mul_pow2 by lia.
  apply Z.mul_nonneg_nonneg; [lia|apply Z.pow_nonneg; lia].
Qed.

(** The sign of a quotient of two finite non-zero numbers. *)
Lemma div_finite_sign sx mx ex sy my ey :
  SF64div (S754_finite sx mx ex) (S754_finite sy my ey) = S754_zero (xorb sx sy) \/
  SF64div (S754_finite sx mx ex) (S754_finite sy my ey) = S754_infinity (xorb sx sy) \/
  exists m e, SF64div (S754_finite sx mx ex) (S754_finite sy my ey) = S754_finite (xorb sx sy) m e.
Proof.
  unfold SF64div, SFdiv. pose proof (div_core_nonneg mx ex my ey) as H.
  destruct (SFdiv_core_binary prec emax (Z.pos mx) ex (Z.pos my) ey) as [[q e] l].
  apply round_aux_sign. exact H.
Qed.

(** Dividing by a finite non-zero number makes no [NaN]. *)
Lemma div_not_nan a w : is_nan a = false -> is_finite w = true -> (w =? 0)%float = false ->
  is_nan (a / w)%float = false.
Proof.
  intros Ha Hw Hz. destruct (finite_nonzero w Hw Hz) as (sw & mw & ew & HW).
  apply is_nan_false in Ha. apply is_nan_false. rewrite div_spec, HW.
  destruct (Prim2SF a) as [s|s| |s m e]; try congruence; try discriminate.
  destruct (div_finite_sign s m e sw mw ew) as [H|[H|(m' & e' & H)]]; rewrite H; discriminate.
Qed.

Lemma ltb_infinity x : is_finite x = true -> (x <? infinity)%float = true.
Proof.
  intros H. rewrite ltb_spec. change (Prim2SF infinity) with (S754_infinity false).
  apply is_finite_spec in H. destruct H as [[s H]|(s & m & e & H)]; rewrite H; reflexivity.
Qed.

Lemma gtb_neg_infinity x : is_finite x = true -> (neg_infinity <? x)%float = true.
Proof.
  intros H. rewrite ltb_spec. change (Prim2SF neg_infinity) with (S754_infinity true).
  apply is_finite_spec in H. destruct H as [[s H]|(s & m & e & H)]; rewrite H; reflexivity.
Qed.

Lemma fold_step_in (step : number -> number -> number) :
  (forall a x, step a x = a \/ step a x = x) ->
  forall l a, fold_left step l a = a \/ In (fold_left step l a) l.
Proof.
  intros Hs. induction l as [|x l IH]; intros a; cbn [fold_left]; [left; reflexivity|].
  destruct (IH (step a x)) as [H|H].
  - rewrite H. destruct (Hs a x) as [H'|H']; rewrite H'; [left; reflexivity|right; left; reflexivity].
  - right. right. exact H.
Qed.

Lemma min_step_cases a x : Math.min_step a x = a \/ Math.min_step a x = x.
Proof. unfold Math.min_step. destruct (_ && _); [right; reflexivity|]. destruct (_ <? _)%float; auto. Qed.

Lemma max_step_cases a x : Math.max_step a x = a \/ Math.max_step a x = x.
Proof. unfold Math.max_step. destruct (_ && _); [right; reflexivity|]. destruct (_ <? _)%float; auto. Qed.

Lemma no_nan l : Forall finite l -> existsb is_nan l = false.
Proof.
  induction 1 as [|x l Hx _ IH]; [reflexivity|]. cbn [existsb].
  rewrite (finite_not_nan x Hx), IH. reflexivity.
Qed.

(** The extremes of a non-empty list of finite numbers are members of it. *)
Lemma min_in l : l <> [] -> Forall finite l -> In (Math.min l) l.
Proof.
  intros Hne Hf. unfold Math.min. rewrite (no_nan l Hf).
  destruct l as [|x l]; [congruence|]. cbn [fold_left].
  assert (Hx : Math.min_step infinity x = x).
  { unfold Math.min_step. change (Num.is_pos_zero infinity) with false.
    rewrite andb_false_r, ltb_infinity; [reflexivity|]. now inversion Hf. }
  rewrite Hx. destruct (fold_step_in _ min_step_cases l x) as [H|H].
  - rewrite H. left. reflexivity.
  - right. exact H.
Qed.

Lemma max_in l : l <> [] -> Forall finite l -> In (Math.max l) l.
Proof.
  intros Hne Hf. unfold Math.max. rewrite (no_nan l Hf).
  destruct l as [|x l]; [congruence|]. cbn [fold_left].
  assert (Hx : Math.max_step neg_infinity x = x).
  { unfold Math.max_step. change (Num.is_neg_zero neg_infinity) with false.
    rewrite andb_false_r, gtb_neg_infinity; [reflexivity|]. now inversion Hf. }
  rewrite Hx. destruct (fold_step_in _ max_step_cases l x) as [H|H].
  - rewrite H. left. reflexivity.
  - right. exact H.
Qed.

Lemma min_finite l : l <> [] -> Forall finite l -> is_finite (Math.min l) = true.
Proof. intros Hne Hf. pose proof (min_in l Hne Hf) as H. rewrite Forall_forall in Hf. now apply Hf. Qed.

Lemma max_finite l : l <> [] -> Forall finite l -> is_finite (Math.max l) = true.
Proof. intros Hne Hf. pose proof (max_in l Hne Hf) as H. rewrite Forall_forall in Hf. now apply Hf. Qed.

End Fin.

Import Fin.

(** * The bins array under the callback *)

Module Hist.

Lemma numBins_spec_range n : 10 <= numBins_spec n <= 20.
Proof. unfold numBins_spec, clamp. lia. Qed.

Lemma binCount_range l : (10 <= binCount l <= 20)%nat.
Proof. unfold binCount. pose proof (numBins_spec_range (List.length l)). lia. Qed.

Lemma numBins_of_spec l : l <> [] ->
  numBins_of l = Num.of_Z (Z.of_nat (binCount l)) false.
Proof.
  intros Hne. change (numBins_of l) with (numBins_at (List.length l)).
  rewrite numBins_at_spec by (destruct l; [congruence|cbn; lia]).
  unfold binCount. rewrite Z2Nat.id by (pose proof (numBins_spec_range (List.length l)); lia).
  reflexivity.
Qed.

Lemma last_index_of l : l <> [] ->
  (numBins_of l - 1)%float = last_index (Z.of_nat (binCount l)).
Proof. intros Hne. unfold last_index. now rewrite numBins_of_spec. Qed.

Lemma length_of_numBins l : l <> [] -> Arr.length_of (numBins_of l) = Some (binCount l).
Proof.
  intros Hne. rewrite numBins_of_spec by exact Hne.
  pose proof (bins_ok_range _ (binCount_range l)) as H. unfold bins_ok in H.
  repeat (apply andb_prop in H; destruct H as [H ?]).
  destruct (Arr.length_of _) as [n|]; [|discriminate].
  f_equal. now apply Nat.eqb_eq.
Qed.

Lemma computeHistogram_eq l : l <> [] ->
  computeHistogram l =
  Some (mk_histogram (minReturn_of l) (maxReturn_of l) (numBins_of l) (range_of l)
          (binWidth_of l)
          (fold_left (countReturn l) l (Arr.fill0 (binCount l)))
          (map (label l) (seq 0 (binCount l)))
          (map (edge l) (seq 0 (binCount l)))).
Proof. intros Hne. unfold computeHistogram. now rewrite length_of_numBins. Qed.

Lemma binIndex_chosen l ret : l <> [] ->
  binIndex l ret =
  chosen (last_index (Z.of_nat (binCount l))) (ret =? maxReturn_of l)%float (quotient l ret).
Proof.
  intros Hne. unfold binIndex, chosen, clamped, quotient.
  rewrite !last_index_of by exact Hne. reflexivity.
Qed.

(** *** The array under [bins[i]++] *)

Lemma incr_at_length i l : (i < List.length l)%nat ->
  List.length (Arr.incr_at i l) = List.length l.
Proof.
  revert i. induction l as [|c l IH]; intros [|i] H; cbn in *; try lia.
  rewrite IH by lia. reflexivity.
Qed.

Lemma incr_at_counts i l : (i < List.length l)%nat ->
  Forall nonneg_count l -> Forall nonneg_count (Arr.incr_at i l).
Proof.
  revert i. induction l as [|c l IH]; intros [|i] H Hf; cbn in *; try lia;
    inversion Hf as [|? ? Hc Hl]; subst; constructor; auto.
  - destruct Hc as (z & -> & Hz). exists (z + 1). split; [reflexivity|lia].
  - apply IH; [lia|assumption].
Qed.

Lemma incr_at_total i l : (i < List.length l)%nat -> Forall nonneg_count l ->
  fold_right (fun c acc => Arr.count_of c + acc) 0 (Arr.incr_at i l) =
  fold_right (fun c acc => Arr.count_of c + acc) 0 l + 1.
Proof.
  revert i. induction l as [|c l IH]; intros [|i] H Hf; cbn in *; try lia;
    inversion Hf as [|? ? Hc Hl]; subst.
  - destruct Hc as (z & -> & Hz). cbn. lia.
  - rewrite IH by (lia || assumption). lia.
Qed.

Lemma incr_at_nth i j l : (i < List.length l)%nat -> Forall nonneg_count l ->
  Arr.count_of (nth j (Arr.incr_at i l) Hole) =
  Arr.count_of (nth j l Hole) + (if Nat.eqb j i then 1 else 0).
Proof.
  revert i j. induction l as [|c l IH]; intros [|i] [|j] H Hf; cbn in *; try lia;
    inversion Hf as [|? ? Hc Hl]; subst.
  - destruct Hc as (z & -> & Hz). cbn. lia.
  - apply IH; [lia|assumption].
Qed.

Lemma fill0_counts n : counts n (Arr.fill0 n).
Proof.
  split; cbn; [apply repeat_length|].
  apply Forall_forall. intros c Hc. apply repeat_spec in Hc. subst.
  exists 0. split; [reflexivity|lia].
Qed.

Lemma fill0_total n : Arr.total (Arr.fill0 n) = 0.
Proof. unfold Arr.total. cbn. induction n; cbn; lia. Qed.

Lemma fill0_cell n j : cell_value j (Arr.fill0 n) = 0.
Proof.
  unfold cell_value. cbn. revert j. induction n; intros [|j]; cbn; auto.
Qed.

(** [a[key]++] on an index inside the array. *)
Lemma increment_index n a key i : counts n a ->
  Arr.key_of key = Index i -> (i < n)%nat ->
  counts n (Arr.increment a key) /\
  Arr.total (Arr.increment a key) = Arr.total a + 1 /\
  (forall j, cell_value j (Arr.increment a key) =
             cell_value j a + (if Nat.eqb j i then 1 else 0)).
Proof.
  intros [Hl Hf] Hk Hi. unfold Arr.increment, counts, Arr.total, cell_value.
  rewrite Hk. cbn [elements]. subst n. repeat split.
  - now apply incr_at_length.
  - now apply incr_at_counts.
  - now apply incr_at_total.
  - intros j. now apply incr_at_nth.
Qed.

Lemma increment_named n a key x : counts n a -> Arr.key_of key = Named x ->
  counts n (Arr.increment a key) /\
  Arr.total (Arr.increment a key) = Arr.total a /\
  (forall j, cell_value j (Arr.increment a key) = cell_value j a).
Proof.
  intros Ha Hk. unfold Arr.increment, counts, Arr.total, cell_value.
  rewrite Hk. cbn [elements]. repeat split; apply Ha.
Qed.

Lemma key_of_nan : Arr.key_of nan = Named nan.
Proof. reflexivity. Qed.

Lemma key_of_zero : Arr.key_of 0%float = Index 0.
Proof. reflexivity. Qed.

(** *** One call of the callback *)

Section Step.

Variable l : list number.
Hypothesis Hne : l <> [].

Let N := binCount l.

(** Whatever the return, the elements stay [N] counts and no count goes
    down. *)
Lemma countReturn_counts a ret : counts N a ->
  counts N (countReturn l a ret) /\
  (forall j, cell_value j a <= cell_value j (countReturn l a ret)) /\
  Arr.total a <= Arr.total (countReturn l a ret) <= Arr.total a + 1.
Proof.
  intros Ha. pose proof (binCount_range l) as HN. fold N in HN.
  unfold countReturn. destruct (binWidth_of l =? 0)%float.
  - destruct (ret =? minReturn_of l)%float.
    + destruct (increment_index N a 0%float 0%nat Ha key_of_zero ltac:(lia)) as (H1 & H2 & H3).
      repeat split; try apply H1; try lia.
      intros j. rewrite H3. destruct (Nat.eqb j 0); lia.
    + repeat split; try apply Ha; lia.
  - rewrite binIndex_chosen by exact Hne. fold N.
    destruct (is_nan (quotient l ret)) eqn:Hq.
    + rewrite chosen_nan by (exact HN || exact Hq).
      destruct (increment_named N a nan nan Ha key_of_nan) as (H1 & H2 & H3).
      repeat split; try apply H1; try lia. intros j. rewrite H3. lia.
    + destruct (chosen_key N HN (ret =? maxReturn_of l)%float _ Hq) as (i & Hk & Hi & _).
      destruct (increment_index N a _ i Ha Hk ltac:(lia)) as (H1 & H2 & H3).
      repeat split; try apply H1; try lia.
      intros j. rewrite H3. destruct (Nat.eqb j i); lia.
Qed.

(** A return whose quotient is a number is counted once, in the last bin
    when it is the maximum. *)
Lemma countReturn_counted a ret : counts N a ->
  (binWidth_of l =? 0)%float = false -> is_nan (quotient l ret) = false ->
  exists i, (i < N)%nat /\
    Arr.key_of (binIndex l ret) = Index i /\
    ((ret =? maxReturn_of l)%float = true -> i = (N - 1)%nat) /\
    Arr.total (countReturn l a ret) = Arr.total a + 1 /\
    forall j, cell_value j (countReturn l a ret) =
              cell_value j a + (if Nat.eqb j i then 1 else 0).
Proof.
  intros Ha Hw Hq. pose proof (binCount_range l) as HN. fold N in HN.
  unfold countReturn. rewrite Hw. rewrite binIndex_chosen by exact Hne. fold N.
  destruct (chosen_key N HN (ret =? maxReturn_of l)%float _ Hq) as (i & Hk & Hi & Hmax).
  destruct (increment_index N a _ i Ha Hk ltac:(lia)) as (H1 & H2 & H3).
  exists i. repeat split; try assumption; lia.
Qed.

Lemma fold_counts l' a : counts N a ->
  counts N (fold_left (countReturn l) l' a) /\
  (forall j, cell_value j a <= cell_value j (fold_left (countReturn l) l' a)).
Proof.
  revert a. induction l' as [|r l' IH]; intros a Ha; cbn [fold_left].
  - split; [exact Ha|]. intros j. lia.
  - destruct (countReturn_counts a r Ha) as (H1 & H2 & _).
    destruct (IH _ H1) as (H3 & H4). split; [exact H3|].
    intros j. specialize (H2 j). specialize (H4 j). lia.
Qed.

Lemma fold_total l' a : counts N a ->
  (binWidth_of l =? 0)%float = false ->
  Forall (fun ret => is_nan (quotient l ret) = false) l' ->
  Arr.total (fold_left (countReturn l) l' a) = Arr.total a + Z.of_nat (List.length l').
Proof.
  intros Ha Hw Hq. revert a Ha. induction Hq as [|r l' Hr _ IH]; intros a Ha; cbn [fold_left List.length].
  - lia.
  - destruct (countReturn_counted a r Ha Hw Hr) as (i & _ & _ & _ & Ht & _).
    destruct (countReturn_counts a r Ha) as (H1 & _).
    rewrite IH by exact H1. lia.
Qed.

(** The last bin holds at least the returns equal to the maximum. *)
Lemma fold_last l' a : counts N a ->
  (binWidth_of l =? 0)%float = false ->
  Forall (fun ret => is_nan (quotient l ret) = false) l' ->
  cell_value (N - 1) a +
    Z.of_nat (List.length (filter (fun ret => (ret =? maxReturn_of l)%float) l'))
  <= cell_value (N - 1) (fold_left (countReturn l) l' a).
Proof.
  intros Ha Hw Hq. revert a Ha. induction Hq as [|r l' Hr _ IH]; intros a Ha; cbn [fold_left filter].
  - cbn. lia.
  - destruct (countReturn_counted a r Ha Hw Hr) as (i & _ & _ & Hmax & _ & Hc).
    destruct (countReturn_counts a r Ha) as (H1 & H2 & _).
    specialize (IH _ H1). specialize (Hc (N - 1)%nat). specialize (H2 (N - 1)%nat).
    destruct (r =? maxReturn_of l)%float; cbn [List.length].
    + rewrite (Hmax eq_refl), Nat.eqb_refl in Hc. lia.
    + lia.
Qed.

End Step.

End Hist.

Import Hist.

(** * Bin edges *)

Module Edge.

Lemma edges_table : forallb edges_ok (seq 10 11) = true.
Proof. vm_compute. reflexivity. Qed.

Lemma edges_ok_range N : (10 <= N <= 20)%nat -> edges_ok N = true.
Proof.
  intros HN. pose proof edges_table as H. rewrite forallb_forall in H.
  apply H, in_seq. lia.
Qed.

Lemma edges_facts N : (10 <= N <= 20)%nat ->
  (exists m e, Prim2SF (Num.of_Z (Z.of_nat N) false) = S754_finite false m e) /\
  (forall i, (i < N)%nat -> is_finite (Num.of_nat i) = true) /\
  (forall i, (i <= N)%nat ->
     (Num.of_nat i <? Num.of_Z (Z.of_nat N) false)%float = (i <? N)%nat).
Proof.
  intros HN. pose proof (edges_ok_range N HN) as H. unfold edges_ok in H.
  apply andb_prop in H. destruct H as [H H3].
  apply andb_prop in H. destruct H as [H1 H2].
  rewrite forallb_forall in H2, H3. repeat split.
  - destruct (Prim2SF _) as [| | |[] m e]; try discriminate. eauto.
  - intros i Hi. apply H2, in_seq. lia.
  - intros i Hi. apply eqb_prop, H3, in_seq. lia.
Qed.








(** The bin width is never negative and never [NaN]. *)
Lemma binWidth_nonneg l : l <> [] -> nonneg (Prim2SF (binWidth_of l)).
Proof.
  intros Hne. unfold binWidth_of. destruct (0 <? range_of l)%float eqn:Hr.
  - rewrite ltb_spec in Hr. change (Prim2SF 0) with (S754_zero false) in Hr.
    rewrite div_spec, numBins_of_spec by exact Hne.
    destruct (edges_facts _ (binCount_range l)) as ((mN & eN & HN) & _).
    rewrite HN.
    destruct (Prim2SF (range_of l)) as [s|s| |s m e]; try discriminate.
    + destruct s; [discriminate|]. right. left. reflexivity.
    + destruct s; [discriminate|].
      destruct (div_finite_sign false m e false mN eN) as [H|[H|(m' & e' & H)]]; rewrite H.
      * left. reflexivity.
      * right. left. reflexivity.
      * right. right. eauto.
  - right. right. change (Prim2SF 1) with (S754_finite false 4503599627370496 (-52)). eauto.
Qed.

Lemma nonneg_leb w : nonneg (Prim2SF w) -> (0 <=? w)%float = true.
Proof.
  intros H. rewrite leb_spec. change (Prim2SF 0) with (S754_zero false).
  destruct H as [H|[H|(m & e & H)]]; rewrite H; reflexivity.
Qed.

Lemma nonneg_pos w : nonneg (Prim2SF w) -> (w =? 0)%float = false -> (0 <? w)%float = true.
Proof.
  intros H Hz. rewrite ltb_spec. rewrite eqb_spec in Hz.
  change (Prim2SF 0) with (S754_zero false) in *.
  destruct H as [H|[H|(m & e & H)]]; rewrite H in *; try reflexivity. discriminate.
Qed.

Section Edges.

Variable l : list number.
Hypothesis Hne : l <> [].
Hypothesis Hfin : Forall finite l.
Hypothesis Hw : is_finite (binWidth_of l) = true.




Lemma binEnd_last : binEnd l (binCount l - 1) = maxReturn_of l.
Proof.
  unfold binEnd. rewrite last_index_of by exact Hne.
  pose proof (binCount_range l) as HN.
  pose proof (bins_ok_range _ (binCount_range l)) as H. unfold bins_ok in H.
  apply andb_prop in H. destruct H as [_ H]. rewrite forallb_forall in H.
  specialize (H (binCount l - 1)%nat ltac:(apply in_seq; lia)).
  apply eqb_prop in H. rewrite H, Nat.eqb_refl. reflexivity.
Qed.


(** The first edge is the minimum. *)
Lemma binStart_first : (binStart l 0 =? minReturn_of l)%float = true.
Proof.
  unfold binStart. change (Num.of_nat 0) with 0%float.
  pose proof (min_finite l Hne Hfin) as Hmin. fold (minReturn_of l) in Hmin.
  rewrite eqb_spec, add_spec, mul_spec. change (Prim2SF 0) with (S754_zero false).
  apply is_finite_spec in Hw, Hmin.
  assert (Hmul : exists s', SF64mul (S754_zero false) (Prim2SF (binWidth_of l)) = S754_zero s').
  { destruct Hw as [[sw HW]|(sw & mw & ew & HW)]; rewrite HW; eexists; reflexivity. }
  destruct Hmul as [s' ->].
  destruct Hmin as [[sm HM]|(sm & mm & em & HM)]; rewrite HM.
  - destruct sm, s'; reflexivity.
  - change (SF64add (S754_finite sm mm em) (S754_zero s')) with (S754_finite sm mm em).
    unfold SFeqb. rewrite SFcompare_refl by discriminate. reflexivity.
Qed.

End Edges.

Lemma binEnd_last_any l : l <> [] -> binEnd l (binCount l - 1) = maxReturn_of l.
Proof.
  intros Hne. unfold binEnd. rewrite last_index_of by exact Hne.
  pose proof (binCount_range l) as HN.
  pose proof (bins_ok_range _ (binCount_range l)) as H. unfold bins_ok in H.
  apply andb_prop in H. destruct H as [_ H]. rewrite forallb_forall in H.
  specialize (H (binCount l - 1)%nat ltac:(apply in_seq; lia)).
  apply eqb_prop in H. rewrite H, Nat.eqb_refl. reflexivity.
Qed.

End Edge.

Import Edge.

(** * The claims *)

Lemma quotient_not_nan l ret : l <> [] -> Forall finite l -> In ret l ->
  is_finite (binWidth_of l) = true -> (binWidth_of l =? 0)%float = false ->
  is_nan (quotient l ret) = false.
Proof.
  intros Hne Hf Hin Hw Hz. unfold quotient. apply div_not_nan; try assumption.
  apply sub_not_nan.
  - rewrite Forall_forall in Hf. now apply Hf.
  - now apply min_finite.
Qed.

Lemma quotients_not_nan l : l <> [] -> Forall finite l ->
  is_finite (binWidth_of l) = true -> (binWidth_of l =? 0)%float = false ->
  Forall (fun ret => is_nan (quotient l ret) = false) l.
Proof.
  intros Hne Hf Hw Hz. apply Forall_forall. intros ret Hin.
  now apply quotient_not_nan.
Qed.

Lemma bins_of_computeHistogram l : l <> [] ->
  exists h, computeHistogram l = Some h /\
    bins h = fold_left (countReturn l) l (Arr.fill0 (binCount l)) /\
    minReturn h = minReturn_of l /\ maxReturn h = maxReturn_of l /\
    numBins h = numBins_of l /\ binWidth h = binWidth_of l /\
    labels h = map (label l) (seq 0 (binCount l)) /\
    binEdges h = map (edge l) (seq 0 (binCount l)).
Proof.
  intros Hne. eexists. split; [apply computeHistogram_eq; exact Hne|].
  cbn. repeat split.
Qed.

(** C1 (as amended).  For every non-empty sequence of finite returns whose
    bin width is finite and not zero, every sample goes to exactly one
    bin: the bins are [numBins] counts and they add up to the length of
    the input. *)
Theorem counts_sum_to_length (l : list number) :
  l <> [] -> Forall finite l ->
  is_finite (binWidth_of l) = true -> (binWidth_of l =? 0)%float = false ->
  exists h, computeHistogram l = Some h /\
            counts (binCount l) (bins h) /\
            Arr.total (bins h) = Z.of_nat (List.length l).
Proof.
  intros Hne Hf Hw Hz.
  destruct (bins_of_computeHistogram l Hne) as (h & Hh & Hb & _).
  exists h. split; [exact Hh|]. rewrite Hb. split.
  - apply fold_counts; [exact Hne|apply fill0_counts].
  - rewrite (fold_total l Hne l) by
      (try apply fill0_counts; try assumption; now apply quotients_not_nan).
    rewrite fill0_total. lia.
Qed.

Lemma counts_sum_to_length_witness :
  exists h, computeHistogram example_returns = Some h /\
            counts (binCount example_returns) (bins h) /\
            Arr.total (bins h) = Z.of_nat (List.length example_returns).
Proof.
  apply counts_sum_to_length;
    [discriminate | repeat constructor | reflexivity | reflexivity].
Defined.

(** C1, counterexample.  [-2^1023] and [2^1023] are finite, their range is
    [Infinity], the quotient of the second sample is [NaN], and only one of
    the two samples is counted. *)
Lemma counts_sum_counterexample :
  overflow_returns <> [] /\ Forall finite overflow_returns /\
  exists h, computeHistogram overflow_returns = Some h /\
            Arr.total (bins h) = 1 /\
            Z.of_nat (List.length overflow_returns) = 2 /\
            named (bins h) = [nan].
Proof.
  split; [discriminate|]. split; [repeat constructor|].
  eexists. split; [vm_compute; reflexivity|]. cbn. repeat split.
Qed.

(** ** Identical returns *)

Lemma min_step_infinity x : is_finite x = true -> Math.min_step infinity x = x.
Proof.
  intros Hx. unfold Math.min_step. change (Num.is_pos_zero infinity) with false.
  now rewrite andb_false_r, ltb_infinity.
Qed.

Lemma max_step_neg_infinity x : is_finite x = true -> Math.max_step neg_infinity x = x.
Proof.
  intros Hx. unfold Math.max_step. change (Num.is_neg_zero neg_infinity) with false.
  now rewrite andb_false_r, gtb_neg_infinity.
Qed.

Lemma fold_repeat (step : number -> number -> number) x n :
  step x x = x -> fold_left step (repeat x n) x = x.
Proof.
  intros Hs. induction n as [|n IH]; cbn [repeat fold_left]; [reflexivity|].
  now rewrite Hs.
Qed.

Lemma finite_repeat x n : is_finite x = true -> Forall finite (repeat x n).
Proof.
  intros Hx. apply Forall_forall. intros y Hy. apply repeat_spec in Hy. now subst.
Qed.

Lemma min_repeat x n : is_finite x = true -> Math.min (repeat x (S n)) = x.
Proof.
  intros Hx. unfold Math.min. rewrite no_nan by now apply finite_repeat.
  cbn [repeat fold_left]. rewrite min_step_infinity by exact Hx.
  apply fold_repeat. destruct (min_step_cases x x); assumption.
Qed.

Lemma max_repeat x n : is_finite x = true -> Math.max (repeat x (S n)) = x.
Proof.
  intros Hx. unfold Math.max. rewrite no_nan by now apply finite_repeat.
  cbn [repeat fold_left]. rewrite max_step_neg_infinity by exact Hx.
  apply fold_repeat. destruct (max_step_cases x x); assumption.
Qed.

Lemma sub_self x : is_finite x = true -> (x - x)%float = 0%float.
Proof.
  intros Hx. apply Prim2SF_inj. rewrite sub_spec.
  change (Prim2SF 0) with (S754_zero false).
  apply is_finite_spec in Hx. destruct Hx as [[s H]|(s & m & e & H)]; rewrite H.
  - destruct s; reflexivity.
  - unfold SF64sub, SFsub. rewrite Z.sub_diag. reflexivity.
Qed.

Lemma fold_all_max l : l <> [] -> forall l' a, counts (binCount l) a ->
  (binWidth_of l =? 0)%float = false ->
  Forall (fun ret => is_nan (quotient l ret) = false /\
                     (ret =? maxReturn_of l)%float = true) l' ->
  forall j, cell_value j (fold_left (countReturn l) l' a) =
            cell_value j a +
            (if Nat.eqb j (binCount l - 1) then Z.of_nat (List.length l') else 0).
Proof.
  intros Hne l' a Ha Hw Hall. revert a Ha.
  induction Hall as [|r l' [Hq Hm] _ IH]; intros a Ha j; cbn [fold_left List.length].
  - destruct (Nat.eqb _ _); lia.
  - destruct (countReturn_counted l Hne a r Ha Hw Hq) as (i & _ & _ & Hmax & _ & Hc).
    destruct (countReturn_counts l Hne a r Ha) as (H1 & _).
    rewrite IH by exact H1. rewrite Hc, (Hmax Hm).
    destruct (Nat.eqb j (binCount l - 1)); lia.
Qed.

(** Whatever the value, identical finite returns are all counted in the
    last bin, with bin width 1. *)
Lemma identical_returns_general x n : is_finite x = true ->
  exists h, computeHistogram (repeat x (S n)) = Some h /\
    binWidth h = 1%float /\
    forall j, cell_value j (bins h) =
              if Nat.eqb j (binCount (repeat x (S n)) - 1)
              then Z.of_nat (S n) else 0.
Proof.
  intros Hx. set (l := repeat x (S n)).
  assert (Hne : l <> []) by discriminate.
  assert (Hmin : minReturn_of l = x) by (apply min_repeat; exact Hx).
  assert (Hmax : maxReturn_of l = x) by (apply max_repeat; exact Hx).
  assert (Hr : range_of l = 0%float).
  { unfold range_of. rewrite Hmin, Hmax. now apply sub_self. }
  assert (Hw : binWidth_of l = 1%float) by (unfold binWidth_of; now rewrite Hr).
  destruct (bins_of_computeHistogram l Hne) as (h & Hh & Hb & _ & _ & _ & Hbw & _).
  exists h. split; [exact Hh|]. split; [now rewrite Hbw|].
  intros j. rewrite Hb.
  rewrite (fold_all_max l Hne l (Arr.fill0 (binCount l))).
  - rewrite fill0_cell. subst l. rewrite repeat_length. reflexivity.
  - apply fill0_counts.
  - now rewrite Hw.
  - apply Forall_forall. intros ret Hin. apply repeat_spec in Hin. subst ret.
    unfold quotient. rewrite Hmin, Hmax, Hw, sub_self by exact Hx. split.
    + reflexivity.
    + apply eqb_refl. now apply finite_not_nan.
Qed.

(** C2, the code at the input of the specification.  For the returns
    [2.0, 2.0, 2.0] the bin width is 1 and the three samples are counted
    in bin 9, the last one; bin 0 stays empty. *)
Theorem identical_returns_last_bin :
  exists h, computeHistogram identical_returns = Some h /\
    binWidth h = 1%float /\
    elements (bins h) =
      [Count 0; Count 0; Count 0; Count 0; Count 0;
       Count 0; Count 0; Count 0; Count 0; Count 3].
Proof.
  eexists. split; [vm_compute; reflexivity|]. cbn. split; reflexivity.
Qed.

(** ** The bin count *)

(** C3.  For every non-empty input the number of bins is
    [clamp(ceil(sqrt(n) / 2), 10, 20)] for the length [n]: 10 for 4 and for
    400 samples, 20 for 10000. *)
Theorem numBins_policy (l : list number) : l <> [] ->
  (exists h, computeHistogram l = Some h /\
             numBins h = Num.of_Z (numBins_spec (List.length l)) false /\
             List.length (elements (bins h)) = Z.to_nat (numBins_spec (List.length l))) /\
  numBins_of l = Num.of_Z (numBins_spec (List.length l)) false /\
  (Z.of_nat (List.length l) = 4 -> numBins_of l = 10%float) /\
  (Z.of_nat (List.length l) = 400 -> numBins_of l = 10%float) /\
  (Z.of_nat (List.length l) = 10000 -> numBins_of l = 20%float).
Proof.
  intros Hne.
  assert (Hn : numBins_of l = Num.of_Z (numBins_spec (List.length l)) false).
  { change (numBins_of l) with (numBins_at (List.length l)).
    apply numBins_at_spec. destruct l; [congruence|cbn; lia]. }
  split.
  - destruct (bins_of_computeHistogram l Hne) as (h & Hh & Hb & _ & _ & Hnb & _).
    exists h. split; [exact Hh|]. split; [now rewrite Hnb|].
    rewrite Hb. apply fold_counts; [exact Hne|apply fill0_counts].
  - split; [exact Hn|].
    repeat split; intros Hlen; rewrite Hn; unfold numBins_spec; rewrite Hlen;
      reflexivity.
Qed.

Lemma numBins_policy_witness :
  (exists h, computeHistogram example_returns = Some h /\
             numBins h = Num.of_Z (numBins_spec (List.length example_returns)) false /\
             List.length (elements (bins h)) =
               Z.to_nat (numBins_spec (List.length example_returns))) /\
  numBins_of example_returns = Num.of_Z (numBins_spec (List.length example_returns)) false /\
  (Z.of_nat (List.length example_returns) = 4 -> numBins_of example_returns = 10%float) /\
  (Z.of_nat (List.length example_returns) = 400 -> numBins_of example_returns = 10%float) /\
  (Z.of_nat (List.length example_returns) = 10000 -> numBins_of example_returns = 20%float).
Proof. apply numBins_policy. discriminate. Defined.

(** ** The maximum *)

Lemma binIndex_key l ret : l <> [] -> is_nan (quotient l ret) = false ->
  exists i, Arr.key_of (binIndex l ret) = Index i /\ (i < binCount l)%nat /\
            ((ret =? maxReturn_of l)%float = true -> i = (binCount l - 1)%nat).
Proof.
  intros Hne Hq. rewrite binIndex_chosen by exact Hne.
  pose proof (binCount_range l) as HN.
  destruct (chosen_key _ HN (ret =? maxReturn_of l)%float _ Hq) as (i & Hk & Hi & Hm).
  exists i. repeat split; [exact Hk|lia|exact Hm].
Qed.

(** C4 (as amended).  For every non-empty sequence of finite returns with
    the maximum above the minimum whose bin width is finite and not zero,
    every sample equal to the maximum is counted at index [numBins - 1],
    every sample is counted at an index of the array, and none is
    dropped. *)
Theorem maximum_in_last_bin (l : list number) :
  l <> [] -> Forall finite l ->
  (minReturn_of l <? maxReturn_of l)%float = true ->
  is_finite (binWidth_of l) = true -> (binWidth_of l =? 0)%float = false ->
  exists h, computeHistogram l = Some h /\
    (forall ret, In ret l -> (ret =? maxReturn h)%float = true ->
       Arr.key_of (binIndex l ret) = Index (binCount l - 1)) /\
    (forall ret, In ret l ->
       exists i, (i < binCount l)%nat /\ Arr.key_of (binIndex l ret) = Index i) /\
    Z.of_nat (List.length (filter (fun ret => (ret =? maxReturn h)%float) l))
      <= cell_value (binCount l - 1) (bins h) /\
    Arr.total (bins h) = Z.of_nat (List.length l).
Proof.
  intros Hne Hf _ Hw Hz.
  destruct (bins_of_computeHistogram l Hne) as (h & Hh & Hb & _ & Hmax & _).
  pose proof (quotients_not_nan l Hne Hf Hw Hz) as Hq.
  exists h. split; [exact Hh|]. rewrite Hmax, Hb. repeat split.
  - intros ret Hin Hm.
    destruct (binIndex_key l ret Hne) as (i & Hk & _ & Hi).
    + rewrite Forall_forall in Hq. now apply Hq.
    + now rewrite Hk, (Hi Hm).
  - intros ret Hin.
    destruct (binIndex_key l ret Hne) as (i & Hk & Hi & _).
    + rewrite Forall_forall in Hq. now apply Hq.
    + exists i. split; assumption.
  - pose proof (fold_last l Hne l (Arr.fill0 (binCount l)) (fill0_counts _) Hz Hq) as H.
    rewrite fill0_cell in H. lia.
  - rewrite (fold_total l Hne l) by (try apply fill0_counts; assumption).
    rewrite fill0_total. lia.
Qed.

Lemma maximum_in_last_bin_witness :
  exists h, computeHistogram example_returns = Some h /\
    (forall ret, In ret example_returns -> (ret =? maxReturn h)%float = true ->
       Arr.key_of (binIndex example_returns ret) = Index (binCount example_returns - 1)) /\
    (forall ret, In ret example_returns ->
       exists i, (i < binCount example_returns)%nat /\
                 Arr.key_of (binIndex example_returns ret) = Index i) /\
    Z.of_nat (List.length (filter (fun ret => (ret =? maxReturn h)%float) example_returns))
      <= cell_value (binCount example_returns - 1) (bins h) /\
    Arr.total (bins h) = Z.of_nat (List.length example_returns).
Proof.
  apply maximum_in_last_bin;
    [discriminate | repeat constructor | reflexivity | reflexivity | reflexivity].
Defined.

(** C4, counterexample.  For the returns [0] and [2^-1074] the maximum is
    above the minimum, the sample [2^-1074] is the maximum, the bin width
    [2^-1074 / 10] is [0], and that sample is counted nowhere: the last bin
    is empty and one sample of two is counted. *)
Lemma maximum_in_last_bin_counterexample :
  Forall finite underflow_returns /\
  exists h, computeHistogram underflow_returns = Some h /\
    (minReturn h <? maxReturn h)%float = true /\
    In (maxReturn h) underflow_returns /\
    cell_value 9 (bins h) = 0 /\
    List.length (elements (bins h)) = 10%nat /\
    Arr.total (bins h) = 1 /\
    Z.of_nat (List.length underflow_returns) = 2.
Proof.
  split; [repeat constructor|].
  eexists. split; [vm_compute; reflexivity|]. cbn.
  repeat split. right. left. reflexivity.
Qed.

(** ** The edges *)

Lemma nth_error_edges l i : (i < binCount l)%nat ->
  nth_error (map (edge l) (seq 0 (binCount l))) i = Some (edge l i).
Proof.
  intros Hi. rewrite nth_error_map, nth_error_seq.
  apply Nat.ltb_lt in Hi. rewrite Hi. reflexivity.
Qed.

(** C5 (as amended).  For every non-empty sequence of finite returns whose
    bin width is finite, the start of the first bin equals the minimum and
    the end of the last bin is the maximum itself. *)
Theorem first_start_last_end (l : list number) :
  l <> [] -> Forall finite l -> is_finite (binWidth_of l) = true ->
  exists h first last,
    computeHistogram l = Some h /\
    List.length (binEdges h) = binCount l /\
    nth_error (binEdges h) 0 = Some first /\
    nth_error (binEdges h) (binCount l - 1) = Some last /\
    (start first =? minReturn h)%float = true /\
    end_ last = maxReturn h /\
    (end_ last =? maxReturn h)%float = true.
Proof.
  intros Hne Hf Hw. pose proof (binCount_range l) as HN.
  destruct (bins_of_computeHistogram l Hne) as (h & Hh & _ & Hmin & Hmax & _ & _ & _ & He).
  exists h, (edge l 0), (edge l (binCount l - 1)).
  split; [exact Hh|]. rewrite He, Hmin, Hmax. repeat split.
  - now rewrite length_map, length_seq.
  - apply nth_error_edges. lia.
  - apply nth_error_edges. lia.
  - cbn [edge start]. now apply binStart_first.
  - cbn [edge end_]. now apply binEnd_last_any.
  - cbn [edge end_]. rewrite binEnd_last_any by exact Hne.
    apply eqb_refl, finite_not_nan. now apply max_finite.
Qed.

Lemma first_start_last_end_witness :
  exists h first last,
    computeHistogram example_returns = Some h /\
    List.length (binEdges h) = binCount example_returns /\
    nth_error (binEdges h) 0 = Some first /\
    nth_error (binEdges h) (binCount example_returns - 1) = Some last /\
    (start first =? minReturn h)%float = true /\
    end_ last = maxReturn h /\
    (end_ last =? maxReturn h)%float = true.
Proof.
  apply first_start_last_end; [discriminate | repeat constructor | reflexivity].
Defined.

(** C5, counterexample.  For [-2^1023] and [2^1023] the bin width is
    [Infinity], [0 * Infinity] is [NaN], and the start of the first bin is
    [NaN], not the minimum. *)
Lemma first_start_counterexample :
  overflow_returns <> [] /\ Forall finite overflow_returns /\
  exists h first,
    computeHistogram overflow_returns = Some h /\
    nth_error (binEdges h) 0 = Some first /\
    is_nan (start first) = true /\
    (start first =? minReturn h)%float = false.
Proof.
  split; [discriminate|]. split; [repeat constructor|].
  eexists. eexists. split; [vm_compute; reflexivity|]. cbn.
  repeat split.
Qed.

(** C6.  For every non-empty input the binner produces exactly [numBins]
    bins, [numBins] labels and [numBins] edge records, with [numBins]
    between 10 and 20, and every bin holds a count that is not negative. *)
Theorem bins_labels_edges (l : list number) : l <> [] ->
  exists h n,
    computeHistogram l = Some h /\
    Arr.length_of (numBins h) = Some n /\
    (10 <= n <= 20)%nat /\
    List.length (elements (bins h)) = n /\
    List.length (labels h) = n /\
    List.length (binEdges h) = n /\
    Forall nonneg_count (elements (bins h)).
Proof.
  intros Hne.
  destruct (bins_of_computeHistogram l Hne) as (h & Hh & Hb & _ & _ & Hn & _ & Hl & He).
  exists h, (binCount l). split; [exact Hh|].
  destruct (fold_counts l Hne l (Arr.fill0 (binCount l)) (fill0_counts _)) as [[Hlen Hall] _].
  rewrite Hn, Hb, Hl, He, length_map, length_map, length_seq. repeat split.
  - now apply length_of_numBins.
  - apply binCount_range.
  - apply binCount_range.
  - exact Hlen.
  - exact Hall.
Qed.

Lemma bins_labels_edges_witness :
  exists h n,
    computeHistogram overflow_returns = Some h /\
    Arr.length_of (numBins h) = Some n /\
    (10 <= n <= 20)%nat /\
    List.length (elements (bins h)) = n /\
    List.length (labels h) = n /\
    List.length (binEdges h) = n /\
    Forall nonneg_count (elements (bins h)).
Proof. apply bins_labels_edges. discriminate. Defined.




(** ** The page *)

Lemma destroy_no_chart p h : ~ In (NewChart h) (snd (destroyHistogramChart p)).
Proof.
  unfold destroyHistogramChart.
  destruct (histogramChart p), (destroy_throws p); cbn; intuition discriminate.
Qed.

Local Open Scope string_scope.

(** C9 (as amended).  For an undefined, null or empty returns series no
    chart is created and the binning is not reached, whatever the page.
    With the canvas in the page the function returns after the
    placeholder: the old chart is destroyed, a warning is logged, the
    canvas is cleared and the text "No return data available." is drawn.
    Without the canvas it logs that the canvas is missing and returns: the
    page is left as it was and nothing is drawn. *)
Theorem empty_returns_placeholder (p : page) (v : js_value) :
  v = Undefined \/ v = Null \/ v = ArrayOf [] ->
  (forall h, ~ In (NewChart h) (effects p v)) /\
  (canvas p = true ->
   createOrUpdateReturnHistogram p v =
     (fst (destroyHistogramChart p),
      (snd (destroyHistogramChart p) ++
       [ConsoleWarn "No daily returns data available for histogram.";
        ClearRect;
        FillText "14px sans-serif" "var(--text-secondary)"
          "No return data available."])%list,
      NoData) /\
   histogramChart (fst (fst (createOrUpdateReturnHistogram p v))) = false) /\
  (canvas p = false ->
   createOrUpdateReturnHistogram p v =
     (p, [ConsoleError "Canvas element #returnHistogramChart not found!"],
      NoCanvas)).
Proof.
  intros Hv.
  assert (Hno : no_returns v = true) by (destruct Hv as [->|[->| ->]]; reflexivity).
  destruct (canvas p) eqn:Hc.
  - assert (Heq : createOrUpdateReturnHistogram p v =
      (fst (destroyHistogramChart p),
       (snd (destroyHistogramChart p) ++
        [ConsoleWarn "No daily returns data available for histogram.";
         ClearRect;
         FillText "14px sans-serif" "var(--text-secondary)"
           "No return data available."])%list,
       NoData)).
    { unfold createOrUpdateReturnHistogram. rewrite Hc. cbn [negb].
      destruct (destroyHistogramChart p) as [p1 destroyed]. now rewrite Hno. }
    split; [|split; [|discriminate]].
    + intros h Hin. unfold effects in Hin. rewrite Heq in Hin. cbn [fst snd] in Hin.
      apply in_app_iff in Hin. destruct Hin as [Hin|Hin].
      * exact (destroy_no_chart p h Hin).
      * cbn in Hin. intuition discriminate.
    + intros _. split; [exact Heq|].
      rewrite Heq. cbn [fst]. unfold destroyHistogramChart.
      destruct (histogramChart p) eqn:E; [destruct (destroy_throws p)|]; cbn; auto.
  - assert (Heq : createOrUpdateReturnHistogram p v =
      (p, [ConsoleError "Canvas element #returnHistogramChart not found!"], NoCanvas)).
    { unfold createOrUpdateReturnHistogram. rewrite Hc. reflexivity. }
    split; [|split; [discriminate|]].
    + intros h Hin. unfold effects in Hin. rewrite Heq in Hin. cbn in Hin.
      intuition discriminate.
    + intros _. exact Heq.
Qed.

Lemma empty_returns_placeholder_witness :
  (forall h, ~ In (NewChart h)
                  (effects (mk_page true true false false) (ArrayOf []))) /\
  (canvas (mk_page true true false false) = true ->
   createOrUpdateReturnHistogram (mk_page true true false false) (ArrayOf []) =
     (fst (destroyHistogramChart (mk_page true true false false)),
      (snd (destroyHistogramChart (mk_page true true false false)) ++
       [ConsoleWarn "No daily returns data available for histogram.";
        ClearRect;
        FillText "14px sans-serif" "var(--text-secondary)"
          "No return data available."])%list,
      NoData) /\
   histogramChart
     (fst (fst (createOrUpdateReturnHistogram (mk_page true true false false)
                  (ArrayOf [])))) = false) /\
  (canvas (mk_page true true false false) = false ->
   createOrUpdateReturnHistogram (mk_page true true false false) (ArrayOf []) =
     (mk_page true true false false,
      [ConsoleError "Canvas element #returnHistogramChart not found!"],
      NoCanvas)).
Proof.
  apply (empty_returns_placeholder (mk_page true true false false) (ArrayOf [])).
  right; right; reflexivity.
Defined.

(** C9, counterexample.  On a page without the canvas an empty returns
    series gets no placeholder: the call logs an error, draws no text and
    ends as a missing canvas, not as missing data. *)
Lemma empty_returns_counterexample :
  no_returns (ArrayOf []) = true /\
  createOrUpdateReturnHistogram (mk_page false false false false) (ArrayOf []) =
    (mk_page false false false false,
     [ConsoleError "Canvas element #returnHistogramChart not found!"],
     NoCanvas) /\
  (forall font style text,
     ~ In (FillText font style text)
          (effects (mk_page false false false false) (ArrayOf []))) /\
  snd (createOrUpdateReturnHistogram (mk_page false false false false) (ArrayOf []))
    <> NoData.
Proof.
  split; [reflexivity|]. split; [reflexivity|]. split.
  - intros font style text Hin. cbn in Hin. intuition discriminate.
  - cbn. discriminate.
Qed.

Local Close Scope string_scope.

(** ** The bin width and the index *)

(** C10 (as amended).  For every non-empty input the bin width is neither
    negative nor [NaN] and the bins stay an array of [numBins] counts, so
    no access extends it; for finite returns with a finite bin width that
    is not zero the bin width is positive and every index after clamping
    is an index of the array. *)
Theorem width_and_indices (l : list number) : l <> [] ->
  (0 <=? binWidth_of l)%float = true /\
  (exists h, computeHistogram l = Some h /\ counts (binCount l) (bins h)) /\
  (Forall finite l -> is_finite (binWidth_of l) = true ->
   (binWidth_of l =? 0)%float = false ->
     (0 <? binWidth_of l)%float = true /\
     forall ret, In ret l ->
       exists i, (i < binCount l)%nat /\ Arr.key_of (binIndex l ret) = Index i).
Proof.
  intros Hne. pose proof (binWidth_nonneg l Hne) as Hnn. repeat split.
  - now apply nonneg_leb.
  - destruct (bins_of_computeHistogram l Hne) as (h & Hh & Hb & _).
    exists h. split; [exact Hh|]. rewrite Hb.
    apply fold_counts; [exact Hne|apply fill0_counts].
  - now apply nonneg_pos.
  - intros ret Hin.
    destruct (binIndex_key l ret Hne) as (i & Hk & Hi & _).
    + now apply quotient_not_nan.
    + exists i. split; assumption.
Qed.

Lemma width_and_indices_witness :
  (0 <=? binWidth_of example_returns)%float = true /\
  (exists h, computeHistogram example_returns = Some h /\
             counts (binCount example_returns) (bins h)) /\
  (Forall finite example_returns -> is_finite (binWidth_of example_returns) = true ->
   (binWidth_of example_returns =? 0)%float = false ->
     (0 <? binWidth_of example_returns)%float = true /\
     forall ret, In ret example_returns ->
       exists i, (i < binCount example_returns)%nat /\
                 Arr.key_of (binIndex example_returns ret) = Index i).
Proof. apply width_and_indices. discriminate. Defined.

(** C10, counterexample.  For the finite returns [0] and [2^-1074] the bin
    width [2^-1074 / 10] is [0]: it is not positive, the callback takes its
    [binWidth === 0] branch, and the sample [2^-1074] is not counted. *)
Lemma width_positive_counterexample :
  underflow_returns <> [] /\ Forall finite underflow_returns /\
  (0 <? range_of underflow_returns)%float = true /\
  (binWidth_of underflow_returns =? 0)%float = true /\
  (0 <? binWidth_of underflow_returns)%float = false /\
  forall bins,
    countReturn underflow_returns bins 0x1p-1074%float = bins.
Proof.
  split; [discriminate|]. split; [repeat constructor|].
  repeat split.
Qed.

(** * Further properties of the code *)

Lemma landing_range l ret i : l <> [] -> landing l ret = Some i -> (i < binCount l)%nat.
Proof.
  intros Hne. pose proof (binCount_range l) as HN. unfold landing.
  destruct (binWidth_of l =? 0)%float.
  - destruct (ret =? minReturn_of l)%float; [|discriminate].
    intros [= <-]. lia.
  - rewrite binIndex_chosen by exact Hne.
    destruct (is_nan (quotient l ret)) eqn:Hq.
    + rewrite chosen_nan by exact Hq. discriminate.
    + destruct (chosen_key _ HN (ret =? maxReturn_of l)%float _ Hq) as (k & Hk & Hi & _).
      rewrite Hk. intros [= <-]. lia.
Qed.

Lemma countReturn_landing l a ret : l <> [] -> counts (binCount l) a ->
  counts (binCount l) (countReturn l a ret) /\
  forall j, cell_value j (countReturn l a ret) =
            cell_value j a + (if lands l j ret then 1 else 0).
Proof.
  intros Hne Ha. pose proof (binCount_range l) as HN.
  unfold lands. pose proof (landing_range l ret) as Hr. unfold landing in *.
  unfold countReturn.
  destruct (binWidth_of l =? 0)%float.
  - destruct (ret =? minReturn_of l)%float.
    + destruct (increment_index _ a 0%float 0%nat Ha key_of_zero ltac:(lia)) as (H1 & _ & H3).
      split; [exact H1|]. intros j. rewrite H3, (Nat.eqb_sym j). reflexivity.
    + split; [exact Ha|]. intros j. lia.
  - destruct (Arr.key_of (binIndex l ret)) as [i|x] eqn:Hk.
    + specialize (Hr i Hne eq_refl).
      destruct (increment_index _ a _ i Ha Hk Hr) as (H1 & _ & H3).
      split; [exact H1|]. intros j. rewrite H3, (Nat.eqb_sym j). reflexivity.
    + destruct (increment_named _ a _ x Ha Hk) as (H1 & _ & H3).
      split; [exact H1|]. intros j. rewrite H3. lia.
Qed.

Lemma fold_tally l : l <> [] -> forall rs a, counts (binCount l) a ->
  counts (binCount l) (fold_left (countReturn l) rs a) /\
  forall j, cell_value j (fold_left (countReturn l) rs a) = cell_value j a + tally l rs j.
Proof.
  intros Hne. induction rs as [|r rs IH]; intros a Ha; cbn [fold_left].
  - split; [exact Ha|]. intros j. unfold tally. cbn. lia.
  - destruct (countReturn_landing l a r Hne Ha) as [H1 H2].
    destruct (IH _ H1) as [H3 H4]. split; [exact H3|].
    intros j. rewrite H4, H2. unfold tally. cbn [filter].
    destruct (lands l j r); cbn [List.length]; lia.
Qed.

Lemma counts_nth n a j : counts n a -> (j < n)%nat ->
  nth j (elements a) Hole = Count (cell_value j a).
Proof.
  intros [Hlen Hall] Hj. unfold cell_value.
  rewrite Forall_forall in Hall.
  destruct (Hall (nth j (elements a) Hole)) as (z & Hz & _).
  - apply nth_In. lia.
  - rewrite Hz. reflexivity.
Qed.

(** X1: the counting loop.  Each bin of the result holds the number of
    returns the callback sends to its index. *)
Theorem bins_are_tallies (l : list number) : l <> [] ->
  exists h, computeHistogram l = Some h /\
    List.length (elements (bins h)) = binCount l /\
    forall j, (j < binCount l)%nat ->
      nth j (elements (bins h)) Hole = Count (tally l l j).
Proof.
  intros Hne. destruct (bins_of_computeHistogram l Hne) as (h & Hh & Hb & _).
  exists h. split; [exact Hh|].
  destruct (fold_tally l Hne l (Arr.fill0 (binCount l)) (fill0_counts _)) as [Hc Hv].
  rewrite Hb. split; [apply Hc|]. intros j Hj.
  rewrite (counts_nth _ _ j Hc Hj), Hv, fill0_cell. reflexivity.
Qed.

Lemma bins_are_tallies_witness :
  exists h, computeHistogram example_returns = Some h /\
    List.length (elements (bins h)) = binCount example_returns /\
    forall j, (j < binCount example_returns)%nat ->
      nth j (elements (bins h)) Hole = Count (tally example_returns example_returns j).
Proof. apply (bins_are_tallies example_returns). discriminate. Defined.

Module Ord.

Lemma is_zero_spec x :
  is_zero x = match Prim2SF x with S754_zero _ => true | _ => false end.
Proof.
  unfold is_zero. rewrite eqb_spec. change (Prim2SF zero) with (S754_zero false).
  destruct (Prim2SF x) as [s|s| |s m e]; try reflexivity; destruct s; reflexivity.
Qed.

Lemma get_sign_zero x s : Prim2SF x = S754_zero s -> get_sign x = s.
Proof.
  intros E. unfold get_sign. rewrite is_zero_spec, E.
  rewrite ltb_spec, div_spec, E. destruct s; reflexivity.
Qed.

Lemma is_neg_zero_spec x :
  Num.is_neg_zero x = match Prim2SF x with S754_zero true => true | _ => false end.
Proof.
  unfold Num.is_neg_zero. rewrite is_zero_spec.
  destruct (Prim2SF x) as [s|s| |s m e] eqn:E; try reflexivity.
  cbn [andb]. rewrite (get_sign_zero x s E). destruct s; reflexivity.
Qed.

Lemma is_pos_zero_spec x :
  Num.is_pos_zero x = match Prim2SF x with S754_zero false => true | _ => false end.
Proof.
  unfold Num.is_pos_zero. rewrite is_zero_spec.
  destruct (Prim2SF x) as [s|s| |s m e] eqn:E; try reflexivity.
  cbn [andb]. rewrite (get_sign_zero x s E). destruct s; reflexivity.
Qed.

Lemma rank_inj x y : x <> S754_nan -> y <> S754_nan -> rank x = rank y -> x = y.
Proof.
  destruct x as [[]|[]| |[] mx ex], y as [[]|[]| |[] my ey]; cbn;
    intros Hx Hy H; try congruence; try discriminate;
    injection H as H1 H2; f_equal; lia.
Qed.

Lemma pos_compare_lt m m' : Pos.compare_cont Eq m m' = Lt -> Zpos m + 1 <= Zpos m'.
Proof. change (Pos.compare_cont Eq m m') with (Pos.compare m m'). rewrite Pos.compare_lt_iff. lia. Qed.

Lemma pos_compare_gt m m' : Pos.compare_cont Eq m m' = Gt -> Zpos m' + 1 <= Zpos m.
Proof. change (Pos.compare_cont Eq m m') with (Pos.compare m m'). rewrite Pos.compare_gt_iff. lia. Qed.

Lemma pos_compare_eq m m' : Pos.compare_cont Eq m m' = Eq -> Zpos m = Zpos m'.
Proof. change (Pos.compare_cont Eq m m') with (Pos.compare m m'). rewrite Pos.compare_eq_iff. congruence. Qed.

(** [before] is the strict order of the ranks. *)
Lemma before_spec x y : is_nan x = false -> is_nan y = false ->
  before x y = true <-> lex (rank (Prim2SF x)) (rank (Prim2SF y)).
Proof.
  intros Hx Hy. apply is_nan_false in Hx, Hy. unfold before.
  rewrite ltb_spec, is_neg_zero_spec, is_pos_zero_spec. unfold SFltb, lex.
  destruct (Prim2SF x) as [sx|sx| |sx mx ex]; try congruence;
    destruct (Prim2SF y) as [sy|sy| |sy my ey]; try congruence;
    destruct sx, sy; cbn -[Z.lt Z.opp];
    try (split; [intros _; lia | reflexivity]);
    try (split; [discriminate | intros H; exfalso; lia]).
  - destruct (Z.compare_spec ex ey) as [He|He|He].
    + destruct (Pos.compare_cont Eq mx my) eqn:Hm; cbn.
      * apply pos_compare_eq in Hm as Hz. split; [discriminate|intros H; exfalso; lia].
      * apply pos_compare_lt in Hm as Hz. split; [discriminate|intros H; exfalso; lia].
      * apply pos_compare_gt in Hm as Hz. split; [intros _; lia|reflexivity].
    + split; [discriminate|intros H; exfalso; lia].
    + split; [intros _; lia|reflexivity].
  - destruct (Z.compare_spec ex ey) as [He|He|He].
    + destruct (Pos.compare_cont Eq mx my) eqn:Hm; cbn.
      * apply pos_compare_eq in Hm as Hz. split; [discriminate|intros H; exfalso; lia].
      * apply pos_compare_lt in Hm as Hz. split; [intros _; lia|reflexivity].
      * apply pos_compare_gt in Hm as Hz. split; [discriminate|intros H; exfalso; lia].
    + split; [intros _; lia|reflexivity].
    + split; [discriminate|intros H; exfalso; lia].
Qed.

Lemma min_step_before a x :
  Math.min_step a x = if before x a then x else a.
Proof.
  unfold Math.min_step, before.
  destruct (Num.is_neg_zero x && Num.is_pos_zero a), (x <? a)%float; reflexivity.
Qed.

Lemma max_step_before a x :
  Math.max_step a x = if before a x then x else a.
Proof.
  unfold Math.max_step, before.
  rewrite (andb_comm (Num.is_pos_zero x)).
  destruct (Num.is_neg_zero a && Num.is_pos_zero x), (a <? x)%float; reflexivity.
Qed.

Lemma same_rank x y : is_nan x = false -> is_nan y = false ->
  rank (Prim2SF x) = rank (Prim2SF y) -> x = y.
Proof.
  intros Hx Hy H. apply Prim2SF_inj. apply is_nan_false in Hx, Hy.
  now apply rank_inj.
Qed.


Lemma lex_cases a b : lex a b \/ a = b \/ lex b a.
Proof.
  destruct a as [a1 [a2 a3]], b as [b1 [b2 b3]]. unfold lex. cbn.
  destruct (Z.lt_trichotomy a1 b1) as [H|[H|H]]; try lia.
  destruct (Z.lt_trichotomy a2 b2) as [H2|[H2|H2]]; try lia.
  destruct (Z.lt_trichotomy a3 b3) as [H3|[H3|H3]]; try lia.
  right. left. congruence.
Qed.

Lemma lex_trans a b c : lex a b -> lex b c -> lex a c.
Proof.
  destruct a as [a1 [a2 a3]], b as [b1 [b2 b3]], c as [c1 [c2 c3]].
  unfold lex. cbn. lia.
Qed.

Lemma lex_irrefl a b : lex a b -> lex b a -> False.
Proof.
  destruct a as [a1 [a2 a3]], b as [b1 [b2 b3]]. unfold lex. cbn. lia.
Qed.

Lemma before_false x y : is_nan x = false -> is_nan y = false ->
  before x y = false -> x = y \/ before y x = true.
Proof.
  intros Hx Hy H.
  destruct (lex_cases (rank (Prim2SF x)) (rank (Prim2SF y))) as [L|[L|L]].
  - apply (before_spec x y Hx Hy) in L. congruence.
  - left. now apply same_rank.
  - right. now apply (before_spec y x Hy Hx).
Qed.

Lemma before_trans x y z : is_nan x = false -> is_nan y = false -> is_nan z = false ->
  before x y = true -> before y z = true -> before x z = true.
Proof.
  intros Hx Hy Hz H1 H2. apply (before_spec x z Hx Hz).
  apply (before_spec x y Hx Hy) in H1. apply (before_spec y z Hy Hz) in H2.
  eapply lex_trans; eassumption.
Qed.

Lemma before_asym x y : is_nan x = false -> is_nan y = false ->
  before x y = true -> before y x = false.
Proof.
  intros Hx Hy H1. destruct (before y x) eqn:H2; [exfalso|reflexivity].
  apply (before_spec x y Hx Hy) in H1. apply (before_spec y x Hy Hx) in H2.
  eapply lex_irrefl; eassumption.
Qed.

(** Taking the smaller of three does not depend on the order. *)
Lemma min_step_comm a x y : is_nan a = false -> is_nan x = false -> is_nan y = false ->
  Math.min_step (Math.min_step a x) y = Math.min_step (Math.min_step a y) x.
Proof.
  intros Ha Hx Hy. rewrite !min_step_before.
  destruct (before x a) eqn:Hxa, (before y a) eqn:Hya;
    rewrite ?min_step_before, ?Hxa, ?Hya.
  - destruct (before y x) eqn:Hyx.
    + rewrite (before_asym y x Hy Hx Hyx). reflexivity.
    + destruct (before_false y x Hy Hx Hyx) as [->|H]; [now destruct (before x x)|].
      rewrite H. reflexivity.
  - assert (Hyx : before y x = false).
    { destruct (before y x) eqn:E; [|reflexivity].
      rewrite (before_trans y x a Hy Hx Ha E Hxa) in Hya. discriminate. }
    rewrite Hyx. reflexivity.
  - assert (Hxy : before x y = false).
    { destruct (before x y) eqn:E; [|reflexivity].
      rewrite (before_trans x y a Hx Hy Ha E Hya) in Hxa. discriminate. }
    rewrite Hxy. reflexivity.
  - reflexivity.
Qed.

Lemma max_step_comm a x y : is_nan a = false -> is_nan x = false -> is_nan y = false ->
  Math.max_step (Math.max_step a x) y = Math.max_step (Math.max_step a y) x.
Proof.
  intros Ha Hx Hy. rewrite !max_step_before.
  destruct (before a x) eqn:Hax, (before a y) eqn:Hay;
    rewrite ?max_step_before, ?Hax, ?Hay.
  - destruct (before x y) eqn:Hxy.
    + rewrite (before_asym x y Hx Hy Hxy). reflexivity.
    + destruct (before_false x y Hx Hy Hxy) as [->|H]; [now destruct (before y y)|].
      rewrite H. reflexivity.
  - assert (Hxy : before x y = false).
    { destruct (before x y) eqn:E; [|reflexivity].
      rewrite (before_trans a x y Ha Hx Hy Hax E) in Hay. discriminate. }
    rewrite Hxy. reflexivity.
  - assert (Hyx : before y x = false).
    { destruct (before y x) eqn:E; [|reflexivity].
      rewrite (before_trans a y x Ha Hy Hx Hay E) in Hax. discriminate. }
    rewrite Hyx. reflexivity.
  - reflexivity.
Qed.

Lemma min_step_not_nan a x : is_nan a = false -> is_nan x = false ->
  is_nan (Math.min_step a x) = false.
Proof. intros Ha Hx. destruct (min_step_cases a x) as [->| ->]; assumption. Qed.

Lemma max_step_not_nan a x : is_nan a = false -> is_nan x = false ->
  is_nan (Math.max_step a x) = false.
Proof. intros Ha Hx. destruct (max_step_cases a x) as [->| ->]; assumption. Qed.

Lemma fold_permutation (step : number -> number -> number) :
  (forall a x y, is_nan a = false -> is_nan x = false -> is_nan y = false ->
     step (step a x) y = step (step a y) x) ->
  (forall a x, is_nan a = false -> is_nan x = false -> is_nan (step a x) = false) ->
  forall l l', Permutation l l' ->
  forall a, is_nan a = false -> Forall (fun x => is_nan x = false) l ->
  fold_left step l a = fold_left step l' a.
Proof.
  intros Hcomm Hclosed l l' HP.
  induction HP as [|x l l' HP IH|x y l|l l' l'' HP1 IH1 HP2 IH2]; intros a Ha Hl.
  - reflexivity.
  - inversion Hl; subst. cbn [fold_left]. apply IH; auto.
  - inversion Hl as [|? ? Hy Hl']; subst. inversion Hl' as [|? ? Hx Hl'']; subst.
    cbn [fold_left]. rewrite Hcomm by assumption. reflexivity.
  - rewrite IH1 by assumption. apply IH2; [assumption|].
    apply Forall_forall. intros z Hz. rewrite Forall_forall in Hl. apply Hl.
    eapply Permutation_in; [symmetry; exact HP1|exact Hz].
Qed.

Lemma existsb_permutation {A} (f : A -> bool) (l l' : list A) : Permutation l l' ->
  existsb f l = existsb f l'.
Proof.
  induction 1 as [|x l l' HP IH|x y l|l l' l'' HP1 IH1 HP2 IH2]; cbn [existsb].
  - reflexivity.
  - now rewrite IH.
  - destruct (f x), (f y); reflexivity.
  - congruence.
Qed.

Lemma existsb_false_forall l : existsb is_nan l = false ->
  Forall (fun x => is_nan x = false) l.
Proof.
  induction l as [|x l IH]; cbn [existsb]; [constructor|].
  intros H. apply orb_false_iff in H. destruct H as [H1 H2]. constructor; auto.
Qed.

(** [Math.min] and [Math.max] do not depend on the order of the
    arguments. *)
Lemma min_permutation l l' : Permutation l l' -> Math.min l = Math.min l'.
Proof.
  intros HP. unfold Math.min. rewrite <- (existsb_permutation is_nan l l' HP).
  destruct (existsb is_nan l) eqn:E; [reflexivity|].
  apply (fold_permutation Math.min_step min_step_comm min_step_not_nan l l' HP);
    [reflexivity|now apply existsb_false_forall].
Qed.

Lemma max_permutation l l' : Permutation l l' -> Math.max l = Math.max l'.
Proof.
  intros HP. unfold Math.max. rewrite <- (existsb_permutation is_nan l l' HP).
  destruct (existsb is_nan l) eqn:E; [reflexivity|].
  apply (fold_permutation Math.max_step max_step_comm max_step_not_nan l l' HP);
    [reflexivity|now apply existsb_false_forall].
Qed.

End Ord.

Import Ord.

Lemma filter_length_permutation {A} (f : A -> bool) (l l' : list A) : Permutation l l' ->
  List.length (filter f l) = List.length (filter f l').
Proof.
  induction 1 as [|x l l' HP IH|x y l|l l' l'' HP1 IH1 HP2 IH2]; cbn [filter].
  - reflexivity.
  - destruct (f x); cbn [List.length]; now rewrite IH.
  - destruct (f x), (f y); reflexivity.
  - congruence.
Qed.

(** X2: the order of the returns is irrelevant.  Two series that are
    permutations of one another give the same minimum, maximum, number of
    bins, width, edges, labels and counts. *)
Theorem histogram_of_permutation (l l' : list number) :
  l <> [] -> Permutation l l' ->
  exists h h',
    computeHistogram l = Some h /\ computeHistogram l' = Some h' /\
    minReturn h = minReturn h' /\ maxReturn h = maxReturn h' /\
    numBins h = numBins h' /\ range h = range h' /\ binWidth h = binWidth h' /\
    labels h = labels h' /\ binEdges h = binEdges h' /\
    elements (bins h) = elements (bins h').
Proof.
  intros Hne HP.
  assert (Hne' : l' <> []).
  { intros ->. apply Permutation_sym, Permutation_nil in HP. contradiction. }
  assert (Hlen : List.length l = List.length l') by now apply Permutation_length.
  assert (Hmin : minReturn_of l = minReturn_of l') by now apply min_permutation.
  assert (Hmax : maxReturn_of l = maxReturn_of l') by now apply max_permutation.
  assert (Hnb : numBins_of l = numBins_of l') by (unfold numBins_of; now rewrite Hlen).
  assert (Hr : range_of l = range_of l') by (unfold range_of; now rewrite Hmin, Hmax).
  assert (Hw : binWidth_of l = binWidth_of l') by (unfold binWidth_of; now rewrite Hr, Hnb).
  assert (HN : binCount l = binCount l') by (unfold binCount; now rewrite Hlen).
  assert (Hst : forall i, binStart l i = binStart l' i)
    by (intros i; unfold binStart; now rewrite Hmin, Hw).
  assert (Hlab : forall i, label l i = label l' i)
    by (intros i; unfold label; now rewrite Hst).
  assert (Hed : forall i, edge l i = edge l' i).
  { intros i. unfold edge, binEnd. now rewrite Hst, Hnb, Hmax, Hw. }
  assert (Hland : forall j r, lands l j r = lands l' j r).
  { intros j r. unfold lands, landing, binIndex. now rewrite Hw, Hmin, Hmax, Hnb. }
  destruct (bins_of_computeHistogram l Hne) as (h & Hh & Hb & H1 & H2 & H3 & H4 & H5 & H6).
  destruct (bins_of_computeHistogram l' Hne') as (h' & Hh' & Hb' & H1' & H2' & H3' & H4' & H5' & H6').
  exists h, h'. split; [exact Hh|]. split; [exact Hh'|].
  assert (Hrg : range h = range_of l /\ range h' = range_of l').
  { rewrite computeHistogram_eq in Hh, Hh' by assumption.
    injection Hh as <-. injection Hh' as <-. split; reflexivity. }
  destruct Hrg as [Hrg Hrg'].
  repeat split; try congruence.
  - rewrite H5, H5', HN. apply map_ext. exact Hlab.
  - rewrite H6, H6', HN. apply map_ext. exact Hed.
  - destruct (fold_tally l Hne l (Arr.fill0 (binCount l)) (fill0_counts _)) as [Hc Hv].
    destruct (fold_tally l' Hne' l' (Arr.fill0 (binCount l')) (fill0_counts _)) as [Hc' Hv'].
    rewrite Hb, Hb'. apply nth_ext with (d := Hole) (d' := Hole).
    + destruct Hc as [-> _], Hc' as [-> _]. exact HN.
    + intros j Hj. destruct Hc as [Hl1 Hf1]. rewrite Hl1 in Hj.
      rewrite (counts_nth _ _ j (conj Hl1 Hf1) Hj).
      rewrite (counts_nth _ _ j Hc') by (rewrite <- HN; exact Hj).
      f_equal. rewrite Hv, Hv', !fill0_cell. unfold tally. f_equal.
      rewrite (filter_ext _ _ (Hland j)). f_equal.
      now apply filter_length_permutation.
Qed.

Lemma histogram_of_permutation_witness :
  exists h h',
    computeHistogram example_returns = Some h /\
    computeHistogram [0; 1; 2; 3; -1]%float = Some h' /\
    minReturn h = minReturn h' /\ maxReturn h = maxReturn h' /\
    numBins h = numBins h' /\ range h = range h' /\ binWidth h = binWidth h' /\
    labels h = labels h' /\ binEdges h = binEdges h' /\
    elements (bins h) = elements (bins h').
Proof.
  apply (histogram_of_permutation example_returns [0; 1; 2; 3; -1]%float).
  - discriminate.
  - apply (Permutation_cons_append [0; 1; 2; 3]%float (-1)%float).
Defined.

Lemma tally_nth l : l <> [] ->
  exists h, computeHistogram l = Some h /\
    labels h = map (label l) (seq 0 (binCount l)) /\
    minReturn h = minReturn_of l /\ maxReturn h = maxReturn_of l /\
    binWidth h = binWidth_of l /\
    List.length (elements (bins h)) = binCount l /\
    forall j, (j < binCount l)%nat ->
      nth j (elements (bins h)) Hole = Count (tally l l j).
Proof.
  intros Hne. destruct (bins_of_computeHistogram l Hne) as (h & Hh & Hb & H1 & H2 & _ & H4 & H5 & _).
  exists h. split; [exact Hh|]. repeat (split; [assumption|]).
  destruct (fold_tally l Hne l (Arr.fill0 (binCount l)) (fill0_counts _)) as [Hc Hv].
  rewrite Hb. split; [apply Hc|]. intros j Hj.
  rewrite (counts_nth _ _ j Hc Hj), Hv, fill0_cell. reflexivity.
Qed.

Lemma tally_none l rs j : (forall r, In r rs -> lands l j r = false) -> tally l rs j = 0.
Proof.
  intros H. unfold tally. induction rs as [|r rs IH]; [reflexivity|].
  cbn [filter]. rewrite (H r) by (left; reflexivity). apply IH.
  intros r' Hr'. apply H. right. exact Hr'.
Qed.

(** X3: a zero bin width.  When [(max - min) / numBins] is zero, bin 0
    holds the number of returns equal to the minimum and every other bin
    is empty. *)
Theorem zero_width_histogram (l : list number) :
  l <> [] -> (binWidth_of l =? 0)%float = true ->
  exists h, computeHistogram l = Some h /\
    nth 0 (elements (bins h)) Hole =
      Count (Z.of_nat (List.length
               (filter (fun ret => (ret =? minReturn h)%float) l))) /\
    forall j, (0 < j < binCount l)%nat -> nth j (elements (bins h)) Hole = Count 0.
Proof.
  intros Hne Hw. pose proof (binCount_range l) as HN.
  destruct (tally_nth l Hne) as (h & Hh & _ & Hmin & _ & _ & _ & Hn).
  exists h. split; [exact Hh|]. split.
  - rewrite Hn by lia. f_equal. unfold tally. f_equal. f_equal.
    apply filter_ext. intros r. unfold lands, landing. rewrite Hw, Hmin.
    destruct (r =? minReturn_of l)%float; reflexivity.
  - intros j Hj. rewrite Hn by lia. f_equal. apply tally_none.
    intros r _. unfold lands, landing. rewrite Hw.
    destruct (r =? minReturn_of l)%float; [|reflexivity].
    apply Nat.eqb_neq. lia.
Qed.

Lemma zero_width_histogram_witness :
  exists h, computeHistogram underflow_returns = Some h /\
    nth 0 (elements (bins h)) Hole =
      Count (Z.of_nat (List.length
               (filter (fun ret => (ret =? minReturn h)%float) underflow_returns))) /\
    forall j, (0 < j < binCount underflow_returns)%nat ->
      nth j (elements (bins h)) Hole = Count 0.
Proof. apply zero_width_histogram; [discriminate | reflexivity]. Defined.

Lemma map_constant {A} (f : nat -> A) (c : A) n : (forall i, f i = c) ->
  forall a, map f (seq a n) = repeat c n.
Proof.
  intros Hf. induction n as [|n IH]; intros a; cbn [seq map repeat]; [reflexivity|].
  now rewrite Hf, IH.
Qed.

Lemma sub_nan_r x : is_nan (x - nan)%float = true.
Proof.
  apply is_nan_spec. rewrite sub_spec. change (Prim2SF nan) with S754_nan.
  destruct (Prim2SF x) as [s|s| |s m e]; reflexivity.
Qed.

Lemma div_nan_l x y : is_nan x = true -> is_nan (x / y)%float = true.
Proof.
  intros Hx. apply is_nan_spec in Hx. apply is_nan_spec. rewrite div_spec, Hx.
  reflexivity.
Qed.

Lemma add_nan_l x y : is_nan x = true -> is_nan (x + y)%float = true.
Proof.
  intros Hx. apply is_nan_spec in Hx. apply is_nan_spec. rewrite add_spec, Hx.
  reflexivity.
Qed.

Lemma nan_unique x : is_nan x = true -> x = nan.
Proof. intros H. apply Prim2SF_inj. apply is_nan_spec in H. now rewrite H. Qed.

(** X4: a [NaN] among the returns.  The minimum and the maximum are [NaN],
    the bin width is 1, every label is "NaN%", and no return at all is
    counted. *)
Theorem nan_empties_histogram (l : list number) :
  existsb is_nan l = true ->
  exists h, computeHistogram l = Some h /\
    minReturn h = nan /\ maxReturn h = nan /\ binWidth h = 1%float /\
    labels h = repeat "NaN%"%string (binCount l) /\
    elements (bins h) = repeat (Count 0) (binCount l).
Proof.
  intros Hnan.
  assert (Hne : l <> []) by (intros ->; discriminate).
  assert (Hmin : minReturn_of l = nan) by (unfold minReturn_of, Math.min; now rewrite Hnan).
  assert (Hmax : maxReturn_of l = nan) by (unfold maxReturn_of, Math.max; now rewrite Hnan).
  assert (Hw : binWidth_of l = 1%float).
  { unfold binWidth_of, range_of. rewrite Hmin, Hmax. reflexivity. }
  destruct (tally_nth l Hne) as (h & Hh & Hl & H1 & H2 & H3 & Hlen & Hn).
  exists h. split; [exact Hh|]. rewrite H1, H2, H3, Hl.
  repeat split; try assumption.
  - apply map_constant. intros i. unfold label, binStart. rewrite Hmin.
    rewrite (nan_unique (nan + _)%float) by (apply add_nan_l; reflexivity).
    reflexivity.
  - apply nth_ext with (d := Hole) (d' := Hole).
    + now rewrite Hlen, repeat_length.
    + intros j Hj. rewrite Hlen in Hj. rewrite Hn by exact Hj.
      rewrite nth_repeat_lt by exact Hj. f_equal. apply tally_none.
      intros r _. unfold lands, landing. rewrite Hw.
      change (1 =? 0)%float with false.
      rewrite binIndex_chosen by exact Hne.
      rewrite chosen_nan; [reflexivity|].
      unfold quotient. rewrite Hmin. apply div_nan_l, sub_nan_r.
Qed.

Lemma nan_empties_histogram_witness :
  exists h, computeHistogram [1%float; nan; 2%float] = Some h /\
    minReturn h = nan /\ maxReturn h = nan /\ binWidth h = 1%float /\
    labels h = repeat "NaN%"%string (binCount [1%float; nan; 2%float]) /\
    elements (bins h) = repeat (Count 0) (binCount [1%float; nan; 2%float]).
Proof. apply nan_empties_histogram. reflexivity. Defined.

(** Numbers that are [===] compare alike with every other number. *)
Lemma eqb_compare x y z : SFeqb x y = true -> SFcompare x z = SFcompare y z.
Proof.
  unfold SFeqb.
  destruct x as [sx|sx| |sx mx ex], y as [sy|sy| |sy my ey]; cbn;
    try discriminate; try (destruct sx, sy; discriminate).
  - reflexivity.
  - destruct sx, sy; try discriminate; reflexivity.
  - destruct sx, sy; try discriminate.
    + destruct (Z.compare_spec ex ey) as [He|He|He]; try discriminate.
      destruct (Pos.compare_cont Eq mx my) eqn:Hm; try discriminate.
      intros _. apply Pos.compare_eq in Hm. now subst.
    + destruct (Z.compare_spec ex ey) as [He|He|He]; try discriminate.
      destruct (Pos.compare_cont Eq mx my) eqn:Hm; try discriminate.
      intros _. apply Pos.compare_eq in Hm. now subst.
Qed.

Lemma eqb_sub_zero x y : is_finite x = true -> is_finite y = true ->
  (x =? y)%float = true -> exists s, Prim2SF (x - y) = S754_zero s.
Proof.
  intros Hx Hy H. rewrite eqb_spec in H. rewrite sub_spec.
  apply is_finite_spec in Hx, Hy. unfold SFeqb in H.
  destruct Hx as [[sx Hx]|(sx & mx & ex & Hx)], Hy as [[sy Hy]|(sy & my & ey & Hy)];
    rewrite Hx, Hy in *; cbn [SFcompare] in H.
  - destruct sx, sy; eexists; reflexivity.
  - destruct sy; discriminate.
  - destruct sx; discriminate.
  - assert (Hsame : sx = sy /\ ex = ey /\ mx = my).
    { destruct sx, sy; try discriminate;
        destruct (Z.compare_spec ex ey) as [He|He|He]; try discriminate;
        destruct (Pos.compare_cont Eq mx my) eqn:Hm; try discriminate;
        apply Pos.compare_eq in Hm; auto. }
    destruct Hsame as (-> & -> & ->). exists false.
    unfold SF64sub, SFsub. rewrite Z.sub_diag. reflexivity.
Qed.

(** X5: the minimum.  For finite returns with a finite bin width that is
    not zero and a maximum above the minimum, every return equal to the
    minimum is counted at index 0. *)
Theorem minimum_in_first_bin (l : list number) (ret : number) :
  l <> [] -> Forall finite l ->
  is_finite (binWidth_of l) = true -> (binWidth_of l =? 0)%float = false ->
  (minReturn_of l <? maxReturn_of l)%float = true ->
  In ret l -> (ret =? minReturn_of l)%float = true ->
  Arr.key_of (binIndex l ret) = Index 0 /\ landing l ret = Some 0%nat.
Proof.
  intros Hne Hf Hw Hz Hlt Hin Heq.
  pose proof (binCount_range l) as HN.
  assert (Hret : is_finite ret = true) by (rewrite Forall_forall in Hf; now apply Hf).
  pose proof (min_finite l Hne Hf) as Hmin. fold (minReturn_of l) in Hmin.
  destruct (eqb_sub_zero ret _ Hret Hmin Heq) as [s Hs].
  destruct (finite_nonzero _ Hw Hz) as (sw & mw & ew & HW).
  assert (Hq : exists s', Prim2SF (quotient l ret) = S754_zero s').
  { unfold quotient. rewrite div_spec, Hs, HW. eexists. reflexivity. }
  destruct Hq as [s' Hq].
  assert (Hmax : (ret =? maxReturn_of l)%float = false).
  { assert (Heq' := Heq). rewrite eqb_spec in Heq'.
    rewrite eqb_spec. rewrite ltb_spec in Hlt. unfold SFltb in Hlt.
    unfold SFeqb at 1. rewrite (eqb_compare _ _ _ Heq').
    destruct (SFcompare _ _) as [[]|]; try discriminate; reflexivity. }
  assert (Hkey : Arr.key_of (binIndex l ret) = Index 0).
  { rewrite binIndex_chosen by exact Hne. rewrite Hmax.
    unfold chosen. cbn [andb].
    destruct (facts _ HN) as (H0K & HKK & HnK & HzK & HminK & (mK & eK & HK & HeK) & _).
    unfold clamped. unfold Math.floor. rewrite Hq.
    assert (Hnq : is_nan (quotient l ret) = false) by (apply is_nan_false; rewrite Hq; discriminate).
    rewrite min_pair, HnK, Hnq. cbn [orb]. rewrite HminK.
    unfold Math.min_step. rewrite HzK, andb_false_r.
    assert (HqK : (quotient l ret <? last_index (Z.of_nat (binCount l)))%float = true).
    { rewrite ltb_spec, Hq, HK. reflexivity. }
    rewrite HqK, max_pair, Hnq. change (is_nan 0%float) with false. cbn [orb].
    change (Math.max_step neg_infinity 0%float) with 0%float.
    unfold Math.max_step. change (Num.is_neg_zero 0%float) with false.
    rewrite andb_false_r.
    assert (H0q : (0 <? quotient l ret)%float = false).
    { rewrite ltb_spec, Hq. reflexivity. }
    rewrite H0q. reflexivity. }
  split; [exact Hkey|]. unfold landing. now rewrite Hz, Hkey.
Qed.

Lemma minimum_in_first_bin_witness :
  Arr.key_of (binIndex example_returns (-1)%float) = Index 0 /\
  landing example_returns (-1)%float = Some 0%nat.
Proof.
  apply minimum_in_first_bin;
    [discriminate | repeat constructor | reflexivity | reflexivity | reflexivity
    | left; reflexivity | reflexivity].
Defined.

(** ** More returns, no fewer bins *)

Lemma ordered_table : forallb ordered_ok (seq 10 11) = true.
Proof. vm_compute. reflexivity. Qed.

Lemma ceil_half_sqrt_mono n m : 0 < n -> n <= m -> ceil_half_sqrt n <= ceil_half_sqrt m.
Proof.
  intros Hn Hm. unfold ceil_half_sqrt.
  apply Z.div_le_mono; [lia|]. pose proof (Z.sqrt_up_le_mono n m Hm). lia.
Qed.

(** X6: the number of bins never decreases with the number of returns. *)
Theorem numBins_monotone (l l' : list number) :
  l <> [] -> (List.length l <= List.length l')%nat ->
  (binCount l <= binCount l')%nat /\
  (numBins_of l <=? numBins_of l')%float = true.
Proof.
  intros Hne Hlen.
  assert (Hne' : l' <> []) by (destruct l, l'; cbn in *; try congruence; lia).
  assert (Hpos : (0 < List.length l)%nat) by (destruct l; [congruence|cbn; lia]).
  assert (HNN : (binCount l <= binCount l')%nat).
  { unfold binCount, numBins_spec, clamp.
    pose proof (ceil_half_sqrt_mono (Z.of_nat (List.length l)) (Z.of_nat (List.length l'))
                  ltac:(lia) ltac:(lia)). lia. }
  split; [exact HNN|].
  rewrite !numBins_of_spec by assumption.
  pose proof ordered_table as H. rewrite forallb_forall in H.
  pose proof (binCount_range l) as HN. pose proof (binCount_range l') as HN'.
  specialize (H (binCount l) ltac:(apply in_seq; lia)). unfold ordered_ok in H.
  rewrite forallb_forall in H. specialize (H (binCount l') ltac:(apply in_seq; lia)).
  apply eqb_prop in H. rewrite H. now apply Nat.leb_le.
Qed.

Lemma numBins_monotone_witness :
  (binCount identical_returns <= binCount example_returns)%nat /\
  (numBins_of identical_returns <=? numBins_of example_returns)%float = true.
Proof. apply numBins_monotone; [discriminate | cbn; lia]. Defined.

(** ** The tooltip *)

Lemma append_assoc (a b c : string) : ((a ++ b) ++ c = a ++ (b ++ c))%string.
Proof. induction a as [|x a IH]; cbn; [reflexivity|now rewrite IH]. Qed.

(** X7: the tooltip of a bar.  For each of the [numBins] bars the title
    is the bar's axis label followed by [ to ] and the end of the bin;
    for any other index it is the label Chart.js passes in. *)
Theorem tooltip_extends_label (l : list number) (index : nat) (item_label : string) :
  l <> [] ->
  exists h, computeHistogram l = Some h /\
    tooltip_title h index item_label =
      if (index <? binCount l)%nat
      then (nth index (labels h) EmptyString ++ " to " ++
            NumberFormat.toFixed2 (binEnd l index) ++ "%")%string
      else item_label.
Proof.
  intros Hne.
  destruct (bins_of_computeHistogram l Hne) as (h & Hh & _ & _ & _ & _ & _ & Hlab & Hed).
  exists h. split; [exact Hh|]. unfold tooltip_title. rewrite Hed, Hlab.
  destruct (index <? binCount l)%nat eqn:Hi.
  - apply Nat.ltb_lt in Hi. rewrite nth_error_edges by exact Hi.
    rewrite (nth_indep _ EmptyString (label l 0)) by (rewrite length_map, length_seq; exact Hi).
    rewrite map_nth, seq_nth by exact Hi. cbn [start end_ edge Nat.add].
    unfold label. rewrite append_assoc. reflexivity.
  - apply Nat.ltb_ge in Hi.
    assert (Hnone : nth_error (map (edge l) (seq 0 (binCount l))) index = None).
    { apply nth_error_None. rewrite length_map, length_seq. exact Hi. }
    now rewrite Hnone.
Qed.

Lemma tooltip_extends_label_witness :
  exists h, computeHistogram example_returns = Some h /\
    tooltip_title h 9 "x" =
      if (9 <? binCount example_returns)%nat
      then (nth 9 (labels h) EmptyString ++ " to " ++
            NumberFormat.toFixed2 (binEnd example_returns 9) ++ "%")%string
      else "x"%string.
Proof. apply (tooltip_extends_label example_returns 9 "x"). discriminate. Defined.

(** ** One chart on the canvas *)

Lemma canvas_use_app t1 t2 live :
  canvas_use live (t1 ++ t2) =
  match canvas_use live t1 with
  | Some live' => canvas_use live' t2
  | None => None
  end.
Proof.
  revert live. induction t1 as [|e t1 IH]; intros live; [reflexivity|].
  destruct e; cbn [canvas_use app]; try apply IH; destruct live; try reflexivity; apply IH.
Qed.

Lemma destroy_canvas_use p :
  canvas_use (histogramChart p) (snd (destroyHistogramChart p)) = Some false /\
  histogramChart (fst (destroyHistogramChart p)) = false /\
  chart_throws (fst (destroyHistogramChart p)) = chart_throws p /\
  canvas (fst (destroyHistogramChart p)) = canvas p.
Proof.
  unfold destroyHistogramChart.
  destruct (histogramChart p) eqn:Hh; [destruct (destroy_throws p)|];
    cbn; rewrite ?Hh; auto.
Qed.

Lemma call_canvas_use p v : chart_throws p = false ->
  canvas_use (histogramChart p) (snd (fst (createOrUpdateReturnHistogram p v))) =
    Some (histogramChart (fst (fst (createOrUpdateReturnHistogram p v)))) /\
  chart_throws (fst (fst (createOrUpdateReturnHistogram p v))) = false.
Proof.
  intros Ht. unfold createOrUpdateReturnHistogram.
  destruct (canvas p); cbn [negb]; [|cbn; auto].
  destruct (destroy_canvas_use p) as (Hu & Hh & Hc & _).
  destruct (destroyHistogramChart p) as [p1 destroyed]. cbn [fst snd] in *.
  rewrite Ht in Hc.
  destruct (no_returns v).
  - cbn [fst snd]. rewrite canvas_use_app, Hu, Hh. cbn. auto.
  - destruct (computeHistogram (returns_of v)) as [h|]; cbn [fst snd].
    + rewrite Hc. cbn [fst snd]. rewrite canvas_use_app, Hu. cbn. auto.
    + rewrite Hu, Hh. auto.
Qed.

(** X8: one chart at a time.  Whatever values the histogram is rendered
    with, one call after another, as long as [new Chart] does not throw:
    no chart is created while the canvas still has one, [destroy()] is
    only called on a chart that exists, and the module variable says at
    the end whether the canvas has a chart. *)
Theorem one_chart_at_a_time (p : page) (vs : list js_value) :
  chart_throws p = false ->
  canvas_use (histogramChart p) (snd (renderings p vs)) =
    Some (histogramChart (fst (renderings p vs))).
Proof.
  revert p. induction vs as [|v vs IH]; intros p Ht; [reflexivity|].
  cbn [renderings].
  destruct (call_canvas_use p v Ht) as [Hu Ht1].
  destruct (createOrUpdateReturnHistogram p v) as [[p1 t1] o]. cbn [fst snd] in *.
  specialize (IH p1 Ht1).
  destruct (renderings p1 vs) as [p2 t2]. cbn [fst snd] in *.
  now rewrite canvas_use_app, Hu.
Qed.

Lemma one_chart_at_a_time_witness :
  canvas_use (histogramChart page_with_canvas)
    (snd (renderings page_with_canvas
            [ArrayOf example_returns; Null; ArrayOf identical_returns])) =
    Some (histogramChart (fst (renderings page_with_canvas
            [ArrayOf example_returns; Null; ArrayOf identical_returns]))).
Proof. apply one_chart_at_a_time. reflexivity. Defined.

(** ** Destroying both charts *)

(** X9: [destroyAllCharts] always clears both handles.  Whether or not a
    [destroy()] throws, neither module variable holds a chart afterwards,
    [destroy()] has been called once for each chart there was, and a
    second call does nothing at all. *)
Theorem destroyAllCharts_clears (c : charts) :
  let c' := fst (destroyAllCharts c) in
  priceChart c' = false /\
  histogramChart (histogram_page c') = false /\
  destroy_calls (snd (destroyAllCharts c)) =
    ((if priceChart c then 1 else 0) +
     (if histogramChart (histogram_page c) then 1 else 0))%nat /\
  destroyAllCharts c' = (c', []).
Proof.
  destruct c as [pc pt [cv hc dt ct]].
  destruct pc, pt, hc, dt; cbn; repeat split; reflexivity.
Qed.

(** X10: the older [destroyAllCharts] of ui.js.  When it returns normally
    it has done exactly what the version of charts.js does: the same
    handles, the same calls and console lines. *)
Theorem legacy_destroyAllCharts_normal (c c' : charts) (t : list effect) :
  Legacy.destroyAllCharts c = (c', t, Normal) ->
  destroyAllCharts c = (c', t).
Proof.
  destruct c as [pc pt [cv hc dt ct]].
  destruct pc, pt, hc, dt; cbn; intros [= <- <-]; reflexivity.
Qed.

Lemma legacy_destroyAllCharts_normal_witness :
  destroyAllCharts (both_charts false) =
    (mk_charts false false (mk_page true false false false),
     [ChartDestroy; ConsoleLog "Price chart destroyed.";
      ChartDestroy; ConsoleLog "Histogram chart destroyed."]).
Proof. apply legacy_destroyAllCharts_normal. reflexivity. Defined.

(** X11: an exception in the older [destroyAllCharts].  When a [destroy()]
    throws, the exception leaves the function: the chart that threw stays
    in its module variable, nothing is written to the console for it, and
    when it is the price chart the histogram is not touched at all, while
    the version of charts.js clears both handles on the same input. *)
Theorem legacy_destroyAllCharts_throws (c c' : charts) (t : list effect) :
  Legacy.destroyAllCharts c = (c', t, Throws) ->
  (priceChart c' = true \/ histogramChart (histogram_page c') = true) /\
  (priceChart c' = true -> c' = c /\ t = [ChartDestroy]) /\
  last t ChartDestroy = ChartDestroy /\
  priceChart (fst (destroyAllCharts c)) = false /\
  histogramChart (histogram_page (fst (destroyAllCharts c))) = false.
Proof.
  destruct c as [pc pt [cv hc dt ct]].
  destruct pc, pt, hc, dt; cbn; intros [= <- <-]; cbn;
    repeat split; auto; discriminate.
Qed.

Lemma legacy_destroyAllCharts_throws_witness :
  (priceChart (both_charts true) = true \/
   histogramChart (histogram_page (both_charts true)) = true) /\
  (priceChart (both_charts true) = true ->
   both_charts true = both_charts true /\ [ChartDestroy] = [ChartDestroy]) /\
  last [ChartDestroy] ChartDestroy = ChartDestroy /\
  priceChart (fst (destroyAllCharts (both_charts true))) = false /\
  histogramChart (histogram_page (fst (destroyAllCharts (both_charts true)))) = false.
Proof.
  apply (legacy_destroyAllCharts_throws (both_charts true) (both_charts true) [ChartDestroy]).
  reflexivity.
Defined.

(** ** Colour classes *)

Lemma colours_remove cl : colours (Dom.remove colour_classes cl) = [].
Proof.
  unfold colours, Dom.remove. induction cl as [|c cl IH]; [reflexivity|].
  cbn [filter]. destruct (existsb (String.eqb c) colour_classes) eqn:Hc; cbn [negb filter].
  - exact IH.
  - rewrite Hc. exact IH.
Qed.

Lemma others_remove cl : other_classes (Dom.remove colour_classes cl) = other_classes cl.
Proof.
  unfold other_classes, Dom.remove. induction cl as [|c cl IH]; [reflexivity|].
  cbn [filter]. destruct (existsb (String.eqb c) colour_classes) eqn:Hc; cbn [negb filter].
  - exact IH.
  - rewrite Hc. cbn [negb]. now rewrite IH.
Qed.

Lemma colours_app a b : colours (a ++ b) = (colours a ++ colours b)%list.
Proof. apply filter_app. Qed.

Lemma existsb_colours token cl : existsb (String.eqb token) colour_classes = true ->
  colours cl = [] -> existsb (String.eqb token) cl = false.
Proof.
  intros Ht. induction cl as [|c cl IH]; [reflexivity|].
  unfold colours. cbn [filter existsb].
  destruct (String.eqb_spec token c) as [->|Hne].
  - rewrite Ht. discriminate.
  - cbn [orb]. destruct (existsb (String.eqb c) colour_classes); [discriminate|apply IH].
Qed.

(** Adding a colour to a class list that has none. *)
Lemma add_colour token cl : existsb (String.eqb token) colour_classes = true ->
  colours (Dom.add token (Dom.remove colour_classes cl)) = [token] /\
  other_classes (Dom.add token (Dom.remove colour_classes cl)) = other_classes cl.
Proof.
  intros Ht. unfold Dom.add.
  rewrite (existsb_colours token _ Ht (colours_remove cl)). split.
  - rewrite colours_app, colours_remove. unfold colours. cbn [filter app]. now rewrite Ht.
  - unfold other_classes at 1. unfold Dom.remove at 1. rewrite filter_app.
    cbn [filter]. rewrite Ht. cbn [negb]. rewrite app_nil_r. apply others_remove.
Qed.

Lemma update_lookup doc id f :
  Dom.getElementById (Dom.update doc id f) id = option_map f (Dom.getElementById doc id).
Proof.
  induction doc as [|[k el] doc IH]; [reflexivity|]. cbn.
  destruct (String.eqb k id) eqn:Hk; cbn; rewrite Hk; [reflexivity|exact IH].
Qed.

Lemma update_other doc id f id' : id' <> id ->
  Dom.getElementById (Dom.update doc id f) id' = Dom.getElementById doc id'.
Proof.
  intros Hne. induction doc as [|[k el] doc IH]; [reflexivity|]. cbn.
  destruct (String.eqb_spec k id) as [->|Hk]; cbn.
  - destruct (String.eqb_spec id id') as [Heq|_]; [congruence|reflexivity].
  - now rewrite IH.
Qed.

(** X12: the colour of a sentiment.  After [updateSentiment] the element
    carries exactly one of the three colour classes: green for
    [Positive], red for [Negative], neutral for anything else, a missing
    sentiment included; its text is the sentiment ([Neutral] when it is
    missing), its other classes are kept, and every other element is left
    as it was. *)
Theorem updateSentiment_one_colour (doc : document) (id : string)
    (sentiment : js_text) (el : element) :
  Dom.getElementById doc id = Some el ->
  exists el',
    Dom.getElementById (updateSentiment doc id sentiment) id = Some el' /\
    textContent el' = effectiveSentiment sentiment /\
    colours (classList el') =
      [if String.eqb (effectiveSentiment sentiment) "Positive" then "text-green"
       else if String.eqb (effectiveSentiment sentiment) "Negative" then "text-red"
       else "text-neutral"]%string /\
    other_classes (classList el') = other_classes (classList el) /\
    forall id', id' <> id ->
      Dom.getElementById (updateSentiment doc id sentiment) id' =
      Dom.getElementById doc id'.
Proof.
  intros Hel. unfold updateSentiment.
  exists (updateSentiment_element sentiment el).
  split; [now rewrite update_lookup, Hel|].
  split; [reflexivity|].
  unfold updateSentiment_element. cbn [classList].
  split; [|split].
  - destruct (String.eqb _ "Positive"); [|destruct (String.eqb _ "Negative")];
      now apply add_colour.
  - destruct (String.eqb _ "Positive"); [|destruct (String.eqb _ "Negative")];
      now apply add_colour.
  - intros id' Hne. now apply update_other.
Qed.

Lemma updateSentiment_one_colour_witness :
  exists el',
    Dom.getElementById
      (updateSentiment [("s", mk_element "" ["badge"; "text-red"])]%string "s" NullText)
      "s" = Some el' /\
    textContent el' = effectiveSentiment NullText /\
    colours (classList el') =
      [if String.eqb (effectiveSentiment NullText) "Positive" then "text-green"
       else if String.eqb (effectiveSentiment NullText) "Negative" then "text-red"
       else "text-neutral"]%string /\
    other_classes (classList el') =
      other_classes (classList (mk_element "" ["badge"; "text-red"]%string)) /\
    forall id', id' <> "s"%string ->
      Dom.getElementById
        (updateSentiment [("s", mk_element "" ["badge"; "text-red"])]%string "s" NullText)
        id' =
      Dom.getElementById [("s", mk_element "" ["badge"; "text-red"])]%string id'.
Proof.
  apply (updateSentiment_one_colour
           [("s", mk_element "" ["badge"; "text-red"])]%string "s" NullText
           (mk_element "" ["badge"; "text-red"]%string)).
  reflexivity.
Defined.

(** ** An id is not a selector *)

Lemma update_missing doc id f : Dom.getElementById doc id = None -> Dom.update doc id f = doc.
Proof.
  induction doc as [|[k el] doc IH]; [reflexivity|]. cbn.
  destruct (String.eqb k id); [discriminate|]. intros H. now rewrite IH.
Qed.

Lemma lookup_spaced doc id : has_space id = true ->
  Forall (fun kv => has_space (fst kv) = false) doc ->
  Dom.getElementById doc id = None.
Proof.
  intros Hid Hdoc. induction Hdoc as [|[k el] doc Hk _ IH]; [reflexivity|].
  cbn [Dom.getElementById]. cbn [fst] in Hk.
  destruct (String.eqb_spec k id) as [Heq|_]; [|exact IH].
  rewrite Heq, Hid in Hk. discriminate.
Qed.

(** X13: the sentiment of the news.  [updateNews] passes
    [news-stock-sentiment span] and [news-market-sentiment span] to
    [updateSentiment], which looks them up with [getElementById]: in a
    document whose ids have no space, as HTML requires, no element is
    found and the calls change nothing, whatever the sentiment. *)
Theorem news_sentiment_not_shown (doc : document) (sentiment : js_text) :
  Forall (fun kv => has_space (fst kv) = false) doc ->
  updateSentiment doc "news-stock-sentiment span" sentiment = doc /\
  updateSentiment doc "news-market-sentiment span" sentiment = doc.
Proof.
  intros Hdoc. unfold updateSentiment.
  split; apply update_missing, lookup_spaced; try exact Hdoc; reflexivity.
Qed.

Lemma news_sentiment_not_shown_witness :
  updateSentiment [("news-stock-sentiment", mk_element "" [])]%string
    "news-stock-sentiment span" (Text "Positive") =
    [("news-stock-sentiment", mk_element "" [])]%string /\
  updateSentiment [("news-stock-sentiment", mk_element "" [])]%string
    "news-market-sentiment span" (Text "Positive") =
    [("news-stock-sentiment", mk_element "" [])]%string.
Proof.
  apply (news_sentiment_not_shown [("news-stock-sentiment", mk_element "" [])]%string).
  repeat constructor.
Defined.

(** ** The change of the price *)

(** [toFixed(2)] of a negative number starts with the minus sign. *)
Lemma toFixed2_negative x : (x <? 0)%float = true ->
  first_char (NumberFormat.toFixed2 x) = Some "-"%char.
Proof.
  rewrite ltb_spec. unfold NumberFormat.toFixed2.
  change (Prim2SF 0) with (S754_zero false).
  destruct (Prim2SF x) as [s|[]| |[] m e]; cbn [SFltb SFcompare]; try discriminate.
  - intros _. reflexivity.
  - intros _. destruct (10 ^ 21 <=? _); reflexivity.
Qed.

(** [toFixed(2)] of a number that is neither below nor above [0]. *)
Lemma toFixed2_neither x : (0 <? x)%float = false -> (x <? 0)%float = false ->
  NumberFormat.toFixed2 x = "0.00"%string \/ NumberFormat.toFixed2 x = "NaN"%string.
Proof.
  rewrite !ltb_spec. unfold NumberFormat.toFixed2.
  change (Prim2SF 0) with (S754_zero false).
  destruct (Prim2SF x) as [s|[]| |[] m e]; cbn [SFltb SFcompare]; try discriminate; auto.
Qed.

(** X14: the change of the price.  When [updateStockInfo] shows a change,
    the element carries exactly one colour class and the text starts with
    the matching sign: [+] with green, [-] with red, and [0.00] or [NaN]
    with neutral; when a price is missing or zero the text is emptied and
    the class list, the colour of an earlier stock included, is left as it
    was. *)
Theorem change_sign_and_colour (currentPrice previousClose : js_number) (el : element) :
  exists el',
    updateStockInfo_change currentPrice previousClose (Some el) = Some el' /\
    other_classes (classList el') = other_classes (classList el) /\
    if truthy currentPrice && truthy previousClose then
      (colours (classList el') = ["text-green"%string] /\
       first_char (textContent el') = Some "+"%char) \/
      (colours (classList el') = ["text-red"%string] /\
       first_char (textContent el') = Some "-"%char) \/
      (colours (classList el') = ["text-neutral"%string] /\
       (first_char (textContent el') = Some "0"%char \/
        first_char (textContent el') = Some "N"%char))
    else textContent el' = EmptyString /\ classList el' = classList el.
Proof.
  unfold updateStockInfo_change.
  destruct (truthy currentPrice && truthy previousClose).
  - eexists. split; [reflexivity|]. cbn [classList textContent].
    set (change := (number_of currentPrice - number_of previousClose)%float).
    destruct (0 <? change)%float eqn:Hpos; [|destruct (change <? 0)%float eqn:Hneg].
    + destruct (add_colour "text-green" (classList el) eq_refl) as [H1 H2].
      split; [exact H2|]. left. split; [exact H1|reflexivity].
    + destruct (add_colour "text-red" (classList el) eq_refl) as [H1 H2].
      split; [exact H2|]. right; left. split; [exact H1|].
      pose proof (toFixed2_negative change Hneg) as Hf.
      cbn [append]. destruct (NumberFormat.toFixed2 change); [discriminate|exact Hf].
    + destruct (add_colour "text-neutral" (classList el) eq_refl) as [H1 H2].
      split; [exact H2|]. right; right. split; [exact H1|].
      cbn [append].
      destruct (toFixed2_neither change Hpos Hneg) as [-> | ->]; [left|right]; reflexivity.
  - eexists. split; [reflexivity|]. cbn [classList textContent]. auto.
Qed.

(** ** Trimming *)

Lemma trimStart_head s : Str.trimStart s = [] \/
  Str.is_white_space (hd 0%N (Str.trimStart s)) = false.
Proof.
  induction s as [|c s IH]; [now left|]. cbn [Str.trimStart].
  destruct (Str.is_white_space c) eqn:Hc; [exact IH|]. right. exact Hc.
Qed.

Lemma trimStart_suffix s : exists pre, s = (pre ++ Str.trimStart s)%list.
Proof.
  induction s as [|c s [pre IH]]; [now exists []|]. cbn [Str.trimStart].
  destruct (Str.is_white_space c).
  - exists (c :: pre). cbn. now rewrite <- IH.
  - now exists [].
Qed.

Lemma hd_app_nonempty (a b : jstring) : a <> [] -> hd 0%N (a ++ b) = hd 0%N a.
Proof. destruct a; [congruence|reflexivity]. Qed.

Lemma hd_rev_last (s : jstring) : hd 0%N (rev s) = last s 0%N.
Proof.
  induction s as [|c s IH] using rev_ind; [reflexivity|].
  rewrite rev_app_distr, last_last. reflexivity.
Qed.

Lemma trim_ends value : Str.trim value <> [] ->
  Str.is_white_space (hd 0%N (Str.trim value)) = false /\
  Str.is_white_space (last (Str.trim value) 0%N) = false.
Proof.
  unfold Str.trim, Str.trimEnd. set (a := Str.trimStart value).
  set (b := Str.trimStart (rev a)). intros Hne.
  assert (Hb : b <> []) by (intros Hb; apply Hne; now rewrite Hb).
  split.
  - destruct (trimStart_suffix (rev a)) as [pre Hpre]. fold b in Hpre.
    assert (Ha : a = (rev b ++ rev pre)%list).
    { rewrite <- rev_app_distr, <- Hpre. now rewrite rev_involutive. }
    assert (Hh : hd 0%N (rev b) = hd 0%N a).
    { rewrite Ha. symmetry. apply hd_app_nonempty.
      intros Hr. apply Hb. rewrite <- (rev_involutive b), Hr. reflexivity. }
    rewrite Hh. destruct (trimStart_head value) as [He|Hw]; [|exact Hw].
    exfalso. apply Hb. unfold b, a. now rewrite He.
  - rewrite <- hd_rev_last, rev_involutive.
    destruct (trimStart_head (rev a)) as [He|Hw]; [|exact Hw].
    exfalso. now apply Hb.
Qed.

(** ** Timers *)

Lemma clear_one_timer s : one_timer s -> clearTimeout (searchTimer s) (timers s) = [].
Proof.
  intros [Hs|(i & q & Ht & Hi)].
  - rewrite Hs. unfold clearTimeout. destruct (searchTimer s); reflexivity.
  - rewrite Ht, Hi. cbn. now rewrite Nat.eqb_refl.
Qed.

Lemma on_input_timers value s : one_timer s ->
  timers (on_input value s) =
    (if (List.length (Str.trim value) <? 2)%nat then []
     else [(next_timer s, Str.trim value)]) /\
  one_timer (on_input value s).
Proof.
  intros Hs. unfold on_input. rewrite (clear_one_timer s Hs).
  destruct (List.length (Str.trim value) <? 2)%nat; cbn.
  - split; [reflexivity|now left].
  - split; [reflexivity|]. right. do 2 eexists. split; reflexivity.
Qed.

Lemma searchable_trim evs value : In (Input value) evs ->
  (List.length (Str.trim value) <? 2)%nat = false -> searchable evs (Str.trim value).
Proof.
  intros Hin Hlen. apply Nat.ltb_ge in Hlen.
  assert (Hne : Str.trim value <> []) by (destruct (Str.trim value); cbn in *; [lia|discriminate]).
  destruct (trim_ends value Hne) as [H1 H2].
  repeat split; eauto.
Qed.

Lemma searchable_more evs evs' q : (forall e, In e evs -> In e evs') ->
  searchable evs q -> searchable evs' q.
Proof.
  intros Hsub (H1 & (v & Hv & Hq) & H3 & H4). repeat split; eauto.
Qed.

(** The invariant of the handlers, for the events [seen] so far. *)
Lemma run_invariant evs : forall s seen,
  one_timer s -> Forall (fun t => searchable seen (snd t)) (timers s) ->
  one_timer (fst (run s evs)) /\
  Forall (searchable (seen ++ evs)) (snd (run s evs)).
Proof.
  induction evs as [|[value|] evs IH]; intros s seen Hs Hq; cbn [run].
  - split; [exact Hs|constructor].
  - destruct (on_input_timers value s Hs) as [Ht H1].
    destruct (IH (on_input value s) (seen ++ [Input value])%list H1) as [H2 H3].
    + rewrite Ht. destruct (List.length (Str.trim value) <? 2)%nat eqn:Hlen; constructor; [|constructor].
      apply searchable_trim; [|exact Hlen]. apply in_or_app. right. now left.
    + split; [exact H2|]. now rewrite <- app_assoc in H3.
  - unfold on_timeout.
    destruct (timers s) as [|[i q] ts] eqn:Hts.
    + destruct (IH s (seen ++ [Timeout])%list Hs) as [H2 H3].
      { rewrite Hts. constructor. }
      destruct (run s evs) as [s2 r2]. cbn [fst snd app] in *.
      split; [exact H2|]. now rewrite <- app_assoc in H3.
    + assert (Hts' : ts = []).
      { destruct Hs as [Hs|(i' & q' & Hs & _)]; rewrite Hts in Hs; congruence. }
      subst ts. inversion Hq as [|? ? Hq1 _]; subst.
      destruct (IH (mk_search (searchTimer s) [] (next_timer s) (display s))
                  (seen ++ [Timeout])%list) as [H2 H3]; [now left|constructor|].
      destruct (run _ evs) as [s2 r2]. cbn [fst snd app] in *.
      split; [exact H2|]. constructor.
      * eapply searchable_more; [|exact Hq1]. intros e He. apply in_or_app. now left.
      * now rewrite <- app_assoc in H3.
Qed.

(** X15: the timer of the search box.  Whatever is typed and whenever
    timeouts fire, at most one timeout is pending, and every search sent
    to the backend is the trimmed text of some input event, at least two
    code units long, with no white space at either end. *)
Theorem search_timer_invariant (evs : list event) :
  (List.length (timers (fst (run search_loaded evs))) <= 1)%nat /\
  Forall (searchable evs) (snd (run search_loaded evs)).
Proof.
  destruct (run_invariant evs search_loaded []) as [H1 H2]; [now left|constructor|].
  split; [|exact H2].
  destruct H1 as [-> | (i & q & -> & _)]; cbn; lia.
Qed.

(** ** Debouncing *)

Lemma run_app s evs evs' :
  run s (evs ++ evs') =
  (fst (run (fst (run s evs)) evs'), (snd (run s evs) ++ snd (run (fst (run s evs)) evs'))%list).
Proof.
  revert s. induction evs as [|[value|] evs IH]; intros s; cbn [run app].
  - cbn [fst snd app]. now destruct (run s evs').
  - apply IH.
  - destruct (on_timeout s) as [s1 r1]. rewrite IH.
    destruct (run s1 evs) as [s2 r2]. cbn [fst snd]. now rewrite app_assoc.
Qed.

Lemma run_inputs values : forall s, one_timer s ->
  one_timer (fst (run s (map Input values))) /\
  snd (run s (map Input values)) = [].
Proof.
  induction values as [|v values IH]; intros s Hs; cbn [map run]; [auto|].
  apply IH. now apply on_input_timers.
Qed.

Lemma run_timeouts n : forall s, timers s = [] -> run s (repeat Timeout n) = (s, []).
Proof.
  induction n as [|n IH]; intros s Hs; cbn [repeat run]; [reflexivity|].
  unfold on_timeout. rewrite Hs. now rewrite IH.
Qed.

(** X16: debouncing.  After any burst of input events, the timeouts that
    fire next lead to at most one search: the trimmed text of the last
    input when that has two code units or more, nothing otherwise.  The
    inputs before the last one are never searched for. *)
Theorem search_debounced (values : list jstring) (value : jstring) (n : nat) :
  snd (run search_loaded (map Input (values ++ [value]) ++ repeat Timeout (S n))) =
    if (List.length (Str.trim value) <? 2)%nat then [] else [Str.trim value].
Proof.
  rewrite map_app, <- app_assoc, run_app.
  destruct (run_inputs values search_loaded) as [Hs Hr]; [now left|].
  cbn [snd]. rewrite Hr. cbn [app map run].
  set (s := fst (run search_loaded (map Input values))) in *.
  destruct (on_input_timers value s Hs) as [Ht _].
  cbn [repeat run]. unfold on_timeout. rewrite Ht.
  destruct (List.length (Str.trim value) <? 2)%nat.
  - now rewrite run_timeouts.
  - rewrite run_timeouts by reflexivity. reflexivity.
Qed.

(** ** The extremes bound the returns *)

Lemma before_irrefl x : is_nan x = false -> before x x = false.
Proof.
  intros Hx. destruct (before x x) eqn:H; [|reflexivity].
  rewrite (before_asym x x Hx Hx H) in H. discriminate.
Qed.

Lemma not_before_trans x y z :
  is_nan x = false -> is_nan y = false -> is_nan z = false ->
  before y x = false -> before z y = false -> before z x = false.
Proof.
  intros Hx Hy Hz H1 H2. destruct (before z x) eqn:H; [exfalso|reflexivity].
  destruct (before_false y x Hy Hx H1) as [->|H1']; [congruence|].
  rewrite (before_trans z x y Hz Hx Hy H H1') in H2. discriminate.
Qed.

Lemma fold_min_bound l : forall a, is_nan a = false ->
  Forall (fun x => is_nan x = false) l ->
  is_nan (fold_left Math.min_step l a) = false /\
  before a (fold_left Math.min_step l a) = false /\
  forall x, In x l -> before x (fold_left Math.min_step l a) = false.
Proof.
  induction l as [|x l IH]; intros a Ha Hl; cbn [fold_left].
  - split; [exact Ha|]. split; [now apply before_irrefl|]. intros x [].
  - inversion Hl as [|? ? Hx Hl']; subst.
    pose proof (min_step_not_nan a x Ha Hx) as Hs.
    destruct (IH _ Hs Hl') as (Hr & Hb & Hall).
    set (r := fold_left Math.min_step l (Math.min_step a x)) in *.
    rewrite min_step_before in Hb.
    split; [exact Hr|].
    destruct (before x a) eqn:Hxa.
    + split.
      * destruct (before a r) eqn:Har; [exfalso|reflexivity].
        rewrite (before_trans x a r Hx Ha Hr Hxa Har) in Hb. discriminate.
      * intros y [<-|Hy]; [exact Hb|now apply Hall].
    + split; [exact Hb|].
      intros y [<-|Hy]; [|now apply Hall].
      now apply (not_before_trans r a x).
Qed.

Lemma fold_max_bound l : forall a, is_nan a = false ->
  Forall (fun x => is_nan x = false) l ->
  is_nan (fold_left Math.max_step l a) = false /\
  before (fold_left Math.max_step l a) a = false /\
  forall x, In x l -> before (fold_left Math.max_step l a) x = false.
Proof.
  induction l as [|x l IH]; intros a Ha Hl; cbn [fold_left].
  - split; [exact Ha|]. split; [now apply before_irrefl|]. intros x [].
  - inversion Hl as [|? ? Hx Hl']; subst.
    pose proof (max_step_not_nan a x Ha Hx) as Hs.
    destruct (IH _ Hs Hl') as (Hr & Hb & Hall).
    set (r := fold_left Math.max_step l (Math.max_step a x)) in *.
    rewrite max_step_before in Hb.
    split; [exact Hr|].
    destruct (before a x) eqn:Hax.
    + split.
      * destruct (before r a) eqn:Hra; [exfalso|reflexivity].
        rewrite (before_trans r a x Hr Ha Hx Hra Hax) in Hb. discriminate.
      * intros y [<-|Hy]; [exact Hb|now apply Hall].
    + split; [exact Hb|].
      intros y [<-|Hy]; [|now apply Hall].
      now apply (not_before_trans x a r).
Qed.

Lemma before_ltb x y : before x y = false -> (x <? y)%float = false.
Proof. unfold before. now intros [H _]%orb_false_iff. Qed.

Lemma min_bound l x : existsb is_nan l = false -> In x l ->
  is_nan (Math.min l) = false /\ before x (Math.min l) = false.
Proof.
  intros Hn Hin. unfold Math.min. rewrite Hn.
  destruct (fold_min_bound l infinity eq_refl (existsb_false_forall l Hn)) as (H1 & _ & H3).
  split; [exact H1|now apply H3].
Qed.

Lemma max_bound l x : existsb is_nan l = false -> In x l ->
  is_nan (Math.max l) = false /\ before (Math.max l) x = false.
Proof.
  intros Hn Hin. unfold Math.max. rewrite Hn.
  destruct (fold_max_bound l neg_infinity eq_refl (existsb_false_forall l Hn)) as (H1 & _ & H3).
  split; [exact H1|now apply H3].
Qed.

(** X17: the extremes bound the returns.  In a series without [NaN],
    [minReturn] and [maxReturn] are numbers, no return is below
    [minReturn] and none is above [maxReturn], and when a return is a
    zero the sign of the zero is respected too: [-0] counts as below
    [+0]. *)
Theorem returns_within_extremes (l : list number) (ret : number) :
  existsb is_nan l = false -> In ret l ->
  is_nan (minReturn_of l) = false /\ is_nan (maxReturn_of l) = false /\
  (ret <? minReturn_of l)%float = false /\
  (maxReturn_of l <? ret)%float = false /\
  before ret (minReturn_of l) = false /\
  before (maxReturn_of l) ret = false.
Proof.
  intros Hn Hin. unfold minReturn_of, maxReturn_of.
  destruct (min_bound l ret Hn Hin) as [H1 H2].
  destruct (max_bound l ret Hn Hin) as [H3 H4].
  repeat split; try assumption; now apply before_ltb.
Qed.

Lemma returns_within_extremes_witness :
  is_nan (minReturn_of [0; -0; 0]%float) = false /\
  is_nan (maxReturn_of [0; -0; 0]%float) = false /\
  (0 <? minReturn_of [0; -0; 0]%float)%float = false /\
  (maxReturn_of [0; -0; 0]%float <? 0)%float = false /\
  before 0%float (minReturn_of [0; -0; 0]%float) = false /\
  before (maxReturn_of [0; -0; 0]%float) 0%float = false.
Proof.
  apply (returns_within_extremes [0; -0; 0]%float 0%float);
    [reflexivity | left; reflexivity].
Defined.

(** ** A range that is not positive *)

Lemma mantissa_bounds s m e : valid_binary (S754_finite s m e) = true ->
  Zpos m < 2 ^ 53 /\ (-1074 < e -> 2 ^ 52 <= Zpos m).
Proof.
  intros Hv. pose proof (digits2_bounds m) as [Hlo Hhi].
  destruct (valid_exponent s m e Hv) as [_ Hd]. split.
  - eapply Z.lt_le_trans; [exact Hhi|]. apply Z.pow_le_mono_r; lia.
  - intros He. rewrite (valid_normal s m e Hv He) in Hlo. exact Hlo.
Qed.

(** Below, for two numbers written with the same exponent. *)
Lemma aligned_lt sa ma ea sb mb eb :
  valid_binary (S754_finite sa ma ea) = true ->
  valid_binary (S754_finite sb mb eb) = true ->
  SFcompare (S754_finite sa ma ea) (S754_finite sb mb eb) = Some Lt ->
  cond_Zopp sa (Zpos ma * 2 ^ (ea - Z.min eb ea)) <
  cond_Zopp sb (Zpos mb * 2 ^ (eb - Z.min eb ea)).
Proof.
  intros Ha Hb. destruct (mantissa_bounds _ _ _ Ha) as [Ha1 Ha2].
  destruct (mantissa_bounds _ _ _ Hb) as [Hb1 Hb2].
  assert (Hpa : 0 < 2 ^ (ea - Z.min eb ea)) by (apply Z.pow_pos_nonneg; lia).
  assert (Hpb : 0 < 2 ^ (eb - Z.min eb ea)) by (apply Z.pow_pos_nonneg; lia).
  cbn [SFcompare]. destruct sa, sb; cbn [cond_Zopp]; try discriminate.
  - destruct (Z.compare_spec ea eb) as [He|He|He]; try discriminate.
    + destruct (Pos.compare_cont Eq ma mb) eqn:Hm; try discriminate.
      apply pos_compare_gt in Hm as Hz. intros _.
      subst eb. rewrite Z.min_id, Z.sub_diag. cbn. lia.
    + intros _. rewrite Z.min_l by lia. rewrite Z.sub_diag.
      assert (2 ^ 1 <= 2 ^ (ea - eb)) by (apply Z.pow_le_mono_r; lia).
      specialize (Ha2 ltac:(destruct (valid_exponent _ _ _ Hb); lia)).
      change (2 ^ 1) with 2 in *. change (2 ^ 0) with 1. nia.
  - intros _. nia.
  - destruct (Z.compare_spec ea eb) as [He|He|He]; try discriminate.
    + destruct (Pos.compare_cont Eq ma mb) eqn:Hm; try discriminate.
      apply pos_compare_lt in Hm as Hz. intros _.
      subst eb. rewrite Z.min_id, Z.sub_diag. cbn. lia.
    + intros _. rewrite Z.min_r by lia. rewrite Z.sub_diag.
      assert (2 ^ 1 <= 2 ^ (eb - ea)) by (apply Z.pow_le_mono_r; lia).
      specialize (Hb2 ltac:(destruct (valid_exponent _ _ _ Ha); lia)).
      change (2 ^ 1) with 2 in *. change (2 ^ 0) with 1. nia.
Qed.

Lemma pos_above_positive E x : pos_above E (Prim2SF x) -> (0 <? x)%float = true.
Proof.
  intros H. rewrite ltb_spec. change (Prim2SF 0) with (S754_zero false).
  destruct H as [-> |(m & e & -> & _)]; reflexivity.
Qed.

(** The difference of two finite numbers, the larger one first, is
    positive: subtraction does not underflow to zero. *)
Lemma sub_positive a b : is_finite a = true -> is_finite b = true ->
  (a <? b)%float = true -> (0 <? b - a)%float = true.
Proof.
  intros Ha Hb Hlt. rewrite ltb_spec in Hlt. unfold SFltb in Hlt.
  pose proof (Prim2SF_valid a) as Hva. pose proof (Prim2SF_valid b) as Hvb.
  apply is_finite_spec in Ha, Hb.
  rewrite ltb_spec, sub_spec. change (Prim2SF 0) with (S754_zero false).
  destruct Ha as [[sa Ha]|(sa & ma & ea & Ha)], Hb as [[sb Hb]|(sb & mb & eb & Hb)];
    rewrite Ha, Hb in *.
  - discriminate.
  - cbn [SFcompare] in Hlt. destruct sb; [discriminate|]. reflexivity.
  - cbn [SFcompare] in Hlt. destruct sa; [|discriminate]. destruct sb; reflexivity.
  - destruct (SFcompare (S754_finite sa ma ea) (S754_finite sb mb eb)) as [[]|] eqn:Hc;
      try discriminate.
    pose proof (aligned_lt _ _ _ _ _ _ Hva Hvb Hc) as Hz.
    unfold SF64sub, SFsub.
    pose proof (shl_align_spec mb eb (Z.min eb ea)) as Sb.
    pose proof (shl_align_spec ma ea (Z.min eb ea)) as Sa.
    change (IntDef.Z.min eb ea) with (Z.min eb ea).
    destruct (shl_align mb eb (Z.min eb ea)) as [mb' eb'].
    destruct (shl_align ma ea (Z.min eb ea)) as [ma' ea'].
    destruct Sb as [Eb Mb], Sa as [Ea Ma]. cbn [fst].
    assert (Eb' : eb' = Z.min eb ea) by lia.
    assert (Ea' : ea' = Z.min eb ea) by lia.
    rewrite Eb' in Mb. rewrite Ea' in Ma. rewrite Mb, Ma.
    destruct (cond_Zopp sb _ - cond_Zopp sa _) as [|p|p] eqn:Hd; try lia.
    cbn [binary_normalize].
    destruct (valid_exponent _ _ _ Hva) as [Hea _].
    destruct (valid_exponent _ _ _ Hvb) as [Heb _].
    destruct (binary_round_pos p (Z.min eb ea) ltac:(lia)) as [-> |(m & e & -> & _)];
      reflexivity.
Qed.

(** A number between a lower and an upper bound that are not apart. *)
Lemma squeezed x lo hi :
  is_nan x = false -> is_nan lo = false -> is_nan hi = false ->
  before x lo = false -> before hi x = false -> (lo <? hi)%float = false ->
  (x =? hi)%float = true.
Proof.
  intros Hx Hlo Hhi H1 H2 H3.
  assert (L1 : ~ lex (rank (Prim2SF x)) (rank (Prim2SF lo))).
  { intros L. apply (before_spec x lo Hx Hlo) in L. congruence. }
  assert (L2 : ~ lex (rank (Prim2SF hi)) (rank (Prim2SF x))).
  { intros L. apply (before_spec hi x Hhi Hx) in L. congruence. }
  destruct (before lo hi) eqn:Hb.
  - unfold before in Hb. rewrite H3 in Hb. cbn [orb] in Hb.
    apply andb_prop in Hb. destruct Hb as [Hn Hp].
    rewrite is_neg_zero_spec in Hn. rewrite is_pos_zero_spec in Hp.
    rewrite eqb_spec. apply is_nan_false in Hx.
    destruct (Prim2SF lo) as [[]|?| |? ? ?]; try discriminate.
    destruct (Prim2SF hi) as [[]|?| |? ? ?]; try discriminate.
    unfold lex in L1, L2.
    destruct (Prim2SF x) as [sx|[]| |[] mx ex]; cbn in L1, L2; try congruence;
      try (exfalso; lia).
    destruct sx; reflexivity.
  - assert (L3 : ~ lex (rank (Prim2SF lo)) (rank (Prim2SF hi))).
    { intros L. apply (before_spec lo hi Hlo Hhi) in L. congruence. }
    assert (E : x = hi).
    { apply same_rank; try assumption.
      destruct (lex_cases (rank (Prim2SF x)) (rank (Prim2SF hi))) as [L|[L|L]];
        [exfalso|exact L|contradiction].
      destruct (lex_cases (rank (Prim2SF lo)) (rank (Prim2SF x))) as [L'|[L'|L']].
      - apply L3. eapply lex_trans; eassumption.
      - apply L3. now rewrite L'.
      - contradiction. }
    rewrite E. now apply eqb_refl.
Qed.

(** X18: a range that is not positive.  For finite returns, whenever the
    test [range > 0] fails the width is 1, the branch for a zero width is
    not taken, and every return is counted in the last bin: the returns
    are then all equal, [0] and [-0] counting as equal. *)
Theorem flat_range_last_bin (l : list number) :
  l <> [] -> Forall finite l -> (0 <? range_of l)%float = false ->
  exists h, computeHistogram l = Some h /\
    binWidth h = 1%float /\
    Forall (fun ret => (ret =? maxReturn h)%float = true) l /\
    forall j, cell_value j (bins h) =
              if Nat.eqb j (binCount l - 1) then Z.of_nat (List.length l) else 0.
Proof.
  intros Hne Hf Hr.
  assert (Hw : binWidth_of l = 1%float) by (unfold binWidth_of; now rewrite Hr).
  pose proof (no_nan l Hf) as Hn.
  pose proof (min_finite l Hne Hf) as Hmin. pose proof (max_finite l Hne Hf) as Hmax.
  fold (minReturn_of l) in Hmin. fold (maxReturn_of l) in Hmax.
  assert (Hflat : (minReturn_of l <? maxReturn_of l)%float = false).
  { destruct (minReturn_of l <? maxReturn_of l)%float eqn:Hlt; [|reflexivity].
    unfold range_of in Hr. rewrite (sub_positive _ _ Hmin Hmax Hlt) in Hr. discriminate. }
  assert (Hall : Forall (fun ret => (ret =? maxReturn_of l)%float = true) l).
  { apply Forall_forall. intros ret Hin.
    destruct (min_bound l ret Hn Hin) as [H1 H2].
    destruct (max_bound l ret Hn Hin) as [H3 H4].
    apply (squeezed ret (minReturn_of l) (maxReturn_of l)); try assumption.
    apply finite_not_nan. rewrite Forall_forall in Hf. now apply Hf. }
  destruct (bins_of_computeHistogram l Hne) as (h & Hh & Hb & _ & Hmx & _ & Hbw & _).
  exists h. split; [exact Hh|]. split; [now rewrite Hbw|].
  split; [now rewrite Hmx|].
  intros j. rewrite Hb.
  rewrite (fold_all_max l Hne l (Arr.fill0 (binCount l))).
  - now rewrite fill0_cell.
  - apply fill0_counts.
  - now rewrite Hw.
  - rewrite Forall_forall in Hall. apply Forall_forall. intros ret Hin. split.
    + apply quotient_not_nan; try assumption; now rewrite Hw.
    + now apply Hall.
Qed.

Lemma flat_range_last_bin_witness :
  exists h, computeHistogram [0; -0; 0]%float = Some h /\
    binWidth h = 1%float /\
    Forall (fun ret => (ret =? maxReturn h)%float = true) [0; -0; 0]%float /\
    forall j, cell_value j (bins h) =
              if Nat.eqb j (binCount [0; -0; 0]%float - 1)
              then Z.of_nat (List.length [0; -0; 0]%float) else 0.
Proof.
  apply (flat_range_last_bin [0; -0; 0]%float);
    [discriminate | repeat constructor | reflexivity].
Defined.

(** ** The statistics *)

Section Shown.

Variable currency : number -> string.
Variable localized : number -> string.
Variable statistics : string -> scalar.

Let write (id : string) (text : scalar) (el : element) : element :=
  mk_element (text_of currency localized id text "-") (classList el).

Lemma updateText_lookup doc id text id' :
  Dom.getElementById (fst (updateText currency localized doc id text "-")) id' =
  if String.eqb id id' then option_map (write id text) (Dom.getElementById doc id)
  else Dom.getElementById doc id'.
Proof.
  unfold updateText. destruct (Dom.getElementById doc id) as [el|] eqn:Hel; cbn [fst].
  - destruct (String.eqb_spec id id') as [<-|Hne].
    + now rewrite update_lookup, Hel.
    + apply update_other. congruence.
  - destruct (String.eqb_spec id id') as [<-|Hne]; [exact Hel|reflexivity].
Qed.

Lemma fold_updateText calls : forall st id,
  ~ In id (map fst calls) ->
  Dom.getElementById
    (fst (fold_left
       (fun st call =>
          let '(d, t) := updateText currency localized (fst st) (fst call)
                           (statistics (snd call)) "-" in
          (d, (snd st ++ t)%list)) calls st)) id =
  Dom.getElementById (fst st) id.
Proof.
  induction calls as [|[k f] calls IH]; intros st id Hid; cbn [fold_left]; [reflexivity|].
  cbn [map fst In] in Hid. rewrite IH by tauto. cbn [fst snd].
  pose proof (updateText_lookup (fst st) k (statistics f) id) as H.
  destruct (updateText currency localized (fst st) k (statistics f) "-") as [d t].
  cbn [fst] in *. rewrite H.
  destruct (String.eqb_spec k id) as [->|_]; [tauto|reflexivity].
Qed.

Lemma updateTexts_lookup calls : NoDup (map fst calls) ->
  forall doc id field, In (id, field) calls ->
  Dom.getElementById (fst (updateTexts currency localized statistics calls doc)) id =
  option_map (write id (statistics field)) (Dom.getElementById doc id).
Proof.
  unfold updateTexts. generalize (@nil effect).
  induction calls as [|[k f] calls IH]; intros t Hnd doc id field Hin; [destruct Hin|].
  cbn [map fst] in Hnd. inversion Hnd as [|? ? Hk Hnd']; subst.
  cbn [fold_left fst snd].
  pose proof (updateText_lookup doc k (statistics f)) as H.
  destruct (updateText currency localized doc k (statistics f) "-") as [d t'].
  cbn [fst] in H.
  destruct Hin as [[= -> ->]|Hin].
  - rewrite fold_updateText by exact Hk. cbn [fst].
    rewrite H, String.eqb_refl. reflexivity.
  - rewrite (IH _ Hnd' d id field Hin). rewrite H.
    destruct (String.eqb_spec k id) as [->|_]; [|reflexivity].
    exfalso. apply Hk. apply (in_map fst) in Hin. exact Hin.
Qed.

End Shown.

Lemma statistics_fields_nodup : NoDup (map fst statistics_fields).
Proof.
  cbn. repeat (constructor; [cbn; intuition discriminate|]). constructor.
Qed.

(** X19: how the statistics are shown.  After [updateStatistics], each
    statistic that is a finite number stands in its element in the format
    picked from the element's id: the mean and the median as a currency
    amount, the probabilities and streaks as a percentage, but
    [mean_daily_return_percent] as a currency amount too, because its id
    contains [mean], while [std_dev_daily_return_percent] is a
    percentage.  The classes of the element are kept. *)
Theorem statistics_shown_as (currency localized : number -> string)
    (doc : document) (statistics : string -> scalar)
    (id field : string) (f : format) (el : element) (x : number) :
  In (id, field) statistics_fields -> In (id, f) statistics_formats ->
  Dom.getElementById doc id = Some el ->
  statistics field = Num x -> is_finite x = true ->
  Dom.getElementById (fst (updateStatistics currency localized doc statistics)) id =
    Some (mk_element (render currency localized f x) (classList el)).
Proof.
  intros Hin Hf Hel Hx Hfin. unfold updateStatistics.
  rewrite (updateTexts_lookup currency localized statistics statistics_fields
             statistics_fields_nodup doc id field Hin).
  rewrite Hel, Hx. cbn [option_map]. unfold text_of. rewrite Hfin. cbn [negb].
  assert (Hfmt : format_of id = f).
  { clear - Hf. unfold statistics_formats in Hf. cbn [In] in Hf.
    repeat (destruct Hf as [[= <- <-]|Hf]; [vm_compute; reflexivity|]).
    destruct Hf. }
  now rewrite Hfmt.
Qed.

Lemma statistics_shown_as_witness :
  Dom.getElementById
    (fst (updateStatistics (fun _ => "rupees"%string) (fun _ => "number"%string)
            [("stat-mean_daily_return_percent", mk_element "-" ["stat"])]%string
            (fun _ => Num 0.5%float)))
    "stat-mean_daily_return_percent" =
  Some (mk_element
          (render (fun _ => "rupees"%string) (fun _ => "number"%string) Currency 0.5%float)
          (classList (mk_element "-" ["stat"]%string))).
Proof.
  apply (statistics_shown_as (fun _ => "rupees"%string) (fun _ => "number"%string)
           [("stat-mean_daily_return_percent", mk_element "-" ["stat"])]%string
           (fun _ => Num 0.5%float)
           "stat-mean_daily_return_percent" "mean_daily_return_percent" Currency
           (mk_element "-" ["stat"]%string) 0.5%float).
  - do 10 right. left. reflexivity.
  - do 10 right. left. reflexivity.
  - reflexivity.
  - reflexivity.
  - reflexivity.
Defined.

(** ** Whatever the numbers *)




